(** * MVC To-do List web application: routing layer, request and response
    adapters, models and controllers, embedded from the TypeScript sources.

    Layout: the JavaScript values the program manipulates ([JS]), the request
    adapter (router/Request.ts), the response adapter (router/Response.ts), the
    models (models/Subtodo.ts, models/Todo.ts) over a store of two tables, the
    controllers, and the router.  All definitions come first; the statements
    proved about them follow. *)

From Stdlib Require Import ZArith QArith Qabs Qcanon Ascii String List Bool Lia.
From Stdlib Require Import DecimalString Sorted.
From stdpp Require Import base option list strings gmap.

Close Scope Q_scope.
Local Open Scope Z_scope.

(* ===================================================================== *)
(** * JavaScript values                                                    *)
(* ===================================================================== *)

Module JS.

(** A JavaScript number: [NaN], an infinity, or a finite binary64 value, kept
    as the rational it denotes (in lowest terms).  The sign of zero is not
    kept: no operation of the program tells [-0] from [0]. *)
Inductive JSNumber :=
  | JNaN
  | JInf (negative : bool)
  | JFin (q : Q).

(** A [Date] object: a time value in milliseconds, or "Invalid Date". *)
Inductive JSDate :=
  | ValidDate (ms : Z)
  | InvalidDate.

(** Values of type [any].  [JOpaque] stands for host objects and functions the
    program only passes around (the [sql] client). *)
#[warnings="-register-all"] Inductive JSValue :=
  | JUndefined
  | JNull
  | JBool (b : bool)
  | JNum (n : JSNumber)
  | JStr (s : string)
  | JDateV (d : JSDate)
  | JArr (items : list JSValue)
  | JObj (fields : list (string * JSValue))
  | JOpaque (tag : string).

Definition num_of_Z (z : Z) : JSNumber := JFin (inject_Z z).

(** [isNaN(x)] on a number. *)
Definition isNaN (n : JSNumber) : bool :=
  match n with JNaN => true | _ => false end.

(** [x <= 0] on a number; every comparison with [NaN] is false. *)
Definition le_zero (n : JSNumber) : bool :=
  match n with
  | JNaN => false
  | JInf negative => negative
  | JFin q => Qle_bool q (inject_Z 0)
  end.

Definition number_truthy (n : JSNumber) : bool :=
  match n with
  | JNaN => false
  | JInf _ => true
  | JFin q => negb (Qeq_bool q (inject_Z 0))
  end.

(** [a === b] on numbers: [NaN] equals nothing. *)
Definition strict_equal (a b : JSNumber) : bool :=
  match a, b with
  | JFin p, JFin q => Qeq_bool p q
  | JInf x, JInf y => Bool.eqb x y
  | _, _ => false
  end.

Definition string_truthy (s : string) : bool :=
  match s with EmptyString => false | String _ _ => true end.

(** ToBoolean: what [if (v)], [!v], [v || w] and [v ? a : b] test. *)
Definition truthy (v : JSValue) : bool :=
  match v with
  | JUndefined | JNull => false
  | JBool b => b
  | JNum n => number_truthy n
  | JStr s => string_truthy s
  | JDateV _ | JArr _ | JObj _ | JOpaque _ => true
  end.

(** Truthiness of an optional string property ([redirect?: string]). *)
Definition opt_string_truthy (o : option string) : bool :=
  match o with Some s => string_truthy s | None => false end.

Definition nullish (v : JSValue) : bool :=
  match v with JUndefined | JNull => true | _ => false end.

(** [a ?? b]. *)
Definition coalesce (a b : JSValue) : JSValue :=
  if nullish a then b else a.

Fixpoint assoc (k : string) (l : list (string * JSValue)) : option JSValue :=
  match l with
  | [] => None
  | (k', v) :: l' => if String.eqb k k' then Some v else assoc k l'
  end.

(** Property read [v.k] for a name [k] that no built-in prototype defines
    (the program reads [method], [_method], [title], [description], [dueAt]):
    the own property of an object, [undefined] on any other non-nullish value.
    On [null] and [undefined] JavaScript throws; callers that can reach that
    case test [nullish] first. *)
Definition member (v : JSValue) (k : string) : JSValue :=
  match v with
  | JObj fields => default JUndefined (assoc k fields)
  | _ => JUndefined
  end.

Fixpoint set_field (k : string) (v : JSValue) (l : list (string * JSValue))
  : list (string * JSValue) :=
  match l with
  | [] => [(k, v)]
  | (k', v') :: l' =>
      if String.eqb k k' then (k, v) :: l' else (k', v') :: set_field k v l'
  end.

(** [Object.fromEntries]: a later entry with the same key replaces the value. *)
Definition fromEntries (entries : list (string * string)) : JSValue :=
  JObj (fold_left (fun acc kv => set_field kv.1 (JStr kv.2) acc) entries []).

Definition opt_str (o : option string) : JSValue :=
  match o with Some s => JStr s | None => JUndefined end.

(** ** Strings *)

(** [s.includes(sub)]. *)
Fixpoint includes (s sub : string) : bool :=
  String.prefix sub s ||
  match s with
  | EmptyString => false
  | String _ s' => includes s' sub
  end.

(** [s.split(sep)] for a one-character separator: never the empty list. *)
Fixpoint split (sep : ascii) (s : string) : list string :=
  match s with
  | EmptyString => [EmptyString]
  | String c s' =>
      if Ascii.eqb c sep then EmptyString :: split sep s'
      else match split sep s' with
           | h :: t => String c h :: t
           | [] => [String c EmptyString]
           end
  end.

(** ** [Number(string)]: StringToNumber of ECMA-262 *)

(** White space and line terminators among the code units 0..255. *)
Definition is_space (c : ascii) : bool :=
  let n := N_of_ascii c in
  (N.leb 9 n && N.leb n 13) || N.eqb n 32 || N.eqb n 160.

Definition digit_val (c : ascii) : option Z :=
  let n := Z.of_N (N_of_ascii c) in
  if (48 <=? n) && (n <=? 57) then Some (n - 48) else None.

Definition hex_val (c : ascii) : option Z :=
  let n := Z.of_N (N_of_ascii c) in
  if (48 <=? n) && (n <=? 57) then Some (n - 48)
  else if (97 <=? n) && (n <=? 102) then Some (n - 87)
  else if (65 <=? n) && (n <=? 70) then Some (n - 55)
  else None.

Definition radix_val (radix : Z) (c : ascii) : option Z :=
  match hex_val c with
  | Some d => if d <? radix then Some d else None
  | None => None
  end.

Fixpoint drop_spaces (l : list ascii) : list ascii :=
  match l with
  | c :: l' => if is_space c then drop_spaces l' else l
  | [] => []
  end.

Definition trim (l : list ascii) : list ascii :=
  rev (drop_spaces (rev (drop_spaces l))).

(** Reads the longest run of decimal digits: value so far, digits read, rest. *)
Fixpoint read_digits (acc : Z) (count : Z) (l : list ascii)
  : Z * Z * list ascii :=
  match l with
  | c :: l' =>
      match digit_val c with
      | Some d => read_digits (10 * acc + d) (count + 1) l'
      | None => (acc, count, l)
      end
  | [] => (acc, count, [])
  end.

(** All of [l] as digits of the given radix; [None] if another character
    occurs. *)
Fixpoint read_radix (radix : Z) (acc : Z) (l : list ascii) : option Z :=
  match l with
  | [] => Some acc
  | c :: l' =>
      match radix_val radix c with
      | Some d => read_radix radix (radix * acc + d) l'
      | None => None
      end
  end.

(** [ExponentPart] (optional), which must end the literal. *)
Definition read_exponent (l : list ascii) : option Z :=
  match l with
  | [] => Some 0
  | c :: l' =>
      if Ascii.eqb c "e" || Ascii.eqb c "E" then
        let '(negative, l'') :=
          match l' with
          | s :: r =>
              if Ascii.eqb s "-" then (true, r)
              else if Ascii.eqb s "+" then (false, r)
              else (false, l')
          | [] => (false, l')
          end in
        match read_digits 0 0 l'' with
        | (e, count, []) =>
            if 0 <? count then Some (if negative then - e else e) else None
        | _ => None
        end
      else None
  end.

(** The mathematical value [m * 10^e]. *)
Definition pow10 (m e : Z) : Q :=
  if 0 <=? e then inject_Z (m * 10 ^ e)
  else Qmake m (Z.to_pos (10 ^ (- e))).

(** [StrUnsignedDecimalLiteral] other than [Infinity]: its mathematical
    value, or [None] when the characters are no such literal. *)
Definition read_decimal (l : list ascii) : option Q :=
  let '(ip, icount, rest) := read_digits 0 0 l in
  match rest with
  | c :: rest' =>
      if Ascii.eqb c "." then
        let '(m, fcount, rest'') := read_digits ip 0 rest' in
        if 0 <? icount + fcount then
          match read_exponent rest'' with
          | Some e => Some (pow10 m (e - fcount))
          | None => None
          end
        else None
      else if 0 <? icount then
        match read_exponent rest with
        | Some e => Some (pow10 ip e)
        | None => None
        end
      else None
  | [] => if 0 <? icount then Some (inject_Z ip) else None
  end.

(** ** Rounding to binary64 (round to nearest, ties to even) *)

(** [floor (n / d)] rounded to the nearest integer, ties to even. *)
Definition div_nearest_even (n d : Z) : Z :=
  let q := n / d in
  let r := n mod d in
  if 2 * r <? d then q
  else if d <? 2 * r then q + 1
  else if Z.even q then q else q + 1.

(** [floor (log2 (n / d))] for positive [n], [d]. *)
Definition floor_log2 (n d : Z) : Z :=
  let k := Z.log2 n - Z.log2 d in
  if 0 <=? k then (if d * 2 ^ k <=? n then k else k - 1)
  else (if d <=? n * 2 ^ (- k) then k else k - 1).

(** The binary64 value nearest to the positive rational [n / d]. *)
Definition round_pos (n d : Z) : JSNumber :=
  let e := Z.max (floor_log2 n d - 52) (-1074) in
  let m := if 0 <=? e then div_nearest_even n (d * 2 ^ e)
           else div_nearest_even (n * 2 ^ (- e)) d in
  if 2 ^ 2098 <=? m * 2 ^ (e + 1074) then JInf false
  else if 0 <=? e then JFin (Qred (inject_Z (m * 2 ^ e)))
  else JFin (Qred (Qmake m (Z.to_pos (2 ^ (- e))))).

Definition negate (n : JSNumber) : JSNumber :=
  match n with
  | JNaN => JNaN
  | JInf negative => JInf (negb negative)
  | JFin q => JFin (Qred (Qopp q))
  end.

Definition round_double (q : Q) : JSNumber :=
  match Qnum q with
  | Z0 => JFin (inject_Z 0)
  | Zpos n => round_pos (Zpos n) (Zpos (Qden q))
  | Zneg n => negate (round_pos (Zpos n) (Zpos (Qden q)))
  end.

Definition Infinity_chars : list ascii := list_ascii_of_string "Infinity".

Definition list_ascii_eqb (a b : list ascii) : bool :=
  String.eqb (string_of_list_ascii a) (string_of_list_ascii b).

(** [StrUnsignedDecimalLiteral]. *)
Definition read_unsigned (l : list ascii) : JSNumber :=
  if list_ascii_eqb l Infinity_chars then JInf false
  else match read_decimal l with
       | Some q => round_double q
       | None => JNaN
       end.

Definition read_prefixed (radix : Z) (digits : list ascii) : JSNumber :=
  match digits with
  | [] => JNaN
  | _ => match read_radix radix 0 digits with
         | Some n => round_double (inject_Z n)
         | None => JNaN
         end
  end.

(** [StrNumericLiteral], on the trimmed characters. *)
Definition read_numeric (l : list ascii) : JSNumber :=
  match l with
  | [] => JFin (inject_Z 0)
  | c :: l' =>
      if Ascii.eqb c "+" then read_unsigned l'
      else if Ascii.eqb c "-" then negate (read_unsigned l')
      else
        match l' with
        | p :: digits =>
            if Ascii.eqb c "0" && (Ascii.eqb p "x" || Ascii.eqb p "X")
            then read_prefixed 16 digits
            else if Ascii.eqb c "0" && (Ascii.eqb p "o" || Ascii.eqb p "O")
            then read_prefixed 8 digits
            else if Ascii.eqb c "0" && (Ascii.eqb p "b" || Ascii.eqb p "B")
            then read_prefixed 2 digits
            else read_unsigned l
        | [] => read_unsigned l
        end
  end.

(** [Number(v)] for [v] a string or [undefined] ([None]). *)
Definition Number (v : option string) : JSNumber :=
  match v with
  | None => JNaN
  | Some s => read_numeric (trim (list_ascii_of_string s))
  end.

End JS.

Import JS.

(* ===================================================================== *)
(** * The platform: built-ins of the runtime and modules outside the core  *)
(* ===================================================================== *)

(** What the program calls but does not define: parsers and printers of the
    JavaScript runtime, the template renderer (views/View) and the date
    helper of utils.  Every statement below holds for any such platform. *)
Class Platform := {
  (** [JSON.parse]: [None] when it throws. *)
  JSON_parse : string -> option JSValue;
  (** [JSON.stringify(v, null, 2)]. *)
  JSON_stringify : JSValue -> string;
  (** The entries of [new URLSearchParams(s)]; it never throws. *)
  URLSearchParams : string -> list (string * string);
  (** The entries of [new URL(url ?? "", "http://" + host).searchParams];
      [None] when the [URL] constructor throws. *)
  URL_searchParams : option string -> option string
                     -> option (list (string * string));
  (** [View.render(template, payload)], taken to return. *)
  View_render : string -> JSValue -> string;
  (** Number to string, as in a template literal. *)
  Number_toString : JSNumber -> string;
  (** [new Date(v)]. *)
  Date_of : JSValue -> JSDate;
  (** [createUTCDate(d)] of utils. *)
  createUTCDate : JSDate -> JSDate;
  (** How the driver and Postgres store a value that is not a string in a
      text column; [None] when the statement is rejected. *)
  pg_text_of : JSValue -> option string;
  (** The collation order of text columns, for [ORDER BY]. *)
  collate_leb : string -> string -> bool
}.

(* ===================================================================== *)
(** * Sequential code that may throw, over a state                         *)
(* ===================================================================== *)

Module Eff.

(** What a [throw] (or a rejected promise under [await]) carries. *)
Inductive Exn :=
  | TypeError (msg : string)
  | Error (msg : string)
  | ERR_HTTP_HEADERS_SENT
  | StoreError (msg : string).

Inductive Outcome (A : Type) :=
  | Return (a : A)
  | Throw (e : Exn).
Arguments Return {A} a.
Arguments Throw {A} e.

Definition M (S A : Type) : Type := S -> Outcome A * S.

Definition ret {S A} (a : A) : M S A := fun s => (Return a, s).

Definition bind {S A B} (m : M S A) (k : A -> M S B) : M S B :=
  fun s => match m s with
           | (Return a, s') => k a s'
           | (Throw e, s') => (Throw e, s')
           end.

Definition throw {S A} (e : Exn) : M S A := fun s => (Throw e, s).

(** [try { m } catch (e) { h e }]. *)
Definition try_catch {S A} (m : M S A) (h : Exn -> M S A) : M S A :=
  fun s => match m s with
           | (Return a, s') => (Return a, s')
           | (Throw e, s') => h e s'
           end.

Definition modify {S} (f : S -> S) : M S unit := fun s => (Return tt, f s).

(** Runs code written over a component [T] of the state [S]. *)
Definition zoom {S T A} (proj : S -> T) (upd : T -> S -> S) (m : M T A)
  : M S A :=
  fun s => let '(o, t) := m (proj s) in (o, upd t s).

End Eff.

Import Eff.

Declare Scope eff_scope.
Delimit Scope eff_scope with eff.
Notation "'let*' x ':=' m 'in' k" := (bind m (fun x => k))
  (at level 10, x name, m at level 100, k at level 200) : eff_scope.
Notation "'run' m 'then' k" := (bind m (fun _ => k))
  (at level 10, m at level 100, k at level 200) : eff_scope.
Local Open Scope eff_scope.

(* ===================================================================== *)
(** * router/Request.ts                                                    *)
(* ===================================================================== *)

Module Request.

(** The part of Node's [IncomingMessage] the program reads.  Header names are
    lower-cased by Node. *)
Record IncomingMessage := {
  method : option string;
  url : option string;
  headers : gmap string string
}.

(** [class Request { req; body = {} }]. *)
Record t := {
  req : IncomingMessage;
  body : JSValue
}.

Definition new (r : IncomingMessage) : t := {| req := r; body := JObj [] |}.

(** What the body stream emits. *)
Inductive StreamEvent :=
  | Data (chunk : string)
  | End.

Inductive Promise :=
  | Pending
  | Resolved (value : JSValue)
  | Rejected (reason : string).

(** The state [parseBody] closes over: the buffer, the promise it returned and
    the request object whose [body] it assigns. *)
Record Parsing := {
  bodyRaw : string;
  promise : Promise;
  self : t
}.

Section WithPlatform.
Context `{Platform}.

(** The [try] block of the ["end"] listener: [None] when it throws. *)
Definition parse (r : t) (raw : string) : option JSValue :=
  match headers (req r) !! "content-type" with
  | Some ct =>
      if includes ct "x-www-form-urlencoded"
      then Some (fromEntries (URLSearchParams raw))
      else JSON_parse raw
  | None => JSON_parse raw
  end.

(** A settled promise ignores later [resolve] and [reject] calls. *)
Definition settle (p : Promise) (outcome : Promise) : Promise :=
  match p with Pending => outcome | _ => p end.

Definition on_data (chunk : string) (st : Parsing) : Parsing :=
  {| bodyRaw := bodyRaw st +:+ chunk; promise := promise st; self := self st |}.

Definition on_end (st : Parsing) : Parsing :=
  match parse (self st) (bodyRaw st) with
  | None =>
      {| bodyRaw := bodyRaw st;
         promise := settle (promise st) (Rejected "Request body must be valid JSON");
         self := self st |}
  | Some b =>
      {| bodyRaw := bodyRaw st;
         promise := settle (promise st) (Resolved b);
         self := {| req := req (self st); body := b |} |}
  end.

Definition on_event (st : Parsing) (ev : StreamEvent) : Parsing :=
  match ev with
  | Data chunk => on_data chunk st
  | End => on_end st
  end.

(** [parseBody()]: registers the two listeners; the stream then delivers its
    events.  The result is the promise and the request as they stand after
    these events. *)
Definition parseBody (r : t) (events : list StreamEvent) : Parsing :=
  fold_left on_event events
    {| bodyRaw := EmptyString; promise := Pending; self := r |}.

Definition getSearchParams (r : t) : option (list (string * string)) :=
  URL_searchParams (url (req r)) (headers (req r) !! "host").

End WithPlatform.

Definition getMethod (r : t) : JSValue :=
  if truthy (body r)
  then coalesce (member (body r) "method") (opt_str (method (req r)))
  else opt_str (method (req r)).

(** [this.req.url?.split("/")[i]]. *)
Definition segment (r : t) (i : nat) : option string :=
  match url (req r) with
  | Some u => split "/" u !! i
  | None => None
  end.

Definition getId (r : t) : JSNumber := Number (segment r 2).

Definition getSubTodoId (r : t) : JSNumber := Number (segment r 4).

Definition accepts (r : t) (type : string) : bool :=
  match headers (req r) !! "accept" with
  | Some a => if string_truthy a then includes a type else false
  | None => false
  end.

End Request.

(* ===================================================================== *)
(** * router/Response.ts                                                   *)
(* ===================================================================== *)

(** [enum StatusCode]. *)
Module StatusCode.

Inductive t :=
  | OK | Created | NoContent | Redirect | BadRequest
  | Unauthorized | Forbidden | NotFound | InternalServerError.

Definition code (s : t) : Z :=
  match s with
  | OK => 200 | Created => 201 | NoContent => 204 | Redirect => 302
  | BadRequest => 400 | Unauthorized => 401 | Forbidden => 403
  | NotFound => 404 | InternalServerError => 500
  end.

End StatusCode.

Module Response.

Definition code := StatusCode.code.

Definition ContentType_JSON : string := "application/json".
Definition ContentType_HTML : string := "text/html".

(** [payload] is [any]: an absent payload is [undefined]. *)
Record ResponseProps := {
  statusCode : StatusCode.t;
  message : string;
  payload : JSValue;
  template : option string;
  redirect : option string
}.

(** Node's [ServerResponse], as far as [send] drives it: the status line and
    headers once written, and the body handed to [end]. *)
Record ServerResponse := {
  head : option (Z * list (string * string));
  ended : option (option string)
}.

Definition fresh : ServerResponse := {| head := None; ended := None |}.

(** [res.writeHead(code, headers)]: Node throws once the head is written. *)
Definition writeHead (c : Z) (hs : list (string * string))
  : M ServerResponse unit :=
  fun res => match head res with
             | Some _ => (Throw ERR_HTTP_HEADERS_SENT, res)
             | None => (Return tt, {| head := Some (c, hs); ended := ended res |})
             end.

(** [res.end(data)]: a second call writes nothing. *)
Definition end_ (data : option string) : M ServerResponse unit :=
  fun res => match ended res with
             | Some _ => (Return tt, res)
             | None => (Return tt, {| head := head res; ended := Some data |})
             end.

Section WithPlatform.
Context `{Platform}.

Definition send_json (props : ResponseProps) : M ServerResponse unit :=
  run writeHead (code (statusCode props)) [("Content-Type", ContentType_JSON)]
  then end_ (Some (JSON_stringify
                     (JObj [("message", JStr (message props));
                            ("payload", payload props)]))).

(** [send(props)].  The [console.log] line writes nothing to the response and
    is left out.  The two early [return]s of the source are the first two
    branches; both fall-through paths end in the JSON response. *)
Definition send (request : Request.t) (props : ResponseProps)
  : M ServerResponse unit :=
  if Request.accepts request ContentType_HTML then
    if opt_string_truthy (redirect props) then
      run writeHead (code StatusCode.Redirect) [("Location", default "" (redirect props))]
      then end_ None
    else if opt_string_truthy (template props) then
      run writeHead (code (statusCode props))
            [("Content-Type", ContentType_HTML)]
      then end_ (Some (View_render (default "" (template props))
                         (payload props)))
    else send_json props
  else send_json props.

End WithPlatform.

End Response.

(* ===================================================================== *)
(** * init.sql: the store                                                  *)
(* ===================================================================== *)

Module Store.

(** [CREATE TYPE todo_status AS ENUM ('incomplete', 'complete')]. *)
Inductive Status := incomplete | complete.

Definition Status_text (s : Status) : string :=
  match s with incomplete => "incomplete" | complete => "complete" end.

Definition Status_eqb (a b : Status) : bool :=
  match a, b with
  | incomplete, incomplete | complete, complete => true
  | _, _ => false
  end.

(** Rows of table [todos]; timestamps in milliseconds, [None] is SQL NULL. *)
Module todos.
Record row := {
  id : Z;
  title : string;
  description : string;
  status : Status;
  due_at : option Z;
  created_at : Z;
  completed_at : option Z;
  edited_at : option Z
}.
End todos.

(** Rows of table [subtodos]. *)
Module subtodos.
Record row := {
  id : Z;
  title : string;
  status : Status;
  created_at : Z;
  completed_at : option Z;
  edited_at : option Z;
  todo_id : option Z
}.
End subtodos.

(** The two tables, rows in physical order, and the next value of each
    [SERIAL] sequence. *)
Record t := {
  todos_rows : list todos.row;
  subtodos_rows : list subtodos.row;
  todos_id_seq : Z;
  subtodos_id_seq : Z
}.

Definition find_todo (db : t) (i : Z) : option todos.row :=
  List.find (fun r => todos.id r =? i) (todos_rows db).

Definition find_subtodo (db : t) (i : Z) : option subtodos.row :=
  List.find (fun r => subtodos.id r =? i) (subtodos_rows db).

(** ** Parameters as Postgres reads them; [None] when it rejects the value *)

Definition pg_integer (n : JSNumber) : option Z :=
  match n with
  | JFin q =>
      if (Pos.eqb (Qden q) 1) && (- 2 ^ 31 <=? Qnum q) && (Qnum q <? 2 ^ 31)
      then Some (Qnum q) else None
  | _ => None
  end.

Definition pg_timestamp (d : JSDate) : option Z :=
  match d with ValidDate ms => Some ms | InvalidDate => None end.

(** [VARCHAR(255)]. *)
Definition pg_varchar255 (s : string) : option string :=
  if (Z.of_nat (String.length s) <=? 255) then Some s else None.

Definition pg_text `{Platform} (v : JSValue) : option string :=
  match v with JStr s => Some s | _ => pg_text_of v end.

(** A nullable parameter: [None] is NULL. *)
Definition nullable {A B} (f : A -> option B) (o : option A)
  : option (option B) :=
  match o with
  | None => Some None
  | Some a => option_map Some (f a)
  end.

(** ** [ORDER BY] *)

Inductive SortKey :=
  | KInt (z : Z)
  | KText (s : string)
  | KTime (t : option Z)
  | KStatus (s : Status).

(** [a <= b] in ascending order; NULL sorts after every value. *)
Definition key_leb `{Platform} (a b : SortKey) : bool :=
  match a, b with
  | KInt x, KInt y => x <=? y
  | KText x, KText y => collate_leb x y
  | KTime (Some x), KTime (Some y) => x <=? y
  | KTime None, KTime (Some _) => false
  | KTime _, KTime None => true
  | KStatus x, KStatus y => negb (Status_eqb x complete) || Status_eqb y complete
  | _, _ => true
  end.

Fixpoint insert_sorted {A} (leb : A -> A -> bool) (x : A) (l : list A)
  : list A :=
  match l with
  | [] => [x]
  | y :: l' => if leb x y then x :: l else y :: insert_sorted leb x l'
  end.

Definition sort_by {A} (leb : A -> A -> bool) (l : list A) : list A :=
  fold_right (insert_sorted leb) [] l.

Definition order_by `{Platform} {A} (key : A -> SortKey) (ascending : bool)
  (l : list A) : list A :=
  if ascending then sort_by (fun a b => key_leb (key a) (key b)) l
  else sort_by (fun a b => key_leb (key b) (key a)) l.

End Store.

Import Store.

(* ===================================================================== *)
(** * One request being served                                             *)
(* ===================================================================== *)

Module World.

Inductive Statement :=
  | Reserve
  | Release
  | Select (table : string)
  | Insert (table : string)
  | Update (table : string)
  | Delete (table : string).

(** What is recorded of a run: the calls of [Response.send] and the
    interactions with the store, oldest first. *)
Inductive Event :=
  | Sent (props : Response.ResponseProps)
  | Sql (st : Statement).

(** [faults]: for each coming interaction with the store, whether it fails
    (connection lost, timeout); beyond the list none does.  [clock]: the
    current time.  [res]: the [ServerResponse] of the request. *)
Record t := {
  store : Store.t;
  faults : list bool;
  clock : Z;
  res : Response.ServerResponse;
  log : list Event
}.

Definition set_store (db : Store.t) (w : t) : t :=
  {| store := db; faults := faults w; clock := clock w; res := res w;
     log := log w |}.

Definition set_res (r : Response.ServerResponse) (w : t) : t :=
  {| store := store w; faults := faults w; clock := clock w; res := r;
     log := log w |}.

Definition record (ev : Event) (w : t) : t :=
  {| store := store w; faults := faults w; clock := clock w; res := res w;
     log := log w ++ [ev] |}.

Definition pop_fault (w : t) : t :=
  {| store := store w; faults := tail (faults w); clock := clock w;
     res := res w; log := log w |}.

(** One interaction with the store: recorded, and failing if the
    environment says so. *)
Definition sql (st : Statement) : M t unit :=
  fun w =>
    let w' := pop_fault (record (Sql st) w) in
    match faults w with
    | true :: _ => (Throw (StoreError "connection failure"), w')
    | _ => (Return tt, w')
    end.

(** A parameter or constraint Postgres rejects. *)
Definition reject {A} (msg : string) : M t A := throw (StoreError msg).

Definition param {A} (o : option A) (msg : string) : M t A :=
  match o with Some a => ret a | None => reject msg end.

Definition db : M t Store.t := fun w => (Return (store w), w).
Definition set_db (d : Store.t) : M t unit :=
  fun w => (Return tt, set_store d w).

(** [new Date()]. *)
Definition Date_now : M t JSDate := fun w => (Return (ValidDate (clock w)), w).

Definition sends (w : t) : list Response.ResponseProps :=
  omap (fun ev => match ev with Sent p => Some p | Sql _ => None end) (log w).

Definition statements (w : t) : list Statement :=
  omap (fun ev => match ev with Sql st => Some st | Sent _ => None end) (log w).

End World.

Import World.

(* ===================================================================== *)
(** * models/Subtodo.ts                                                    *)
(* ===================================================================== *)

Module SubTodoProps.
Record t := {
  id : option JSNumber;
  title : string;
  status : Status;
  createdAt : JSDate;
  completedAt : option JSDate;
  todoId : option JSNumber
}.
End SubTodoProps.

Module SubTodoEntity.
Record t := {
  id : option JSNumber;
  title : string;
  status : Status;
  created_at : JSDate;
  completed_at : option JSDate;
  todo_id : option JSNumber
}.
End SubTodoEntity.

(** [Partial<SubTodoProps>]: [None] is an absent key. *)
Module SubTodoPartial.
Record t := {
  id : option JSNumber;
  title : option string;
  status : option Status;
  createdAt : option JSDate;
  completedAt : option JSDate;
  todoId : option JSNumber
}.

Definition of_props (p : SubTodoProps.t) : t :=
  {| id := SubTodoProps.id p;
     title := Some (SubTodoProps.title p);
     status := Some (SubTodoProps.status p);
     createdAt := Some (SubTodoProps.createdAt p);
     completedAt := SubTodoProps.completedAt p;
     todoId := SubTodoProps.todoId p |}.
End SubTodoPartial.

(** [Partial<SubTodoEntity>]. *)
Module SubTodoPartialEntity.
Record t := {
  id : option JSNumber;
  title : option string;
  status : option Status;
  created_at : option JSDate;
  completed_at : option JSDate;
  todo_id : option JSNumber
}.
End SubTodoPartialEntity.

(** The keys of a row of [subtodos] read with [SELECT *], in camel case:
    those of [SubTodoProps] and [editedAt].  A row read from the table has
    an [id]; a column that is NULL is [null] ([None]). *)
Module SubTodoRow.
Record t := {
  id : JSNumber;
  title : string;
  status : Status;
  createdAt : JSDate;
  completedAt : option JSDate;
  editedAt : option JSDate;
  todoId : option JSNumber
}.
End SubTodoRow.

Module SubTodo.

(** [class SubTodo { sql; props }]; the [sql] client is the store of the
    world. *)
Record t := { props : SubTodoProps.t }.

(** Instance method [toEntity()]. *)
Definition toEntity (self : t) : SubTodoEntity.t :=
  {| SubTodoEntity.id := SubTodoProps.id (props self);
     SubTodoEntity.title := SubTodoProps.title (props self);
     SubTodoEntity.status := SubTodoProps.status (props self);
     SubTodoEntity.created_at := SubTodoProps.createdAt (props self);
     SubTodoEntity.completed_at := SubTodoProps.completedAt (props self);
     SubTodoEntity.todo_id := SubTodoProps.todoId (props self) |}.

(** Instance method [toProps(props)]. *)
Definition toProps (self : t) (p : SubTodoProps.t) : SubTodoProps.t :=
  {| SubTodoProps.id := SubTodoProps.id p;
     SubTodoProps.title := SubTodoProps.title p;
     SubTodoProps.status := SubTodoProps.status p;
     SubTodoProps.createdAt := SubTodoProps.createdAt p;
     SubTodoProps.completedAt := SubTodoProps.completedAt p;
     SubTodoProps.todoId := SubTodoProps.todoId p |}.

(** [static toEntity(props)]. *)
Definition toEntity_static (p : SubTodoProps.t) : SubTodoEntity.t :=
  {| SubTodoEntity.id := SubTodoProps.id p;
     SubTodoEntity.title := SubTodoProps.title p;
     SubTodoEntity.status := SubTodoProps.status p;
     SubTodoEntity.created_at := SubTodoProps.createdAt p;
     SubTodoEntity.completed_at := SubTodoProps.completedAt p;
     SubTodoEntity.todo_id := SubTodoProps.todoId p |}.

(** [static toProps(entity)]. *)
Definition toProps_static (e : SubTodoEntity.t) : SubTodoProps.t :=
  {| SubTodoProps.id := SubTodoEntity.id e;
     SubTodoProps.title := SubTodoEntity.title e;
     SubTodoProps.status := SubTodoEntity.status e;
     SubTodoProps.createdAt := SubTodoEntity.created_at e;
     SubTodoProps.completedAt := SubTodoEntity.completed_at e;
     SubTodoProps.todoId := SubTodoEntity.todo_id e |}.

(** The object literal built from a result row: [{ id: result[0].id, ... }]. *)
Definition of_row (r : subtodos.row) : t :=
  {| props :=
       {| SubTodoProps.id := Some (num_of_Z (subtodos.id r));
          SubTodoProps.title := subtodos.title r;
          SubTodoProps.status := subtodos.status r;
          SubTodoProps.createdAt := ValidDate (subtodos.created_at r);
          SubTodoProps.completedAt := ValidDate <$> subtodos.completed_at r;
          SubTodoProps.todoId := num_of_Z <$> subtodos.todo_id r |} |}.

(** [s || null] and [n || null]. *)
Definition string_or_null (o : option string) : option string :=
  match o with
  | Some s => if string_truthy s then Some s else None
  | None => None
  end.

Definition number_or_null (o : option JSNumber) : option JSNumber :=
  match o with
  | Some n => if number_truthy n then Some n else None
  | None => None
  end.

Definition set_subtodos (rows : list subtodos.row) (seq : Z) (d : Store.t)
  : Store.t :=
  {| todos_rows := todos_rows d; subtodos_rows := rows;
     todos_id_seq := todos_id_seq d; subtodos_id_seq := seq |}.

(** [INSERT INTO subtodos (title, status, completed_at, created_at, todo_id)
    VALUES (...) RETURNING *].  A parameter that cannot be read stops the
    statement before it runs.  A statement that runs draws the [id] of its
    row from the sequence first; then the title is cut to its column, the
    NOT NULL columns and the primary key are checked, and last the
    reference to [todos].  The sequence keeps the value drawn when a check
    fails. *)
Definition insert (title : option string) (status : option Status)
  (completed_at created_at : option JSDate) (todo_id : option JSNumber)
  : M World.t (list subtodos.row) :=
  run sql (Insert "subtodos") then
  let* p_completed := param (nullable pg_timestamp completed_at) "invalid date" in
  let* p_created := param (nullable pg_timestamp created_at) "invalid date" in
  let* p_todo := param (nullable pg_integer todo_id) "invalid integer" in
  let* d := db in
  let new_id := subtodos_id_seq d in
  run set_db (set_subtodos (subtodos_rows d) (new_id + 1) d) then
  let* p_title := param (nullable pg_varchar255 title) "value too long" in
  match p_title, status, p_created with
  | Some t, Some st, Some c =>
      let referenced :=
        match p_todo with
        | Some z => bool_decide (is_Some (find_todo d z))
        | None => true
        end in
      if bool_decide (is_Some (find_subtodo d new_id)) then
        reject "duplicate key"
      else if referenced then
        let r := {| subtodos.id := new_id; subtodos.title := t;
                    subtodos.status := st; subtodos.created_at := c;
                    subtodos.completed_at := p_completed;
                    subtodos.edited_at := None;
                    subtodos.todo_id := p_todo |} in
        run set_db (set_subtodos (subtodos_rows d ++ [r]) (new_id + 1) d) then
        ret [r]
      else reject "foreign key violation"
  | _, _, _ => reject "not-null violation"
  end.

(** [static create(sql, props)]. *)
Definition create (p : SubTodoPartial.t) : M World.t t :=
  let* result :=
    insert (string_or_null (SubTodoPartial.title p))
           (SubTodoPartial.status p)
           (SubTodoPartial.completedAt p)
           (SubTodoPartial.createdAt p)
           (number_or_null (SubTodoPartial.todoId p)) in
  match result with
  | r :: _ => ret (of_row r)
  | [] => throw (Error "SubTodo not created")
  end.

(** [static read(sql, id)]; [None] is [null]. *)
Definition read (i : JSNumber) : M World.t (option t) :=
  run sql (Select "subtodos") then
  let* z := param (pg_integer i) "invalid integer" in
  let* d := db in
  match List.filter (fun r => subtodos.id r =? z) (subtodos_rows d) with
  | [] => ret None
  | r :: _ => ret (Some (of_row r))
  end.

(** [static readByTodoId(sql, todoId)]. *)
Definition readByTodoId (todoId : JSNumber) : M World.t (list t) :=
  run sql (Select "subtodos") then
  let* z := param (pg_integer todoId) "invalid integer" in
  let* d := db in
  ret (of_row <$>
       List.filter (fun r => bool_decide (subtodos.todo_id r = Some z))
                   (subtodos_rows d)).

(** [toPartialEntity(updateProps)]: the keys whose value is truthy. *)
Definition toPartialEntity (u : SubTodoPartial.t) : SubTodoPartialEntity.t :=
  {| SubTodoPartialEntity.id := number_or_null (SubTodoPartial.id u);
     SubTodoPartialEntity.title := string_or_null (SubTodoPartial.title u);
     SubTodoPartialEntity.status := SubTodoPartial.status u;
     SubTodoPartialEntity.completed_at := SubTodoPartial.completedAt u;
     SubTodoPartialEntity.created_at := SubTodoPartial.createdAt u;
     SubTodoPartialEntity.todo_id := number_or_null (SubTodoPartial.todoId u) |}.

Definition no_column (e : SubTodoPartialEntity.t) : bool :=
  match e with
  | {| SubTodoPartialEntity.id := None; SubTodoPartialEntity.title := None;
       SubTodoPartialEntity.status := None;
       SubTodoPartialEntity.created_at := None;
       SubTodoPartialEntity.completed_at := None;
       SubTodoPartialEntity.todo_id := None |} => true
  | _ => false
  end.

(** [UPDATE subtodos SET ... WHERE id = ... RETURNING *]. *)
Definition update_row (e : SubTodoPartialEntity.t) (i : JSNumber)
  : M World.t (list subtodos.row) :=
  run sql (Update "subtodos") then
  if no_column e then reject "no column to set" else
  let* n_id := param (nullable pg_integer (SubTodoPartialEntity.id e))
                 "invalid integer" in
  let* n_title := param (nullable pg_varchar255 (SubTodoPartialEntity.title e))
                    "value too long" in
  let* n_created := param (nullable pg_timestamp
                             (SubTodoPartialEntity.created_at e))
                      "invalid date" in
  let* n_completed := param (nullable pg_timestamp
                               (SubTodoPartialEntity.completed_at e))
                        "invalid date" in
  let* n_todo := param (nullable pg_integer (SubTodoPartialEntity.todo_id e))
                   "invalid integer" in
  let* z := param (pg_integer i) "invalid integer" in
  let* d := db in
  match find_subtodo d z with
  | None => ret []
  | Some r =>
      let r' := {| subtodos.id := default (subtodos.id r) n_id;
                   subtodos.title := default (subtodos.title r) n_title;
                   subtodos.status :=
                     default (subtodos.status r) (SubTodoPartialEntity.status e);
                   subtodos.created_at :=
                     default (subtodos.created_at r) n_created;
                   subtodos.completed_at :=
                     match n_completed with
                     | Some c => Some c
                     | None => subtodos.completed_at r
                     end;
                   subtodos.edited_at := subtodos.edited_at r;
                   subtodos.todo_id :=
                     match n_todo with
                     | Some t => Some t
                     | None => subtodos.todo_id r
                     end |} in
      let others :=
        List.filter (fun x => negb (subtodos.id x =? z)) (subtodos_rows d) in
      let unique :=
        negb (existsb (fun x => subtodos.id x =? subtodos.id r') others) in
      let referenced :=
        match n_todo with
        | Some t => bool_decide (is_Some (find_todo d t))
        | None => true
        end in
      if unique && referenced then
        run set_db (set_subtodos
                      ((fun x => if subtodos.id x =? z then r' else x)
                         <$> subtodos_rows d)
                      (subtodos_id_seq d) d) then
        ret [r']
      else reject "constraint violation"
  end.

(** [Object.assign(this.props, updateProps)]. *)
Definition assign (p : SubTodoProps.t) (u : SubTodoPartial.t) : SubTodoProps.t :=
  {| SubTodoProps.id :=
       match SubTodoPartial.id u with Some n => Some n | None => SubTodoProps.id p end;
     SubTodoProps.title := default (SubTodoProps.title p) (SubTodoPartial.title u);
     SubTodoProps.status := default (SubTodoProps.status p) (SubTodoPartial.status u);
     SubTodoProps.createdAt :=
       default (SubTodoProps.createdAt p) (SubTodoPartial.createdAt u);
     SubTodoProps.completedAt :=
       match SubTodoPartial.completedAt u with
       | Some c => Some c
       | None => SubTodoProps.completedAt p
       end;
     SubTodoProps.todoId :=
       match SubTodoPartial.todoId u with
       | Some n => Some n
       | None => SubTodoProps.todoId p
       end |}.

(** [update(updateProps)]: returns the instance as it is afterwards. *)
Definition update (self : t) (u : SubTodoPartial.t) : M World.t t :=
  match SubTodoProps.id (props self) with
  | None => ret self
  | Some i =>
      let* result := update_row (toPartialEntity u) i in
      match result with
      | [] => throw (Error "SubTodo not updated")
      | _ :: _ => ret {| props := assign (props self) u |}
      end
  end.

(** [DELETE FROM subtodos WHERE id = ... RETURNING *]: the rows deleted. *)
Definition delete_row (i : JSNumber) : M World.t (list subtodos.row) :=
  run sql (Delete "subtodos") then
  let* z := param (pg_integer i) "invalid integer" in
  let* d := db in
  run set_db (set_subtodos
                (List.filter (fun r => negb (subtodos.id r =? z))
                             (subtodos_rows d))
                (subtodos_id_seq d) d) then
  ret (List.filter (fun r => subtodos.id r =? z) (subtodos_rows d)).

(** [delete()]. *)
Definition delete (self : t) : M World.t unit :=
  match SubTodoProps.id (props self) with
  | None => ret tt
  | Some i =>
      let* result := delete_row i in
      match result with
      | [] => throw (Error "SubTodo not deleted")
      | _ :: _ => ret tt
      end
  end.

(** [markComplete()]. *)
Definition markComplete (self : t) : M World.t t :=
  let* today := Date_now in
  update self
    {| SubTodoPartial.id := None; SubTodoPartial.title := None;
       SubTodoPartial.status := Some complete;
       SubTodoPartial.createdAt := None;
       SubTodoPartial.completedAt := Some today;
       SubTodoPartial.todoId := None |}.

(** Modelled from the spec: [convertToCase(snakeToCamel, row)] of utils,
    which is not among the sources ("pure functions converting between
    naming conventions"): each column of the row under its camel-case name,
    in the order of the columns. *)
Definition snakeToCamel_row (r : subtodos.row) : SubTodoRow.t :=
  {| SubTodoRow.id := num_of_Z (subtodos.id r);
     SubTodoRow.title := subtodos.title r;
     SubTodoRow.status := subtodos.status r;
     SubTodoRow.createdAt := ValidDate (subtodos.created_at r);
     SubTodoRow.completedAt := ValidDate <$> subtodos.completed_at r;
     SubTodoRow.editedAt := ValidDate <$> subtodos.edited_at r;
     SubTodoRow.todoId := num_of_Z <$> subtodos.todo_id r |}.

(** An instance as [readAll] constructs it,
    [new SubTodo(sql, convertToCase(snakeToCamel, row) as SubTodoProps)]:
    the cast removes nothing, so [props] is the whole row converted,
    [editedAt] included. *)
Record Listed := { listed_props : SubTodoRow.t }.

(** [static readAll(sql, filters, sortBy)], for the [filters] the program
    builds: [{ status }] ([Some]) or [{}] ([None]).  [ORDER BY] a bound
    parameter (any [sortBy] but ["createdAt"]) orders by a constant. *)
Definition readAll `{Platform} (filter_status : option Status)
  (sortBy : option string) : M World.t (list Listed) :=
  run sql Reserve then
  run sql (Select "subtodos") then
  let* d := db in
  let filtered :=
    match filter_status with
    | Some st =>
        List.filter (fun r => Status_eqb (subtodos.status r) st)
                    (subtodos_rows d)
    | None => subtodos_rows d
    end in
  let ordered :=
    match string_or_null sortBy with
    | Some "createdAt" =>
        order_by (fun r => KTime (Some (subtodos.created_at r))) true filtered
    | _ => filtered
    end in
  run sql Release then
  ret ((fun row => {| listed_props := snakeToCamel_row row |}) <$> ordered).

End SubTodo.

(* ===================================================================== *)
(** * models/Todo.ts                                                       *)
(* ===================================================================== *)

(** [title] and [description] are what the request body held: the
    controllers fill them from [req.body] unchecked. *)
Module TodoProps.
Record t := {
  id : option JSNumber;
  title : JSValue;
  description : JSValue;
  status : Status;
  dueAt : option JSDate;
  createdAt : option JSDate;
  completedAt : option JSDate;
  editedAt : option JSDate;
  subTodos : option (list SubTodo.t)
}.
End TodoProps.

(** [Partial<TodoProps>] with the keys [update] is called with. *)
Module TodoPartial.
Record t := {
  title : option JSValue;
  description : option JSValue;
  status : option Status;
  dueAt : option JSDate;
  completedAt : option JSDate
}.
End TodoPartial.

Module Todo.

(** [class Todo { sql; props }]. *)
Record t := { props : TodoProps.t }.

(** Modelled from the spec: [convertToCase(snakeToCamel, row)] of utils,
    which is not among the sources ("pure functions converting between
    naming conventions"): each column under its camel-case name. *)
Definition of_row (r : todos.row) : TodoProps.t :=
  {| TodoProps.id := Some (num_of_Z (todos.id r));
     TodoProps.title := JStr (todos.title r);
     TodoProps.description := JStr (todos.description r);
     TodoProps.status := todos.status r;
     TodoProps.dueAt := ValidDate <$> todos.due_at r;
     TodoProps.createdAt := Some (ValidDate (todos.created_at r));
     TodoProps.completedAt := ValidDate <$> todos.completed_at r;
     TodoProps.editedAt := ValidDate <$> todos.edited_at r;
     TodoProps.subTodos := None |}.

Definition set_todos (rows : list todos.row) (seq : Z) (d : Store.t)
  : Store.t :=
  {| todos_rows := rows; subtodos_rows := subtodos_rows d;
     todos_id_seq := seq; subtodos_id_seq := subtodos_id_seq d |}.

(** A text parameter: [undefined] is refused by the driver, [null] by the
    NOT NULL columns. *)
Definition text_param `{Platform} (v : JSValue) : option string :=
  if nullish v then None else pg_text v.

(** A text parameter of a statement that has yet to run: [undefined] is
    refused by the driver ([None]); [null] is sent as NULL ([Some None]). *)
Definition text_column `{Platform} (v : JSValue) : option (option string) :=
  match v with
  | JUndefined => None
  | JNull => Some None
  | _ => Some <$> pg_text v
  end.

Section WithPlatform.
Context `{Platform}.

(** [createUTCDate()] at the current time. *)
Definition createUTCDate_now : M World.t JSDate :=
  let* today := Date_now in ret (createUTCDate today).

(** [INSERT INTO todos ${sql(convertToCase(camelToSnake, props))}
    RETURNING *]: one column per key of [props]; [created_at] is always
    among them.  A parameter that cannot be read stops the statement before
    it runs.  A statement that runs without an [id] draws one from the
    sequence first; then the title is cut to its column, and the NOT NULL
    columns and the primary key are checked.  The sequence keeps the value
    drawn when a check fails. *)
Definition insert (p : TodoProps.t) (created : JSDate)
  : M World.t (list todos.row) :=
  run sql (Insert "todos") then
  match TodoProps.subTodos p with
  | Some _ => reject "column sub_todos does not exist"
  | None =>
      let* p_id := param (nullable pg_integer (TodoProps.id p))
                     "invalid integer" in
      let* p_title := param (text_column (TodoProps.title p)) "title" in
      let* p_description := param (text_column (TodoProps.description p))
                              "description" in
      let* p_due := param (nullable pg_timestamp (TodoProps.dueAt p))
                      "invalid date" in
      let* p_created := param (pg_timestamp created) "invalid date" in
      let* p_completed := param (nullable pg_timestamp (TodoProps.completedAt p))
                            "invalid date" in
      let* p_edited := param (nullable pg_timestamp (TodoProps.editedAt p))
                         "invalid date" in
      let* d := db in
      let seq := match p_id with
                 | Some _ => todos_id_seq d
                 | None => todos_id_seq d + 1
                 end in
      let new_id := default (todos_id_seq d) p_id in
      run set_db (set_todos (todos_rows d) seq d) then
      let* c_title := param (nullable pg_varchar255 p_title) "value too long" in
      match c_title, p_description with
      | Some t, Some ds =>
          if bool_decide (is_Some (find_todo d new_id)) then
            reject "duplicate key"
          else
            let r := {| todos.id := new_id; todos.title := t;
                        todos.description := ds;
                        todos.status := TodoProps.status p;
                        todos.due_at := p_due;
                        todos.created_at := p_created;
                        todos.completed_at := p_completed;
                        todos.edited_at := p_edited |} in
            run set_db (set_todos (todos_rows d ++ [r]) seq d) then
            ret [r]
      | _, _ => reject "not-null violation"
      end
  end.

(** [static create(sql, props)].  A statement that throws leaves the
    reserved connection unreleased, as in the source. *)
Definition create (p : TodoProps.t) : M World.t t :=
  run sql Reserve then
  let* created :=
    match TodoProps.createdAt p with
    | Some c => ret c
    | None => createUTCDate_now
    end in
  let* result := insert p created in
  run sql Release then
  match result with
  | r :: _ => ret {| props := of_row r |}
  | [] => throw (TypeError "convertToCase of undefined")
  end.

Definition with_subTodos (p : TodoProps.t) (subs : list SubTodo.t)
  : TodoProps.t :=
  {| TodoProps.id := TodoProps.id p; TodoProps.title := TodoProps.title p;
     TodoProps.description := TodoProps.description p;
     TodoProps.status := TodoProps.status p;
     TodoProps.dueAt := TodoProps.dueAt p;
     TodoProps.createdAt := TodoProps.createdAt p;
     TodoProps.completedAt := TodoProps.completedAt p;
     TodoProps.editedAt := TodoProps.editedAt p;
     TodoProps.subTodos := Some subs |}.

(** [static read(sql, id)]; [None] is [null]. *)
Definition read (i : JSNumber) : M World.t (option t) :=
  run sql Reserve then
  run sql (Select "todos") then
  let* z := param (pg_integer i) "invalid integer" in
  let* d := db in
  run sql Release then
  match List.filter (fun r => todos.id r =? z) (todos_rows d) with
  | [] => ret None
  | r :: _ =>
      let* subTodos := SubTodo.readByTodoId i in
      ret (Some {| props := with_subTodos (of_row r) subTodos |})
  end.

(** [getSortBy(sortBy)]: the column, by its sort key. *)
Definition getSortBy (sortBy : string) (r : todos.row) : SortKey :=
  if String.eqb sortBy "title" then KText (todos.title r)
  else if String.eqb sortBy "description" then KText (todos.description r)
  else if String.eqb sortBy "status" then KStatus (todos.status r)
  else if String.eqb sortBy "dueAt" then KTime (todos.due_at r)
  else if String.eqb sortBy "createdAt" then KTime (Some (todos.created_at r))
  else if String.eqb sortBy "completedAt" then KTime (todos.completed_at r)
  else if String.eqb sortBy "editedAt" then KTime (todos.edited_at r)
  else KInt (todos.id r).

(** [getOrderBy(orderBy)]: whether the order is ascending. *)
Definition getOrderBy (orderBy : string) : bool := String.eqb orderBy "asc".

(** [static readAll(sql, filters, sortBy, orderBy)]; of [filters] only
    [status] is read.  [ASC] or [DESC] without [ORDER BY] is a syntax
    error. *)
Definition readAll (filter_status : option Status)
  (sortBy orderBy : option string) : M World.t (list t) :=
  run sql Reserve then
  run sql (Select "todos") then
  let* d := db in
  let filtered :=
    match filter_status with
    | Some st =>
        List.filter (fun r => Status_eqb (todos.status r) st) (todos_rows d)
    | None => todos_rows d
    end in
  let* rows :=
    if opt_string_truthy sortBy then
      ret (order_by (getSortBy (default "" sortBy))
             (if opt_string_truthy orderBy
              then getOrderBy (default "" orderBy) else true)
             filtered)
    else if opt_string_truthy orderBy then reject "syntax error"
    else ret filtered in
  run sql Release then
  ret ((fun r => {| props := of_row r |}) <$> rows).

(** [UPDATE todos SET ..., edited_at = ... WHERE id = ... RETURNING *]. *)
Definition update_row (u : TodoPartial.t) (edited : JSDate)
  (i : option JSNumber) : M World.t (list todos.row) :=
  run sql (Update "todos") then
  let* n_title :=
    param (nullable (fun v => text_param v ≫= pg_varchar255)
             (TodoPartial.title u)) "title" in
  let* n_description :=
    param (nullable text_param (TodoPartial.description u)) "description" in
  let* n_due := param (nullable pg_timestamp (TodoPartial.dueAt u))
                  "invalid date" in
  let* n_completed := param (nullable pg_timestamp (TodoPartial.completedAt u))
                        "invalid date" in
  let* n_edited := param (pg_timestamp edited) "invalid date" in
  let* z := param (i ≫= pg_integer) "invalid integer" in
  let* d := db in
  match find_todo d z with
  | None => ret []
  | Some r =>
      let r' := {| todos.id := todos.id r;
                   todos.title := default (todos.title r) n_title;
                   todos.description :=
                     default (todos.description r) n_description;
                   todos.status :=
                     default (todos.status r) (TodoPartial.status u);
                   todos.due_at :=
                     match n_due with
                     | Some t => Some t
                     | None => todos.due_at r
                     end;
                   todos.created_at := todos.created_at r;
                   todos.completed_at :=
                     match n_completed with
                     | Some t => Some t
                     | None => todos.completed_at r
                     end;
                   todos.edited_at := Some n_edited |} in
      run set_db (set_todos
                    ((fun x => if todos.id x =? z then r' else x)
                       <$> todos_rows d)
                    (todos_id_seq d) d) then
      ret [r']
  end.

(** [{ ...this.props, ...convertToCase(snakeToCamel, row) }]: every key of
    the row replaces the one of [this.props]; [subTodos] is kept. *)
Definition spread (p : TodoProps.t) (r : todos.row) : TodoProps.t :=
  {| TodoProps.id := TodoProps.id (of_row r);
     TodoProps.title := TodoProps.title (of_row r);
     TodoProps.description := TodoProps.description (of_row r);
     TodoProps.status := TodoProps.status (of_row r);
     TodoProps.dueAt := TodoProps.dueAt (of_row r);
     TodoProps.createdAt := TodoProps.createdAt (of_row r);
     TodoProps.completedAt := TodoProps.completedAt (of_row r);
     TodoProps.editedAt := TodoProps.editedAt (of_row r);
     TodoProps.subTodos := TodoProps.subTodos p |}.

(** [update(updateProps)]: returns the instance as it is afterwards.

    Modelled from the spec: when no row is returned, [convertToCase] of
    utils receives [undefined]; it is not among the sources, and is taken to
    throw as [Object.entries(undefined)] does. *)
Definition update (self : t) (u : TodoPartial.t) : M World.t t :=
  run sql Reserve then
  let* edited := createUTCDate_now in
  let* result := update_row u edited (TodoProps.id (props self)) in
  run sql Release then
  match result with
  | r :: _ => ret {| props := spread (props self) r |}
  | [] => throw (TypeError "convertToCase of undefined")
  end.

(** [DELETE FROM todos WHERE id = ...]: the number of rows deleted.  The
    subtodos of a deleted todo go with it (ON DELETE CASCADE). *)
Definition delete_row (i : option JSNumber) : M World.t Z :=
  run sql (Delete "todos") then
  let* z := param (i ≫= pg_integer) "invalid integer" in
  let* d := db in
  let kept := List.filter (fun r => negb (todos.id r =? z)) (todos_rows d) in
  let count := Z.of_nat (length (todos_rows d)) - Z.of_nat (length kept) in
  let subs :=
    if 0 <? count
    then List.filter (fun r => negb (bool_decide (subtodos.todo_id r = Some z)))
                     (subtodos_rows d)
    else subtodos_rows d in
  run set_db {| todos_rows := kept; subtodos_rows := subs;
                todos_id_seq := todos_id_seq d;
                subtodos_id_seq := subtodos_id_seq d |} then
  ret count.

(** [delete()]: [result.count === 1]. *)
Definition delete (self : t) : M World.t bool :=
  run sql Reserve then
  let* count := delete_row (TodoProps.id (props self)) in
  run sql Release then
  ret (count =? 1).

(** [markComplete()]. *)
Definition markComplete (self : t) : M World.t t :=
  let* today := createUTCDate_now in
  update self
    {| TodoPartial.title := None; TodoPartial.description := None;
       TodoPartial.status := Some complete; TodoPartial.dueAt := None;
       TodoPartial.completedAt := Some today |}.

(** [listSubTodos()]. *)
Definition listSubTodos (self : t) : M World.t (list SubTodo.t) :=
  SubTodo.readByTodoId
    (default (num_of_Z 0) (SubTodo.number_or_null (TodoProps.id (props self)))).

(** The two methods below change [this.props.subTodos] and may throw
    afterwards: they run over the world and the instance. *)
Definition world {A} (m : M World.t A) : M (World.t * t) A :=
  zoom fst (fun w s => (w, s.2)) m.

Definition this : M (World.t * t) t := fun s => (Return s.2, s).

Definition set_subTodos (subs : list SubTodo.t) : M (World.t * t) unit :=
  modify (fun s => (s.1, {| props := with_subTodos (props s.2) subs |})).

(** [this.props.subTodos || []]: an array is truthy. *)
Definition subTodos_or_empty (self : t) : list SubTodo.t :=
  default [] (TodoProps.subTodos (props self)).

(** [addSubTodo(passedSubTodoProps)]. *)
Definition addSubTodo (passedSubTodoProps : SubTodoProps.t)
  : M (World.t * t) SubTodo.t :=
  let* self := this in
  run set_subTodos (subTodos_or_empty self) then
  try_catch
    (let* subTodo :=
       world (SubTodo.create (SubTodoPartial.of_props passedSubTodoProps)) in
     let* self := this in
     run set_subTodos (subTodos_or_empty self ++ [subTodo]) then
     ret subTodo)
    (fun error => throw (Error "SubTodo not created")).

(** The callback of [findIndex]: [subTodo?.props?.id === subTodoId]. *)
Definition has_id (subTodoId : JSNumber) (subTodo : SubTodo.t) : bool :=
  match SubTodoProps.id (SubTodo.props subTodo) with
  | Some i => strict_equal i subTodoId
  | None => false
  end.

(** [subTodos.findIndex((subTodo) => subTodo?.props?.id === subTodoId)];
    [None] is [-1]. *)
Fixpoint findIndex (subTodoId : JSNumber) (subs : list SubTodo.t)
  : option nat :=
  match subs with
  | [] => None
  | s :: subs' =>
      if has_id subTodoId s then Some 0%nat
      else S <$> findIndex subTodoId subs'
  end.

(** [removeSubTodo(subTodoId)]. *)
Definition removeSubTodo (subTodoId : JSNumber) : M (World.t * t) unit :=
  let* self := this in
  match TodoProps.subTodos (props self) with
  | None => ret tt
  | Some subs =>
      match findIndex subTodoId subs with
      | None => ret tt
      | Some subTodoIndex =>
          run set_subTodos (base.delete subTodoIndex subs) then
          match subs !! subTodoIndex with
          | Some removed =>
              world (SubTodo.delete {| SubTodo.props := SubTodo.props removed |})
          | None => ret tt
          end
      end
  end.

End WithPlatform.

End Todo.

(* ===================================================================== *)
(** * Values handed to the views and to JSON                               *)
(* ===================================================================== *)

Module Payload.

Definition of_date (o : option JSDate) : JSValue :=
  match o with Some d => JDateV d | None => JNull end.

Definition of_number (o : option JSNumber) : JSValue :=
  match o with Some n => JNum n | None => JUndefined end.

Definition of_SubTodoProps (p : SubTodoProps.t) : JSValue :=
  JObj [("id", of_number (SubTodoProps.id p));
        ("title", JStr (SubTodoProps.title p));
        ("status", JStr (Status_text (SubTodoProps.status p)));
        ("createdAt", JDateV (SubTodoProps.createdAt p));
        ("completedAt", of_date (SubTodoProps.completedAt p));
        ("todoId", match SubTodoProps.todoId p with
                   | Some n => JNum n
                   | None => JNull
                   end)].

(** The [props] of an instance built by [SubTodo.readAll]. *)
Definition of_SubTodoRow (p : SubTodoRow.t) : JSValue :=
  JObj [("id", JNum (SubTodoRow.id p));
        ("title", JStr (SubTodoRow.title p));
        ("status", JStr (Status_text (SubTodoRow.status p)));
        ("createdAt", JDateV (SubTodoRow.createdAt p));
        ("completedAt", of_date (SubTodoRow.completedAt p));
        ("editedAt", of_date (SubTodoRow.editedAt p));
        ("todoId", match SubTodoRow.todoId p with
                   | Some n => JNum n
                   | None => JNull
                   end)].

(** A [SubTodo] instance: its [sql] client and its [props]. *)
Definition of_SubTodo (s : SubTodo.t) : JSValue :=
  JObj [("sql", JOpaque "sql"); ("props", of_SubTodoProps (SubTodo.props s))].

Definition of_subTodos (o : option (list SubTodo.t)) : JSValue :=
  match o with
  | Some l => JArr (of_SubTodo <$> l)
  | None => JUndefined
  end.

Definition of_TodoProps (p : TodoProps.t) : JSValue :=
  JObj [("id", of_number (TodoProps.id p));
        ("title", TodoProps.title p);
        ("description", TodoProps.description p);
        ("status", JStr (Status_text (TodoProps.status p)));
        ("dueAt", of_date (TodoProps.dueAt p));
        ("createdAt", of_date (TodoProps.createdAt p));
        ("completedAt", of_date (TodoProps.completedAt p));
        ("editedAt", of_date (TodoProps.editedAt p));
        ("subTodos", of_subTodos (TodoProps.subTodos p))].

End Payload.

(* ===================================================================== *)
(** * What the controllers share                                           *)
(* ===================================================================== *)

Module Controller.

(** A handler: [async (req: Request, res: Response) => { ... }], with the
    [Response] object of the request in the world. *)
Definition Handler : Type := Request.t -> M World.t unit.

Section WithPlatform.
Context `{Platform}.

(** [await res.send(props)]: the call is recorded, then [Response.send]
    runs on the [ServerResponse] of the request. *)
Definition send (request : Request.t) (props : Response.ResponseProps)
  : M World.t unit :=
  run modify (record (Sent props)) then
  zoom res set_res (Response.send request props).

(** [req.body]: reading a property of it throws on [null]. *)
Definition body_of (request : Request.t) : M World.t JSValue :=
  if nullish (Request.body request)
  then throw (TypeError "Cannot read properties of null")
  else ret (Request.body request).

(** [req.getSearchParams()]. *)
Definition searchParams (request : Request.t)
  : M World.t (list (string * string)) :=
  match Request.getSearchParams request with
  | Some l => ret l
  | None => throw (TypeError "Invalid URL")
  end.

(** [params.get(name)]: the first value, [None] for [null]. *)
Fixpoint params_get (name : string) (l : list (string * string))
  : option string :=
  match l with
  | [] => None
  | (k, v) :: l' => if String.eqb k name then Some v else params_get name l'
  end.

(** [`${n}`] for an optional number. *)
Definition show (o : option JSNumber) : string :=
  match o with Some n => Number_toString n | None => "undefined" end.

Definition status_of_text (s : string) : option Status :=
  if String.eqb s "incomplete" then Some incomplete
  else if String.eqb s "complete" then Some complete
  else None.

(** [createUTCDate(new Date(req.body.dueAt))] when [req.body.dueAt] is
    truthy. *)
Definition dueAt_of (b : JSValue) : option JSDate :=
  if truthy (member b "dueAt")
  then Some (createUTCDate (Date_of (member b "dueAt")))
  else None.

End WithPlatform.

(** Response descriptors: the keys not given are [undefined]. *)
Definition respond (c : StatusCode.t) (msg : string)
  : Response.ResponseProps :=
  {| Response.statusCode := c; Response.message := msg;
     Response.payload := JUndefined; Response.template := None;
     Response.redirect := None |}.

Definition with_template (t : string) (p : Response.ResponseProps)
  : Response.ResponseProps :=
  {| Response.statusCode := Response.statusCode p;
     Response.message := Response.message p;
     Response.payload := Response.payload p;
     Response.template := Some t;
     Response.redirect := Response.redirect p |}.

Definition with_redirect (r : string) (p : Response.ResponseProps)
  : Response.ResponseProps :=
  {| Response.statusCode := Response.statusCode p;
     Response.message := Response.message p;
     Response.payload := Response.payload p;
     Response.template := Response.template p;
     Response.redirect := Some r |}.

Definition with_payload (v : JSValue) (p : Response.ResponseProps)
  : Response.ResponseProps :=
  {| Response.statusCode := Response.statusCode p;
     Response.message := Response.message p;
     Response.payload := v;
     Response.template := Response.template p;
     Response.redirect := Response.redirect p |}.

End Controller.

Import Controller.

(* ===================================================================== *)
(** * controllers/TodoController.ts                                        *)
(* ===================================================================== *)

Module TodoController.

Definition isSortByValid (sortBy : string) : bool :=
  String.eqb sortBy "id" || String.eqb sortBy "title"
  || String.eqb sortBy "description" || String.eqb sortBy "dueAt"
  || String.eqb sortBy "createdAt" || String.eqb sortBy "updatedAt".

Definition isOrderByValid (orderBy : string) : bool :=
  String.eqb orderBy "asc" || String.eqb orderBy "desc".

Section WithPlatform.
Context `{Platform}.

Definition getTodoList : Handler := fun req =>
  let* queryParams := searchParams req in
  let statusFilter := params_get "status" queryParams in
  let sortBy := default "id" (params_get "sortBy" queryParams) in
  let orderBy := default "asc" (params_get "orderBy" queryParams) in
  if opt_string_truthy statusFilter
     && negb (String.eqb (default "" statusFilter) "incomplete")
     && negb (String.eqb (default "" statusFilter) "complete")
  then send req (respond StatusCode.BadRequest "Invalid filter parameter.")
  else if string_truthy sortBy && negb (isSortByValid sortBy)
  then send req (respond StatusCode.BadRequest "Invalid sortBy parameter.")
  else if string_truthy orderBy && negb (isOrderByValid orderBy)
  then send req (respond StatusCode.BadRequest "Invalid orderBy parameter.")
  else
    let* todos :=
      try_catch
        (Todo.readAll (statusFilter ≫= status_of_text) (Some sortBy)
           (Some orderBy))
        (fun error =>
           run send req (with_template "ErrorView"
               (respond StatusCode.InternalServerError
                  "Internal Server Error"))
           then ret []) in
    send req
      (with_payload
         (JObj [("todos", JArr ((fun todo => Payload.of_TodoProps (Todo.props todo))
                                  <$> todos))])
         (with_template "ListView" (respond StatusCode.OK "Todo list retrieved"))).

Definition getTodo : Handler := fun req =>
  let id := Request.getId req in
  if isNaN id then send req (respond StatusCode.BadRequest "Invalid ID")
  else
    let* todo :=
      try_catch (Todo.read id)
        (fun error =>
           run send req (with_template "ErrorView"
               (respond StatusCode.InternalServerError
                  "Internal Server Error"))
           then ret None) in
    match todo with
    | Some todo =>
        send req
          (with_payload
             (JObj [("todo", Payload.of_TodoProps (Todo.props todo));
                    ("subtodos",
                     Payload.of_subTodos (TodoProps.subTodos (Todo.props todo)))])
             (with_template "ShowView" (respond StatusCode.OK "Todo retrieved")))
    | None => send req (respond StatusCode.NotFound "Not found")
    end.

Definition sendFormCreate : Handler := fun req =>
  send req (with_template "NewFormView"
    (respond StatusCode.OK
       "Form served successfully!")).

Definition createTodo : Handler := fun req =>
  let* body := body_of req in
  let* createdAt := Todo.createUTCDate_now in
  let todoProps :=
    {| TodoProps.id := None;
       TodoProps.title := member body "title";
       TodoProps.description := member body "description";
       TodoProps.status := incomplete;
       TodoProps.dueAt := dueAt_of body;
       TodoProps.createdAt := Some createdAt;
       TodoProps.completedAt := None;
       TodoProps.editedAt := None;
       TodoProps.subTodos := None |} in
  if negb (truthy (TodoProps.title todoProps))
     || negb (truthy (TodoProps.description todoProps))
  then
    send req
      (with_payload
         (JObj [("errorMessage", JStr "Title and description are required.")])
         (with_template "NewFormView"
            (respond StatusCode.BadRequest
               "Request body must include title and description.")))
  else
    let* todo :=
      try_catch (let* t := Todo.create todoProps in ret (Some t))
        (fun error => ret None) in
    match todo with
    | None =>
        send req (with_template "ErrorView"
        (respond StatusCode.InternalServerError
           "Error while creating todo"))
    | Some todo =>
        send req
          (with_redirect ("/todos/" +:+ show (TodoProps.id (Todo.props todo)))
             (respond StatusCode.Redirect "Todo created successfully!"))
    end.

Definition sendFormEdit : Handler := fun req =>
  let id := Request.getId req in
  if isNaN id then send req (respond StatusCode.BadRequest "Invalid ID")
  else
    try_catch
      (let* todo := Todo.read id in
       match todo with
       | Some todo =>
           run send req
                 (with_payload
                    (JObj [("todo", Payload.of_TodoProps (Todo.props todo))])
                    (with_template "EditFormView" (respond StatusCode.OK "Edit Todo")))
           then
           let* body := body_of req in
           run (match member body "_method" with
                | JStr "DELETE" =>
                    let* deleted := Todo.delete todo in
                    if deleted
                    then send req (with_redirect "/todos"
                         (respond StatusCode.Redirect
                            "Todo deleted successfully!"))
                    else send req (respond StatusCode.InternalServerError
                                     "Error while deleting todo")
                | _ => ret tt
                end)
           then
           let* body := body_of req in
           match member body "_method" with
           | JStr "PUT" =>
               try_catch
                 (let* completed := Todo.markComplete todo in
                  send req (with_redirect "/todos"
                  (respond StatusCode.Redirect
                     "Todo completed successfully!")))
                 (fun _ => send req (respond StatusCode.InternalServerError
                                       "Error while deleting todo"))
           | _ => ret tt
           end
       | None => send req (respond StatusCode.NotFound "Todo not found")
       end)
      (fun error =>
         send req (with_template "ErrorView"
                     (respond StatusCode.InternalServerError
                        "Error while fetching todo for edit"))).

Definition updateTodo : Handler := fun req =>
  let id := Request.getId req in
  if isNaN id then send req (respond StatusCode.BadRequest "Invalid ID")
  else
    let* body := body_of req in
    let todoProps :=
      {| TodoPartial.title := Some (member body "title");
         TodoPartial.description := Some (member body "description");
         TodoPartial.status := None;
         TodoPartial.dueAt := dueAt_of body;
         TodoPartial.completedAt := None |} in
    if negb (truthy (member body "title"))
       || negb (truthy (member body "description"))
    then send req (respond StatusCode.BadRequest
                     "Title and description are required for updating the todo.")
    else
      try_catch
        (let* todo := Todo.read id in
         match todo with
         | Some todo =>
             let* todo := Todo.update todo todoProps in
             send req
               (with_redirect
                  ("/todos/" +:+ show (TodoProps.id (Todo.props todo)))
                  (respond StatusCode.Redirect "Todo updated successfully!"))
         | None => send req (respond StatusCode.NotFound "Not found")
         end)
        (fun error =>
           send req (with_template "ErrorView"
           (respond StatusCode.InternalServerError
              "Error while updating todo"))).

Definition deleteTodo : Handler := fun req =>
  let id := Request.getId req in
  if isNaN id then send req (respond StatusCode.BadRequest "Invalid ID")
  else
    try_catch
      (let* todo := Todo.read id in
       match todo with
       | None => send req (respond StatusCode.NotFound "Not found")
       | Some todo =>
           let* deleted := Todo.delete todo in
           if deleted
           then send req (with_redirect "/todos"
                            (respond StatusCode.Redirect "Todo deleted successfully!"))
           else send req (respond StatusCode.InternalServerError
                            "Error while deleting todo.")
       end)
      (fun error =>
         send req (with_template "ErrorView"
         (respond StatusCode.InternalServerError
            "Error while deleting todo"))).

Definition completeTodo : Handler := fun req =>
  let id := Request.getId req in
  if isNaN id then send req (respond StatusCode.BadRequest "Invalid ID")
  else
    try_catch
      (let* todo := Todo.read id in
       match todo with
       | Some todo =>
           let* todo := Todo.markComplete todo in
           let markComplete :=
             if Status_eqb (TodoProps.status (Todo.props todo)) complete
             then "âœ…" else "" in
           send req
             (with_payload (JObj [("markComplete", JStr markComplete)])
                (with_redirect
                   ("/todos/" +:+ show (TodoProps.id (Todo.props todo)))
                   (respond StatusCode.Redirect "Todo marked as complete!")))
       | None => send req (respond StatusCode.NotFound "Not found")
       end)
      (fun error =>
         send req (with_template "ErrorView"
                     (respond StatusCode.InternalServerError
                        "Error while marking todo as complete"))).

End WithPlatform.

End TodoController.

(* ===================================================================== *)
(** * controllers/SubTodoController.ts                                     *)
(* ===================================================================== *)

Module SubTodoController.

(** [isValidSubTodoProps(props)] on the literal [createSubtodo] builds: the
    three [hasOwnProperty] tests and [typeof props.status === "string"] hold
    of it, which leaves [typeof props.title === "string"]. *)
Definition isValidSubTodoProps (title : JSValue) : option string :=
  match title with JStr s => Some s | _ => None end.

Section WithPlatform.
Context `{Platform}.

Definition internal_error : Response.ResponseProps :=
  with_template "ErrorView"
    (respond StatusCode.InternalServerError "Internal Server Error").

Definition createSubtodo : Handler := fun req =>
  try_catch
    (let todoId := Request.getId req in
     let* body := body_of req in
     let* createdAt := Todo.createUTCDate_now in
     match isValidSubTodoProps (member body "title") with
     | None =>
         send req (respond StatusCode.BadRequest
                     "Request body must include title and description.")
     | Some title =>
         let subtodoData :=
           {| SubTodoProps.id := None;
              SubTodoProps.title := title;
              SubTodoProps.status := incomplete;
              SubTodoProps.createdAt := createdAt;
              SubTodoProps.completedAt := None;
              SubTodoProps.todoId := Some todoId |} in
         let* newSubtodo := SubTodo.create (SubTodoPartial.of_props subtodoData) in
         send req (with_redirect ("/todos/" +:+ Number_toString todoId)
                     (respond StatusCode.Redirect "SubTodo created successfully!"))
     end)
    (fun error => send req internal_error).

Definition getSubTodoList : Handler := fun req =>
  try_catch
    (let todoId := Request.getId req in
     let* params := searchParams req in
     let statusFilter := params_get "status" params in
     let* params' := searchParams req in
     let sortBy := params_get "sortBy" params' in
     if opt_string_truthy statusFilter
        && negb (String.eqb (default "" statusFilter) "incomplete"
                 || String.eqb (default "" statusFilter) "complete")
     then send req (respond StatusCode.BadRequest "Invalid status")
     else if opt_string_truthy sortBy
             && negb (String.eqb (default "" sortBy) "createdAt"
                      || String.eqb (default "" sortBy) "dueAt")
     then send req (respond StatusCode.BadRequest "Invalid sortBy parameter")
     else
       let* allSortedSubTodos :=
         SubTodo.readAll (statusFilter ≫= status_of_text) sortBy in
       let subtodosArray :=
         (fun subtodo => Payload.of_SubTodoRow (SubTodo.listed_props subtodo))
           <$> allSortedSubTodos in
       send req
         (with_payload (JObj [("subtodosArray", JArr subtodosArray)])
            (with_redirect ("/todos/" +:+ Number_toString todoId)
               (respond StatusCode.Redirect "SubTodo list retrieved"))))
    (fun error => send req internal_error).

(** Not registered on the router. *)
Definition getSubTodo : Handler := fun req =>
  try_catch
    (let todoId := Request.getId req in
     if isNaN todoId || le_zero todoId
     then send req (respond StatusCode.BadRequest "Invalid ID")
     else
       let* subtodo := SubTodo.read todoId in
       match subtodo with
       | None => send req (respond StatusCode.NotFound "SubTodo not found")
       | Some subtodo =>
           send req
             (with_payload (Payload.of_SubTodoProps (SubTodo.props subtodo))
                (respond StatusCode.OK "SubTodo retrieved"))
       end)
    (fun error => send req internal_error).

(** Not registered on the router. *)
Definition deleteSubTodo : Handler := fun req =>
  try_catch
    (let todoId := Request.getId req in
     if isNaN todoId || le_zero todoId
     then send req (respond StatusCode.BadRequest "Invalid ID")
     else
       let* existingSubTodo := SubTodo.read todoId in
       match existingSubTodo with
       | None => send req (respond StatusCode.NotFound "SubTodo not found")
       | Some existingSubTodo =>
           run SubTodo.delete existingSubTodo then
           send req (respond StatusCode.OK "SubTodo deleted successfully!")
       end)
    (fun error => send req internal_error).

Definition completeSubTodo : Handler := fun req =>
  try_catch
    (let todoId := Request.getId req in
     let subtodoId := Request.getSubTodoId req in
     if isNaN todoId || le_zero todoId
     then send req (respond StatusCode.BadRequest "Invalid ID")
     else if isNaN subtodoId || le_zero subtodoId
     then send req (respond StatusCode.BadRequest "Invalid ID")
     else
       let* existingSubTodo := SubTodo.read subtodoId in
       match existingSubTodo with
       | None => send req (respond StatusCode.NotFound "SubTodo not found")
       | Some existingSubTodo =>
           let* existingSubTodo := SubTodo.markComplete existingSubTodo in
           send req (with_redirect ("/todos/" +:+ Number_toString todoId)
                       (respond StatusCode.Redirect "SubTodo marked as complete!"))
       end)
    (fun error => send req internal_error).

End WithPlatform.

End SubTodoController.

(* ===================================================================== *)
(** * router/Router.ts                                                     *)
(* ===================================================================== *)

Module Router.

Record Route := {
  httpMethod : string;
  pathPattern : string;
  handler : Handler
}.

(** Modelled from the spec: [register(method, pathPattern, handler)] of
    Router.ts, which is not among the sources: "stores a route", in
    registration order. *)
Definition register (m pattern : string) (h : Handler) (routes : list Route)
  : list Route :=
  routes ++ [{| httpMethod := m; pathPattern := pattern; handler := h |}].

Definition get := register "GET".
Definition post := register "POST".
Definition put := register "PUT".
Definition del := register "DELETE".

(** Modelled from the spec: a segment of a pattern is "a named dynamic
    capture (prefixed marker)" when it starts with a colon. *)
Definition is_dynamic (seg : string) : bool := String.prefix ":" seg.

(** Modelled from the spec: "compare segment count and, segment-by-segment,
    test equality for literal segments and unconditional acceptance for
    dynamic segments". *)
Fixpoint segments_match (pattern path : list string) : bool :=
  match pattern, path with
  | [], [] => true
  | p :: pattern', s :: path' =>
      (is_dynamic p || String.eqb p s) && segments_match pattern' path'
  | _, _ => false
  end.

(** Modelled from the spec: "split the request path into /-delimited
    segments; for each registered route whose method matches ... the first
    fully matching route is selected". *)
Definition route_matches (m path : string) (r : Route) : bool :=
  String.eqb (httpMethod r) m
  && segments_match (split "/" (pathPattern r)) (split "/" path).

Definition match_route (routes : list Route) (m path : string)
  : option Route :=
  List.find (route_matches m path) routes.

(** Modelled from the spec: the request path is the URL up to its query
    string. *)
Fixpoint path_of (u : string) : string :=
  match u with
  | EmptyString => EmptyString
  | String c u' => if Ascii.eqb c "?" then EmptyString else String c (path_of u')
  end.

(** Modelled from the spec: "if the method is POST but the parsed body
    carries a method-override field (PUT/DELETE), the effective method for
    matching is the override, not the literal HTTP method".  The spec names
    two override fields, [_method] and [method], and leaves open which of
    them the router reads: [field] is the one it reads.  A request that
    reaches the router has a method; the empty string stands for none. *)
Definition effective_method (field : string) (request : Request.t) : string :=
  let literal := default "" (Request.method (Request.req request)) in
  match member (Request.body request) field with
  | JStr override =>
      if String.eqb literal "POST"
         && (String.eqb override "PUT" || String.eqb override "DELETE")
      then override
      else literal
  | _ => literal
  end.

Section WithPlatform.
Context `{Platform}.

(** Modelled from the spec: [dispatch] of Router.ts, which is not among the
    sources, on a request whose body has been parsed: the handler of "the
    first fully matching route" for the effective method is invoked; "if no
    route matches, respond with a 404 and a message of the form
    Invalid route: <METHOD> <path>". *)
Definition dispatch (field : string) (routes : list Route)
  (request : Request.t) : M World.t unit :=
  let m := effective_method field request in
  let path := path_of (default "" (Request.url (Request.req request))) in
  match match_route routes m path with
  | Some r => handler r request
  | None =>
      send request
        (respond StatusCode.NotFound
           ("Invalid route: " +:+ m +:+ " " +:+ path))
  end.

(** [registerRoutes] of the two controllers, TodoController first. *)
Definition TodoController_registerRoutes (router : list Route) : list Route :=
  put "/todos/:id/complete" TodoController.completeTodo
  (del "/todos/:id" TodoController.deleteTodo
  (put "/todos/:id" TodoController.updateTodo
  (get "/todos/:id" TodoController.getTodo
  (get "/todos/:id/edit" TodoController.sendFormEdit
  (get "/todos/new" TodoController.sendFormCreate
  (post "/todos" TodoController.createTodo
  (get "/todos" TodoController.getTodoList router))))))).

Definition SubTodoController_registerRoutes (router : list Route)
  : list Route :=
  put "/todos/:id/subtodos/:subid/complete" SubTodoController.completeSubTodo
  (get "/todos/:id/subtodos" SubTodoController.getSubTodoList
  (post "/todos/:id/subtodos" SubTodoController.createSubtodo router)).

Definition routes : list Route :=
  SubTodoController_registerRoutes (TodoController_registerRoutes []).

End WithPlatform.

End Router.

(* ===================================================================== *)
(** * Vocabulary of the statements                                         *)
(* ===================================================================== *)

Module Reading.

(** A character is a decimal digit. *)
Definition is_digit (c : ascii) : bool :=
  match digit_val c with Some _ => true | None => false end.

(** The number a string of decimal digits denotes. *)
Definition decimal_value (s : string) : Z :=
  fold_left (fun acc c => 10 * acc + (Z.of_N (N_of_ascii c) - 48))
            (list_ascii_of_string s) 0.

(** Non-empty and made of decimal digits only. *)
Definition decimal (s : string) : bool :=
  string_truthy s && forallb is_digit (list_ascii_of_string s).

(** A character with which no numeric literal (and no white space around
    one) begins. *)
Definition not_numeric_start (c : ascii) : bool :=
  negb (is_space c) && negb (is_digit c) && negb (Ascii.eqb c "+")
  && negb (Ascii.eqb c "-") && negb (Ascii.eqb c ".")
  && negb (Ascii.eqb c "I").

(** No failure of the store is scheduled. *)
Definition calm (fs : list bool) : Prop := Forall (fun f => f = false) fs.

(** Nothing has been written to the response yet. *)
Definition unsent (r : Response.ServerResponse) : Prop :=
  Response.head r = None /\ Response.ended r = None.

(** The row of a todo after [markComplete()] at time [t]. *)
Definition completed_row (t : Z) (r : todos.row) : todos.row :=
  {| todos.id := todos.id r; todos.title := todos.title r;
     todos.description := todos.description r; todos.status := complete;
     todos.due_at := todos.due_at r; todos.created_at := todos.created_at r;
     todos.completed_at := Some t; todos.edited_at := Some t |}.

(** The row of a subtodo after an [UPDATE] that sets these columns. *)
Definition updated_subtodo (title : option string) (status : option Status)
  (completed : option Z) (r : subtodos.row) : subtodos.row :=
  {| subtodos.id := subtodos.id r;
     subtodos.title := default (subtodos.title r) title;
     subtodos.status := default (subtodos.status r) status;
     subtodos.created_at := subtodos.created_at r;
     subtodos.completed_at :=
       match completed with Some c => Some c | None => subtodos.completed_at r end;
     subtodos.edited_at := subtodos.edited_at r;
     subtodos.todo_id := subtodos.todo_id r |}.

(** The tables after [DELETE FROM todos WHERE id = z]: without that todo
    and, if there was one, without its subtodos. *)
Definition without_todo (z : Z) (d : Store.t) : Store.t :=
  {| todos_rows := List.filter (fun r => negb (todos.id r =? z)) (todos_rows d);
     subtodos_rows :=
       if bool_decide (is_Some (find_todo d z))
       then List.filter
              (fun r => negb (bool_decide (subtodos.todo_id r = Some z)))
              (subtodos_rows d)
       else subtodos_rows d;
     todos_id_seq := todos_id_seq d;
     subtodos_id_seq := subtodos_id_seq d |}.

(** Run in [w], the code throws holding a reserved connection it never
    releases: the statements it adds are [Reserve] and [st], and the tables
    are as before. *)
Definition leaks_connection {A} (m : M World.t A) (st : Statement)
  (w : World.t) : Prop :=
  exists (e : Exn) (w' : World.t),
    m w = (Throw e, w')
    /\ statements w' = statements w ++ [Reserve; st]
    /\ store w' = store w.

(** Code that never calls [send] and leaves the response alone. *)
Definition quiet {A} (m : M World.t A) : Prop :=
  forall w, sends (m w).2 = sends w /\ res (m w).2 = res w.

(** Code that, on a response not yet written, returns after exactly one
    call of [send]. *)
Definition sends_once (m : M World.t unit) : Prop :=
  forall w, unsent (res w) ->
    (m w).1 = Return tt /\ exists p, sends (m w).2 = sends w ++ [p].

(** Code that does so or else throws before any call of [send]. *)
Definition sends_once_or_throws (m : M World.t unit) : Prop :=
  forall w, unsent (res w) ->
    ((m w).1 = Return tt /\ exists p, sends (m w).2 = sends w ++ [p])
    \/ ((exists e, (m w).1 = Throw e)
        /\ sends (m w).2 = sends w /\ res (m w).2 = res w).

End Reading.

(* ===================================================================== *)
(** * The strings [Number] reads as numbers                                *)
(* ===================================================================== *)

(** The numeric string literals of ECMA-262 (StringNumericLiteral), as
    data: what [Number] is measured against. *)
Module Numeral.

Inductive Sign := Unsigned | Plus | Minus.

(** An exponent part: its letter, the sign and the digits. *)
Record Exponent := {
  letter : ascii;
  exponent_sign : Sign;
  exponent_digits : list ascii
}.

Inductive Literal :=
  (* Infinity, +Infinity, -Infinity *)
  | Infinite (sign : Sign)
  (* digits, then optionally a point and digits, then optionally an
     exponent: 42, -1.5, .5, 5., 1e3, +2.5E-3 *)
  | Decimal (sign : Sign) (integer : list ascii)
      (fraction : option (list ascii)) (exponent : option Exponent)
  (* 0x1F, 0o17, 0b101: no sign *)
  | Prefixed (prefix : ascii) (digits : list ascii).

Definition radix_of (prefix : ascii) : option Z :=
  if Ascii.eqb prefix "x" || Ascii.eqb prefix "X" then Some 16
  else if Ascii.eqb prefix "o" || Ascii.eqb prefix "O" then Some 8
  else if Ascii.eqb prefix "b" || Ascii.eqb prefix "B" then Some 2
  else None.

Definition nonempty {A} (l : list A) : bool :=
  match l with [] => false | _ :: _ => true end.

Definition well_formed_exponent (e : Exponent) : bool :=
  (Ascii.eqb (letter e) "e" || Ascii.eqb (letter e) "E")
  && nonempty (exponent_digits e) && forallb Reading.is_digit (exponent_digits e).

(** The grammar: which literals there are. *)
Definition well_formed (l : Literal) : bool :=
  match l with
  | Infinite _ => true
  | Decimal _ integer fraction exponent =>
      forallb Reading.is_digit integer
      && match fraction with
         | Some f => forallb Reading.is_digit f && (nonempty integer || nonempty f)
         | None => nonempty integer
         end
      && match exponent with
         | Some e => well_formed_exponent e
         | None => true
         end
  | Prefixed prefix digits =>
      match radix_of prefix with
      | Some radix =>
          nonempty digits
          && forallb (fun c => bool_decide (is_Some (radix_val radix c))) digits
      | None => false
      end
  end.

Definition sign_text (s : Sign) : list ascii :=
  match s with
  | Unsigned => []
  | Plus => ["+"%char]
  | Minus => ["-"%char]
  end.

Definition fraction_text (fraction : option (list ascii)) : list ascii :=
  match fraction with
  | Some f => "."%char :: f
  | None => []
  end.

Definition exponent_text (exponent : option Exponent) : list ascii :=
  match exponent with
  | Some e => letter e :: sign_text (exponent_sign e) ++ exponent_digits e
  | None => []
  end.

(** The characters of a decimal literal after its sign. *)
Definition decimal_body (integer : list ascii) (fraction : option (list ascii))
  (exponent : option Exponent) : list ascii :=
  integer ++ fraction_text fraction ++ exponent_text exponent.

(** The characters of a literal. *)
Definition text (l : Literal) : list ascii :=
  match l with
  | Infinite sign => sign_text sign ++ list_ascii_of_string "Infinity"
  | Decimal sign integer fraction exponent =>
      sign_text sign ++ decimal_body integer fraction exponent
  | Prefixed prefix digits => "0"%char :: prefix :: digits
  end.

(** The integer a run of decimal digits denotes. *)
Definition digits_value (l : list ascii) : Z :=
  fold_left (fun acc c => 10 * acc + (Z.of_N (N_of_ascii c) - 48)) l 0.

(** The integer a run of digits denotes in a radix up to 16. *)
Definition radix_value (radix : Z) (l : list ascii) : Z :=
  fold_left (fun acc c => radix * acc + default 0 (hex_val c)) l 0.

Definition exponent_value (exponent : option Exponent) : Z :=
  match exponent with
  | Some e =>
      match exponent_sign e with
      | Minus => - digits_value (exponent_digits e)
      | _ => digits_value (exponent_digits e)
      end
  | None => 0
  end.

Definition signed (s : Sign) (n : JSNumber) : JSNumber :=
  match s with Minus => negate n | _ => n end.

(** The number a literal denotes: its mathematical value, the digits of the
    integer and of the fraction scaled by the exponent, rounded to
    binary64. *)
Definition value (l : Literal) : JSNumber :=
  match l with
  | Infinite sign => signed sign (JInf false)
  | Decimal sign integer fraction exponent =>
      let f := default [] fraction in
      signed sign
        (round_double
           (pow10 (digits_value (integer ++ f))
                  (exponent_value exponent - Z.of_nat (length f))))
  | Prefixed prefix digits =>
      round_double (inject_Z (radix_value (default 0 (radix_of prefix)) digits))
  end.

(** White space only; the empty string is. *)
Definition blank (s : string) : bool :=
  forallb is_space (list_ascii_of_string s).

(** No white space. *)
Definition solid (l : list ascii) : bool :=
  forallb (fun c => negb (is_space c)) l.

(** What ends a run of digits: the end, or a character that is no digit. *)
Definition no_digit_ahead (l : list ascii) : Prop :=
  match l with
  | [] => True
  | c :: _ => Reading.is_digit c = false
  end.

(** [s] is the literal [l], white space around it aside. *)
Definition denotes (s : string) (l : Literal) : Prop :=
  well_formed l = true
  /\ exists before after : list ascii,
       forallb is_space before = true /\ forallb is_space after = true
       /\ list_ascii_of_string s = before ++ text l ++ after.

End Numeral.

(* ===================================================================== *)
(** * A small platform and sample data, to run the definitions             *)
(* ===================================================================== *)

Module Sample.

(** Prints the numbers the samples use: integers in decimal. *)
Definition number_text (n : JSNumber) : string :=
  match n with
  | JNaN => "NaN"
  | JInf false => "Infinity"
  | JInf true => "-Infinity"
  | JFin q => DecimalString.NilZero.string_of_int (Z.to_int (Qnum q))
  end.

(** Parses the four shortest JSON texts and rejects the others. *)
Definition json_parse (s : string) : option JSValue :=
  if String.eqb s "null" then Some JNull
  else if String.eqb s "true" then Some (JBool true)
  else if String.eqb s "[]" then Some (JArr [])
  else if String.eqb s "{}" then Some (JObj [])
  else None.

(** A platform with the simplest behaviour of each built-in: form bodies
    are read as one field [title], every URL has no query string, a
    template renders to its name. *)
Definition platform : Platform :=
  {| JSON_parse := json_parse;
     JSON_stringify := fun v => "json";
     URLSearchParams := fun s => [("title", s)];
     URL_searchParams := fun _ _ => Some [];
     View_render := fun t _ => t;
     Number_toString := number_text;
     Date_of := fun _ => InvalidDate;
     createUTCDate := fun d => d;
     pg_text_of := fun _ => None;
     collate_leb := String.leb |}.

(** The same platform, on which every URL has the query string [params]. *)
Definition querying (params : list (string * string)) : Platform :=
  {| JSON_parse := json_parse;
     JSON_stringify := fun v => "json";
     URLSearchParams := fun s => [("title", s)];
     URL_searchParams := fun _ _ => Some params;
     View_render := fun t _ => t;
     Number_toString := number_text;
     Date_of := fun _ => InvalidDate;
     createUTCDate := fun d => d;
     pg_text_of := fun _ => None;
     collate_leb := String.leb |}.

(** The same platform, on which every form body has the fields [entries]. *)
Definition posting (entries : list (string * string)) : Platform :=
  {| JSON_parse := json_parse;
     JSON_stringify := fun v => "json";
     URLSearchParams := fun _ => entries;
     URL_searchParams := fun _ _ => Some [];
     View_render := fun t _ => t;
     Number_toString := number_text;
     Date_of := fun _ => InvalidDate;
     createUTCDate := fun d => d;
     pg_text_of := fun _ => None;
     collate_leb := String.leb |}.

Definition message (m u : string) (hs : list (string * string))
  : Request.IncomingMessage :=
  {| Request.method := Some m; Request.url := Some u;
     Request.headers := list_to_map hs |}.

Definition request (m u : string) (hs : list (string * string))
  (b : JSValue) : Request.t :=
  {| Request.req := message m u hs; Request.body := b |}.

Definition todo1 : todos.row :=
  {| todos.id := 1; todos.title := "Buy milk"; todos.description := "2 l";
     todos.status := complete; todos.due_at := None; todos.created_at := 1000;
     todos.completed_at := Some 2000; todos.edited_at := Some 2000 |}.

Definition store1 : Store.t :=
  {| todos_rows := [todo1]; subtodos_rows := [];
     todos_id_seq := 2; subtodos_id_seq := 1 |}.

Definition sub1 : subtodos.row :=
  {| subtodos.id := 1; subtodos.title := "Skimmed";
     subtodos.status := incomplete; subtodos.created_at := 1500;
     subtodos.completed_at := None; subtodos.edited_at := None;
     subtodos.todo_id := Some 1 |}.

(** Todo 1 with one subtodo. *)
Definition store2 : Store.t :=
  {| todos_rows := [todo1]; subtodos_rows := [sub1];
     todos_id_seq := 2; subtodos_id_seq := 2 |}.

Definition todo2 : todos.row :=
  {| todos.id := 2; todos.title := "Write report";
     todos.description := "for Monday"; todos.status := incomplete;
     todos.due_at := Some 9000; todos.created_at := 500;
     todos.completed_at := None; todos.edited_at := None |}.

Definition todo3 : todos.row :=
  {| todos.id := 3; todos.title := "Call Ann"; todos.description := "";
     todos.status := incomplete; todos.due_at := None;
     todos.created_at := 800; todos.completed_at := None;
     todos.edited_at := Some 850 |}.

Definition sub2 : subtodos.row :=
  {| subtodos.id := 2; subtodos.title := "Outline";
     subtodos.status := complete; subtodos.created_at := 700;
     subtodos.completed_at := Some 750; subtodos.edited_at := Some 750;
     subtodos.todo_id := Some 2 |}.

Definition sub3 : subtodos.row :=
  {| subtodos.id := 3; subtodos.title := "Whole";
     subtodos.status := incomplete; subtodos.created_at := 600;
     subtodos.completed_at := None; subtodos.edited_at := None;
     subtodos.todo_id := Some 1 |}.

Definition sub4 : subtodos.row :=
  {| subtodos.id := 4; subtodos.title := "Figures";
     subtodos.status := incomplete; subtodos.created_at := 1100;
     subtodos.completed_at := None; subtodos.edited_at := Some 1150;
     subtodos.todo_id := Some 2 |}.

(** Three todos and four subtodos, two of todo 1 and two of todo 2, in an
    order that is not the order of their dates. *)
Definition store3 : Store.t :=
  {| todos_rows := [todo1; todo2; todo3];
     subtodos_rows := [sub1; sub2; sub3; sub4];
     todos_id_seq := 4; subtodos_id_seq := 5 |}.

Definition world (d : Store.t) (fs : list bool) : World.t :=
  {| store := d; faults := fs; clock := 5000; res := Response.fresh;
     log := [] |}.

End Sample.

(* ===================================================================== *)
(** * Properties                                                           *)
(* ===================================================================== *)

(** ** models/Subtodo.ts: entity conversion *)

(** C10. For every [SubTodoProps] value [p], converting to an entity and back
    gives [p] again, field for field (id, title, status, createdAt,
    completedAt, todoId), and the instance method [toEntity()] agrees with
    the static [toEntity] applied to the instance's props. *)
Theorem SubTodo_entity_round_trip :
  (forall p : SubTodoProps.t,
      SubTodo.toProps_static (SubTodo.toEntity_static p) = p
      /\ SubTodoProps.id (SubTodo.toProps_static (SubTodo.toEntity_static p))
         = SubTodoProps.id p
      /\ SubTodoProps.title (SubTodo.toProps_static (SubTodo.toEntity_static p))
         = SubTodoProps.title p
      /\ SubTodoProps.status (SubTodo.toProps_static (SubTodo.toEntity_static p))
         = SubTodoProps.status p
      /\ SubTodoProps.createdAt
           (SubTodo.toProps_static (SubTodo.toEntity_static p))
         = SubTodoProps.createdAt p
      /\ SubTodoProps.completedAt
           (SubTodo.toProps_static (SubTodo.toEntity_static p))
         = SubTodoProps.completedAt p
      /\ SubTodoProps.todoId (SubTodo.toProps_static (SubTodo.toEntity_static p))
         = SubTodoProps.todoId p)
  /\ (forall self : SubTodo.t,
         SubTodo.toEntity self = SubTodo.toEntity_static (SubTodo.props self)).
Proof.
  split.
  - intros [i t s c d o]; repeat split.
  - intros [[i t s c d o]]; reflexivity.
Qed.

(** The conversion the other way round: an entity survives the trip through
    props. *)
Lemma SubTodo_props_round_trip (e : SubTodoEntity.t) :
  SubTodo.toEntity_static (SubTodo.toProps_static e) = e.
Proof. destruct e; reflexivity. Qed.

(** ** router/Request.ts: getMethod *)

Lemma member_truthy (b : JSValue) (k : string) (v : JSValue) :
  member b k = v -> nullish v = false -> truthy b = true.
Proof.
  destruct b; simpl; intros <-; try discriminate; reflexivity.
Qed.

(** A [method] field that is neither [undefined] nor [null] is what
    [getMethod()] returns. *)
Lemma getMethod_field (r : Request.t) (v : JSValue) :
  member (Request.body r) "method" = v -> nullish v = false ->
  Request.getMethod r = v.
Proof.
  intros Hv Hn. unfold Request.getMethod.
  rewrite (member_truthy _ _ _ Hv Hn), Hv. unfold coalesce. now rewrite Hn.
Qed.

(** C4, as the code has it. [getMethod()] returns the [method] field of
    the parsed body whenever that field is neither [undefined] nor [null]
    (the empty string included), and the transport-level method otherwise;
    before [parseBody] has run, with the body still the empty default, it
    returns the transport-level method. *)
Theorem getMethod_override (r : Request.t) :
  (forall v, member (Request.body r) "method" = v -> nullish v = false ->
             Request.getMethod r = v)
  /\ (nullish (member (Request.body r) "method") = true ->
      Request.getMethod r = opt_str (Request.method (Request.req r)))
  /\ (forall m : Request.IncomingMessage,
         Request.getMethod (Request.new m) = opt_str (Request.method m)).
Proof.
  repeat split.
  - intros v Hv Hn. now apply getMethod_field.
  - intros Hn. unfold Request.getMethod, coalesce. rewrite Hn.
    now destruct (truthy (Request.body r)).
Qed.

(** At a form post that overrides the method, at a body without the field
    and at a fresh request. *)
Lemma getMethod_override_witness :
  Request.getMethod
    (Sample.request "POST" "/todos/1" [] (JObj [("method", JStr "PUT")]))
  = JStr "PUT"
  /\ Request.getMethod
       (Sample.request "POST" "/todos" [] (JObj [("title", JStr "x")]))
     = JStr "POST".
Proof.
  split.
  - apply (proj1 (getMethod_override _) (JStr "PUT")); reflexivity.
  - exact (proj1 (proj2 (getMethod_override
             (Sample.request "POST" "/todos" [] (JObj [("title", JStr "x")]))))
             eq_refl).
Defined.

(** C4 does not hold as stated: a body whose [method] field is the empty
    string (a form field left empty) is present but not non-empty, and
    [getMethod()] returns that empty string, not the transport-level POST. *)
Lemma getMethod_empty_override :
  let r := Sample.request "POST" "/todos" [] (JObj [("method", JStr "")]) in
  Request.getMethod r = JStr ""
  /\ Request.getMethod r <> opt_str (Request.method (Request.req r)).
Proof. split; [reflexivity | discriminate]. Qed.

(** ** [Number] on digit strings *)

Lemma digit_not_space (c : ascii) :
  Reading.is_digit c = true -> is_space c = false.
Proof.
  unfold Reading.is_digit, digit_val, is_space.
  generalize (N_of_ascii c); intros n.
  destruct ((48 <=? Z.of_N n) && (Z.of_N n <=? 57)) eqn:E; [|discriminate].
  intros _. apply andb_true_iff in E as [E1 E2].
  apply Z.leb_le in E1, E2.
  repeat (apply orb_false_iff; split);
    [apply andb_false_iff; right; apply N.leb_gt; lia
    |apply N.eqb_neq; lia | apply N.eqb_neq; lia].
Qed.

Lemma drop_spaces_id (l : list ascii) :
  forallb (fun c => negb (is_space c)) l = true -> drop_spaces l = l.
Proof.
  destruct l as [|c l]; simpl; [reflexivity|].
  intros E. apply andb_true_iff in E as [E _].
  now destruct (is_space c).
Qed.

Lemma trim_id (l : list ascii) :
  forallb (fun c => negb (is_space c)) l = true -> trim l = l.
Proof.
  intros E. unfold trim. rewrite (drop_spaces_id l E).
  rewrite drop_spaces_id; [apply rev_involutive|].
  apply forallb_forall. intros c Hc. apply in_rev in Hc.
  rewrite forallb_forall in E. now apply E.
Qed.

Lemma read_digits_all (l : list ascii) : forall acc count,
  forallb Reading.is_digit l = true ->
  read_digits acc count l
  = (fold_left (fun a c => 10 * a + (Z.of_N (N_of_ascii c) - 48)) l acc,
     count + Z.of_nat (length l), []).
Proof.
  induction l as [|c l IH]; intros acc count E.
  - cbn [read_digits fold_left length]. do 2 f_equal. lia.
  - cbn [forallb] in E. apply andb_true_iff in E as [Ec El].
    cbn [read_digits fold_left length].
    unfold Reading.is_digit in Ec. unfold digit_val in *.
    destruct ((48 <=? Z.of_N (N_of_ascii c)) && (Z.of_N (N_of_ascii c) <=? 57));
      [|discriminate].
    rewrite (IH _ _ El), Nat2Z.inj_succ. do 2 f_equal. lia.
Qed.

Lemma digits_bound (l : list ascii) : forall acc,
  forallb Reading.is_digit l = true -> 0 <= acc ->
  0 <= fold_left (fun a c => 10 * a + (Z.of_N (N_of_ascii c) - 48)) l acc
    < (acc + 1) * 10 ^ Z.of_nat (length l).
Proof.
  induction l as [|c l IH]; intros acc E Hacc.
  - simpl. lia.
  - simpl in E. apply andb_true_iff in E as [Ec El].
    unfold Reading.is_digit, digit_val in Ec.
    destruct ((48 <=? Z.of_N (N_of_ascii c)) && (Z.of_N (N_of_ascii c) <=? 57))
      eqn:B; [|discriminate].
    apply andb_true_iff in B as [B1 B2]. apply Z.leb_le in B1, B2.
    cbn [fold_left length].
    specialize (IH (10 * acc + (Z.of_N (N_of_ascii c) - 48)) El ltac:(lia)).
    rewrite Nat2Z.inj_succ, Z.pow_succ_r by lia.
    split; [lia|]. eapply Z.lt_le_trans; [apply IH|].
    assert (0 < 10 ^ Z.of_nat (length l)) by (apply Z.pow_pos_nonneg; lia).
    nia.
Qed.

Lemma div_nearest_even_1 (n : Z) : div_nearest_even n 1 = n.
Proof.
  unfold div_nearest_even. rewrite Z.div_1_r, Z.mod_1_r. reflexivity.
Qed.

Lemma below_overflow (n : Z) :
  0 <= n < 2 ^ 53 -> (2 ^ 2098 <=? n * 2 ^ 1074) = false.
Proof.
  intros [Hlo Hhi]. apply Z.leb_gt.
  change (2 ^ 2098) with (2 ^ 1024 * 2 ^ 1074).
  assert (0 < 2 ^ 1074) by (apply Z.pow_pos_nonneg; lia).
  assert (2 ^ 53 <= 2 ^ 1024) by (apply Z.pow_le_mono_r; lia). nia.
Qed.

(** An integer below [2^53] is a binary64 value: rounding leaves it. *)
Lemma round_double_small (n : Z) :
  0 <= n < 2 ^ 53 -> round_double (inject_Z n) = JFin (inject_Z n).
Proof.
  intros Hn. pose proof (below_overflow n Hn) as Hov. destruct Hn as [Hlo Hhi].
  unfold round_double. simpl Qnum. simpl Qden.
  destruct n as [|p|p]; [reflexivity| |lia].
  unfold round_pos, floor_log2.
  change (Z.log2 1) with 0. rewrite Z.sub_0_r.
  set (k := Z.log2 (Z.pos p)).
  assert (Hk : 0 <= k) by apply Z.log2_nonneg.
  assert (Hk52 : k < 53) by (apply Z.log2_lt_pow2; lia).
  destruct (Z.log2_spec (Z.pos p) ltac:(lia)) as [Hl Hu]. fold k in Hl, Hu.
  destruct (Z.leb_spec 0 k); [|lia].
  destruct (Z.leb_spec (1 * 2 ^ k) (Z.pos p)); [|lia].
  rewrite Z.max_l by lia.
  assert (Hpow : 0 < 2 ^ (52 - k)) by (apply Z.pow_pos_nonneg; lia).
  destruct (Z.leb_spec 0 (k - 52)) as [He|He].
  - assert (k = 52) by lia. replace (k - 52) with 0 by lia.
    change (1 * 2 ^ 0) with 1. rewrite div_nearest_even_1.
    change (0 + 1074) with 1074. rewrite Hov.
    change (2 ^ 0) with 1. rewrite Z.mul_1_r.
    f_equal. apply Qred_identity. simpl. apply Z.gcd_1_r.
  - replace (- (k - 52)) with (52 - k) by lia.
    rewrite div_nearest_even_1.
    rewrite <- Z.mul_assoc, <- Z.pow_add_r by lia.
    replace (52 - k + (k - 52 + 1074)) with 1074 by lia. rewrite Hov.
    f_equal.
    transitivity (Qred (inject_Z (Z.pos p))).
    + apply Qred_complete. unfold Qeq, inject_Z. simpl.
      rewrite Z2Pos.id by lia. lia.
    + apply Qred_identity. simpl. apply Z.gcd_1_r.
Qed.

Lemma digit_eqb_false (c x : ascii) :
  Reading.is_digit c = true -> Reading.is_digit x = false ->
  Ascii.eqb c x = false.
Proof.
  intros Hc Hx. destruct (Ascii.eqb c x) eqn:E; [|reflexivity].
  apply Ascii.eqb_eq in E. subst. congruence.
Qed.

Lemma length_list_ascii (s : string) :
  length (list_ascii_of_string s) = String.length s.
Proof. induction s; simpl; congruence. Qed.

Lemma read_unsigned_digits (l : list ascii) :
  l <> [] -> forallb Reading.is_digit l = true ->
  (length l <= 15)%nat ->
  read_unsigned l
  = JFin (inject_Z
            (fold_left (fun a c => 10 * a + (Z.of_N (N_of_ascii c) - 48)) l 0)).
Proof.
  intros Hne Hd Hlen. unfold read_unsigned.
  destruct l as [|c l']; [congruence|].
  assert (Hc : Reading.is_digit c = true)
    by (cbn [forallb] in Hd; now apply andb_true_iff in Hd).
  unfold list_ascii_eqb, Infinity_chars. cbn [list_ascii_of_string].
  cbn [string_of_list_ascii String.eqb].
  rewrite (digit_eqb_false c "I" Hc eq_refl). cbn [andb].
  unfold read_decimal. rewrite (read_digits_all _ 0 0 Hd).
  destruct (Z.ltb_spec 0 (0 + Z.of_nat (length (c :: l')))) as [_|Hbad];
    [|cbn [length] in Hbad; lia].
  apply round_double_small.
  pose proof (digits_bound (c :: l') 0 Hd ltac:(lia)) as [Hlo Hhi].
  split; [exact Hlo|]. eapply Z.lt_le_trans; [exact Hhi|].
  rewrite Z.add_0_l, Z.mul_1_l.
  transitivity (10 ^ 15); [apply Z.pow_le_mono_r; lia|].
  apply Z.leb_le. reflexivity.
Qed.

(** [Number] of one to fifteen decimal digits is the integer they denote. *)
Lemma Number_decimal (s : string) :
  Reading.decimal s = true -> (String.length s <= 15)%nat ->
  Number (Some s) = JFin (inject_Z (Reading.decimal_value s)).
Proof.
  unfold Reading.decimal, Reading.decimal_value. intros Hd Hlen.
  apply andb_true_iff in Hd as [Hne Hd]. rewrite <- length_list_ascii in Hlen.
  unfold Number.
  assert (Hsp : forallb (fun c => negb (is_space c)) (list_ascii_of_string s)
                = true).
  { apply forallb_forall. intros c Hc. rewrite forallb_forall in Hd.
    now rewrite (digit_not_space c (Hd c Hc)). }
  rewrite (trim_id _ Hsp).
  destruct s as [|c s]; [discriminate|]. cbn [list_ascii_of_string] in *.
  set (l := c :: list_ascii_of_string s) in *.
  assert (Hc : Reading.is_digit c = true)
    by (unfold l in Hd; cbn [forallb] in Hd; now apply andb_true_iff in Hd).
  assert (Hu := read_unsigned_digits l ltac:(discriminate) Hd Hlen).
  unfold read_numeric, l at 1.
  rewrite (digit_eqb_false c "+" Hc eq_refl), (digit_eqb_false c "-" Hc eq_refl).
  destruct (list_ascii_of_string s) as [|p digits] eqn:El; [exact Hu|].
  assert (Hp : Reading.is_digit p = true).
  { unfold l in Hd. cbn [forallb] in Hd.
    apply andb_true_iff in Hd as [_ Hd]. now apply andb_true_iff in Hd. }
  rewrite (digit_eqb_false p "x" Hp eq_refl), (digit_eqb_false p "X" Hp eq_refl),
    (digit_eqb_false p "o" Hp eq_refl), (digit_eqb_false p "O" Hp eq_refl),
    (digit_eqb_false p "b" Hp eq_refl), (digit_eqb_false p "B" Hp eq_refl).
  rewrite !andb_false_r. exact Hu.
Qed.

Lemma drop_spaces_snoc (c : ascii) (l : list ascii) :
  is_space c = false -> exists l', drop_spaces (l ++ [c]) = l' ++ [c].
Proof.
  intros Hc. induction l as [|x l IH]; simpl.
  - rewrite Hc. now exists [].
  - destruct (is_space x); [exact IH|]. now exists (x :: l).
Qed.

Lemma trim_head (c : ascii) (l : list ascii) :
  is_space c = false -> exists l', trim (c :: l) = c :: l'.
Proof.
  intros Hc. unfold trim. cbn [drop_spaces]. rewrite Hc. cbn [rev].
  destruct (drop_spaces_snoc c (rev l) Hc) as [l' ->].
  rewrite rev_app_distr. now exists (rev l').
Qed.

(** [Number] of a string that does not begin as a numeric literal does is
    [NaN]. *)
Lemma Number_not_numeric (c : ascii) (s : string) :
  Reading.not_numeric_start c = true -> Number (Some (String c s)) = JNaN.
Proof.
  unfold Reading.not_numeric_start. intros H.
  apply andb_true_iff in H as [H HI]. apply andb_true_iff in H as [H Hdot].
  apply andb_true_iff in H as [H Hminus]. apply andb_true_iff in H as [H Hplus].
  apply andb_true_iff in H as [Hsp Hdg].
  apply negb_true_iff in HI, Hdot, Hminus, Hplus, Hsp, Hdg.
  unfold Number. cbn [list_ascii_of_string].
  destruct (trim_head c (list_ascii_of_string s) Hsp) as [l' ->].
  assert (Hz : Ascii.eqb c "0" = false).
  { destruct (Ascii.eqb c "0") eqn:E; [|reflexivity].
    apply Ascii.eqb_eq in E. subst. discriminate. }
  assert (Hu : read_unsigned (c :: l') = JNaN).
  { unfold read_unsigned, list_ascii_eqb, Infinity_chars.
    cbn [list_ascii_of_string string_of_list_ascii String.eqb].
    rewrite HI. cbn [andb]. unfold read_decimal. cbn [read_digits].
    unfold Reading.is_digit in Hdg.
    destruct (digit_val c); [discriminate|]. now rewrite Hdot. }
  unfold read_numeric. rewrite Hplus, Hminus, Hz. cbn [andb].
  destruct l'; exact Hu.
Qed.

(** ** [Number] and the numeric literals *)

Lemma forallb_app_true {A} (f : A -> bool) (a b : list A) :
  forallb f (a ++ b) = true <-> forallb f a = true /\ forallb f b = true.
Proof. rewrite forallb_app. apply andb_true_iff. Qed.

Lemma drop_spaces_spaces (ws l : list ascii) :
  forallb is_space ws = true -> drop_spaces (ws ++ l) = drop_spaces l.
Proof.
  induction ws as [|c ws IH]; [reflexivity|]. cbn [forallb app drop_spaces].
  intros E. apply andb_true_iff in E as [-> E]. now apply IH.
Qed.

Lemma drop_spaces_all (ws : list ascii) :
  forallb is_space ws = true -> drop_spaces ws = [].
Proof.
  intros E. rewrite <- (app_nil_r ws). now rewrite drop_spaces_spaces.
Qed.

Lemma drop_spaces_split (l : list ascii) :
  exists ws, forallb is_space ws = true /\ l = ws ++ drop_spaces l.
Proof.
  induction l as [|c l (ws & Hws & Hl)]; [now exists []|].
  cbn [drop_spaces]. destruct (is_space c) eqn:Hc.
  - exists (c :: ws). cbn [forallb app]. rewrite Hc, Hws. split; [reflexivity|].
    now f_equal.
  - now exists [].
Qed.

Lemma forallb_rev {A} (f : A -> bool) (l : list A) :
  forallb f (rev l) = forallb f l.
Proof.
  induction l as [|x l IH]; [reflexivity|]. cbn [rev forallb].
  rewrite forallb_app, IH. cbn [forallb]. rewrite andb_true_r. apply andb_comm.
Qed.

(** [trim] removes white space at both ends and nothing else. *)
Lemma trim_split (l : list ascii) :
  exists before after,
    forallb is_space before = true /\ forallb is_space after = true
    /\ l = before ++ trim l ++ after.
Proof.
  destruct (drop_spaces_split l) as (ws & Hws & Hl).
  destruct (drop_spaces_split (rev (drop_spaces l))) as (ws' & Hws' & Hl').
  exists ws, (rev ws'). split; [exact Hws|]. split; [now rewrite forallb_rev|].
  unfold trim. rewrite <- rev_app_distr, <- Hl', rev_involutive. exact Hl.
Qed.

Lemma trim_around (before m after : list ascii) (c d : ascii)
  (m' m'' : list ascii) :
  forallb is_space before = true -> forallb is_space after = true ->
  m = c :: m' -> m = m'' ++ [d] ->
  is_space c = false -> is_space d = false ->
  trim (before ++ m ++ after) = m.
Proof.
  intros Hb Ha Hc Hd Hsc Hsd. unfold trim.
  rewrite (drop_spaces_spaces before _ Hb).
  rewrite Hc at 1. cbn [app drop_spaces]. rewrite Hsc.
  change (c :: m' ++ after) with ((c :: m') ++ after). rewrite <- Hc.
  rewrite rev_app_distr.
  rewrite drop_spaces_spaces by now rewrite forallb_rev.
  rewrite Hd at 1. rewrite rev_app_distr. cbn [rev app drop_spaces].
  rewrite Hsd. change (d :: rev m'') with (rev [d] ++ rev m'').
  rewrite <- rev_app_distr, <- Hd. apply rev_involutive.
Qed.

Lemma blank_trim (s : string) :
  Numeral.blank s = true <-> trim (list_ascii_of_string s) = [].
Proof.
  unfold Numeral.blank. set (l := list_ascii_of_string s). split.
  - intros E. unfold trim. now rewrite (drop_spaces_all l E).
  - intros E. destruct (trim_split l) as (b & a & Hb & Ha & Hl).
    rewrite E in Hl. rewrite Hl. cbn [app]. rewrite forallb_app, Hb, Ha.
    reflexivity.
Qed.

(** White space alone reads as 0. *)
Lemma Number_blank (s : string) :
  Numeral.blank s = true -> Number (Some s) = JFin (inject_Z 0).
Proof.
  intros E. apply blank_trim in E. unfold Number. now rewrite E.
Qed.

(** *** Digits *)

Lemma digit_val_code (c : ascii) :
  Reading.is_digit c = true ->
  digit_val c = Some (Z.of_N (N_of_ascii c) - 48).
Proof.
  unfold Reading.is_digit, digit_val.
  now destruct ((48 <=? Z.of_N (N_of_ascii c)) && (Z.of_N (N_of_ascii c) <=? 57)).
Qed.

Lemma digit_val_none (c : ascii) :
  Reading.is_digit c = false -> digit_val c = None.
Proof. unfold Reading.is_digit. now destruct (digit_val c). Qed.

Lemma read_digits_stop (acc count : Z) (l : list ascii) :
  Numeral.no_digit_ahead l -> read_digits acc count l = (acc, count, l).
Proof.
  destruct l as [|c l]; [reflexivity|]. cbn [Numeral.no_digit_ahead read_digits].
  intros Hc. now rewrite (digit_val_none c Hc).
Qed.

Lemma read_digits_app (ds rest : list ascii) : forall acc count,
  forallb Reading.is_digit ds = true -> Numeral.no_digit_ahead rest ->
  read_digits acc count (ds ++ rest)
  = (fold_left (fun a c => 10 * a + (Z.of_N (N_of_ascii c) - 48)) ds acc,
     count + Z.of_nat (length ds), rest).
Proof.
  induction ds as [|d ds IH]; intros acc count Hds Hrest.
  - cbn [app fold_left length]. rewrite (read_digits_stop _ _ _ Hrest).
    do 2 f_equal. lia.
  - cbn [forallb] in Hds. apply andb_true_iff in Hds as [Hd Hds].
    cbn [app read_digits fold_left length]. rewrite (digit_val_code d Hd).
    rewrite (IH _ _ Hds Hrest). do 2 f_equal. lia.
Qed.

Lemma read_digits_inv (l : list ascii) : forall acc count v count' rest,
  read_digits acc count l = (v, count', rest) ->
  exists ds,
    l = ds ++ rest /\ forallb Reading.is_digit ds = true
    /\ Numeral.no_digit_ahead rest
    /\ v = fold_left (fun a c => 10 * a + (Z.of_N (N_of_ascii c) - 48)) ds acc
    /\ count' = count + Z.of_nat (length ds).
Proof.
  induction l as [|c l IH]; intros acc count v count' rest.
  - cbn [read_digits]. intros [= <- <- <-]. exists [].
    repeat split. cbn [length]. lia.
  - cbn [read_digits]. destruct (digit_val c) as [d|] eqn:Hc.
    + intros Hr. destruct (IH _ _ _ _ _ Hr) as (ds & -> & Hds & Hrest & -> & ->).
      assert (Hd : Reading.is_digit c = true)
        by (unfold Reading.is_digit; now rewrite Hc).
      rewrite (digit_val_code c Hd) in Hc. injection Hc as <-.
      exists (c :: ds). cbn [app forallb fold_left length]. rewrite Hd, Hds.
      repeat split; [exact Hrest|lia].
    + intros [= <- <- <-]. exists [].
      repeat split; [|cbn [length]; lia].
      cbn [Numeral.no_digit_ahead]. unfold Reading.is_digit. now rewrite Hc.
Qed.

Lemma digits_value_app (a b : list ascii) :
  fold_left (fun acc c => 10 * acc + (Z.of_N (N_of_ascii c) - 48)) b
    (Numeral.digits_value a)
  = Numeral.digits_value (a ++ b).
Proof. unfold Numeral.digits_value. now rewrite fold_left_app. Qed.

(** *** The exponent part *)

Lemma no_digit_exponent (exponent : option Numeral.Exponent) :
  match exponent with
  | Some e => Numeral.well_formed_exponent e = true
  | None => True
  end ->
  Numeral.no_digit_ahead (Numeral.exponent_text exponent).
Proof.
  destruct exponent as [[c s ds]|]; [|exact (fun _ => I)].
  unfold Numeral.well_formed_exponent. cbn [Numeral.letter Numeral.exponent_text
    Numeral.no_digit_ahead].
  intros E. apply andb_true_iff in E as [E _]. apply andb_true_iff in E as [E _].
  apply orb_true_iff in E as [E|E]; apply Ascii.eqb_eq in E; now subst.
Qed.

Lemma read_exponent_text (exponent : option Numeral.Exponent) :
  match exponent with
  | Some e => Numeral.well_formed_exponent e = true
  | None => True
  end ->
  read_exponent (Numeral.exponent_text exponent)
  = Some (Numeral.exponent_value exponent).
Proof.
  destruct exponent as [[c s ds]|]; [|reflexivity].
  unfold Numeral.well_formed_exponent.
  cbn [Numeral.letter Numeral.exponent_digits Numeral.exponent_sign
       Numeral.exponent_text Numeral.exponent_value read_exponent].
  intros E. apply andb_true_iff in E as [E Hds].
  apply andb_true_iff in E as [Hc Hne]. rewrite Hc.
  assert (Hread : read_digits 0 0 ds
                  = (Numeral.digits_value ds, Z.of_nat (length ds), [])).
  { rewrite <- (app_nil_r ds) at 1.
    rewrite (read_digits_app ds [] 0 0 Hds I). reflexivity. }
  assert (Hpos : (0 <? Z.of_nat (length ds)) = true).
  { destruct ds; [discriminate|]. cbn [length]. apply Z.ltb_lt. lia. }
  destruct s; cbn [Numeral.sign_text app].
  - destruct ds as [|d ds']; [discriminate|].
    assert (Hd : Reading.is_digit d = true)
      by (cbn [forallb] in Hds; now apply andb_true_iff in Hds).
    rewrite (digit_eqb_false d "-" Hd eq_refl),
      (digit_eqb_false d "+" Hd eq_refl).
    now rewrite Hread, Hpos.
  - cbn [Ascii.eqb Bool.eqb]. now rewrite Hread, Hpos.
  - cbn [Ascii.eqb Bool.eqb]. now rewrite Hread, Hpos.
Qed.

Lemma read_exponent_inv (l : list ascii) (ev : Z) :
  read_exponent l = Some ev ->
  exists exponent : option Numeral.Exponent,
    match exponent with
    | Some e => Numeral.well_formed_exponent e = true
    | None => True
    end
    /\ l = Numeral.exponent_text exponent.
Proof.
  destruct l as [|c l']; [now exists None|]. cbn [read_exponent].
  destruct (Ascii.eqb c "e" || Ascii.eqb c "E") eqn:Hc; [|discriminate].
  assert (Hgen : forall (s : Numeral.Sign) (negative : bool) (l'' : list ascii),
            l' = Numeral.sign_text s ++ l'' ->
            match read_digits 0 0 l'' with
            | (e, count, []) =>
                if 0 <? count then Some (if negative then - e else e) else None
            | _ => None
            end = Some ev ->
            exists exponent : option Numeral.Exponent,
              match exponent with
              | Some e => Numeral.well_formed_exponent e = true
              | None => True
              end
              /\ c :: l' = Numeral.exponent_text exponent).
  { intros s negative l'' Hl' Hr.
    destruct (read_digits 0 0 l'') as [[e count] rest] eqn:Hd.
    destruct rest; [|discriminate].
    destruct (Z.ltb_spec 0 count) as [Hpos|]; [|discriminate].
    destruct (read_digits_inv _ _ _ _ _ _ Hd) as (ds & Hds & Hall & _ & _ & Hn).
    rewrite app_nil_r in Hds. subst l''.
    exists (Some {| Numeral.letter := c; Numeral.exponent_sign := s;
                    Numeral.exponent_digits := ds |}).
    split; [|cbn [Numeral.exponent_text Numeral.letter Numeral.exponent_sign
                  Numeral.exponent_digits]; now rewrite Hl'].
    unfold Numeral.well_formed_exponent.
    cbn [Numeral.letter Numeral.exponent_digits]. rewrite Hc, Hall.
    destruct ds; [cbn [length] in Hn; lia|reflexivity]. }
  destruct l' as [|s r].
  - apply (Hgen Numeral.Unsigned false []); reflexivity.
  - destruct (Ascii.eqb s "-") eqn:Hm.
    + apply Ascii.eqb_eq in Hm. subst s.
      apply (Hgen Numeral.Minus true r). reflexivity.
    + destruct (Ascii.eqb s "+") eqn:Hp.
      * apply Ascii.eqb_eq in Hp. subst s.
        apply (Hgen Numeral.Plus false r). reflexivity.
      * apply (Hgen Numeral.Unsigned false (s :: r)). reflexivity.
Qed.

(** *** Decimal literals *)

Lemma pow10_0 (m : Z) : pow10 m 0 = inject_Z m.
Proof. unfold pow10. cbn. now rewrite Z.mul_1_r. Qed.

Lemma nonempty_length {A} (l : list A) :
  Numeral.nonempty l = true <-> 0 < Z.of_nat (length l).
Proof. destruct l; cbn; split; intros; try lia; congruence. Qed.

Lemma read_decimal_body (sign : Numeral.Sign) (integer : list ascii)
  (fraction : option (list ascii)) (exponent : option Numeral.Exponent) :
  Numeral.well_formed (Numeral.Decimal sign integer fraction exponent) = true ->
  exists q,
    read_decimal (Numeral.decimal_body integer fraction exponent) = Some q
    /\ round_double q
       = round_double
           (pow10 (Numeral.digits_value (integer ++ default [] fraction))
              (Numeral.exponent_value exponent
               - Z.of_nat (length (default [] fraction)))).
Proof.
  cbn [Numeral.well_formed]. intros E.
  apply andb_true_iff in E as [E He]. apply andb_true_iff in E as [Hi Hf].
  assert (Hexp : match exponent with
                 | Some e => Numeral.well_formed_exponent e = true
                 | None => True
                 end) by (destruct exponent; [exact He|exact I]).
  pose proof (no_digit_exponent exponent Hexp) as Hstop.
  pose proof (read_exponent_text exponent Hexp) as Hre.
  unfold read_decimal, Numeral.decimal_body.
  destruct fraction as [f|]; cbn [Numeral.fraction_text default].
  - apply andb_true_iff in Hf as [Hf Hne].
    rewrite (read_digits_app integer _ 0 0 Hi) by reflexivity.
    cbn [app]. cbn [Ascii.eqb Bool.eqb].
    rewrite (read_digits_app f _ _ 0 Hf Hstop).
    change (fold_left _ integer 0) with (Numeral.digits_value integer).
    rewrite digits_value_app, Hre.
    assert (Hpos : (0 <? 0 + Z.of_nat (length integer) + (0 + Z.of_nat (length f)))
                   = true).
    { apply Z.ltb_lt. apply orb_true_iff in Hne as [H|H];
        apply nonempty_length in H; lia. }
    rewrite Hpos. eexists. split; [reflexivity|].
    now rewrite Z.add_0_l.
  - cbn [app]. rewrite app_nil_r.
    rewrite (read_digits_app integer _ 0 0 Hi Hstop).
    change (fold_left _ integer 0) with (Numeral.digits_value integer).
    apply nonempty_length in Hf.
    assert (Hpos : (0 <? 0 + Z.of_nat (length integer)) = true)
      by (apply Z.ltb_lt; lia).
    rewrite Hpos. cbn [length]. rewrite Z.sub_0_r.
    destruct exponent as [[c s ds]|].
    + cbn [Numeral.exponent_text Numeral.letter Numeral.exponent_sign
           Numeral.exponent_digits] in *.
      assert (Hdot : Ascii.eqb c "." = false).
      { unfold Numeral.well_formed_exponent in He. cbn [Numeral.letter] in He.
        apply andb_true_iff in He as [He _]. apply andb_true_iff in He as [He _].
        apply orb_true_iff in He as [He|He]; apply Ascii.eqb_eq in He;
          now subst. }
      rewrite Hdot, Hre. eexists. split; reflexivity.
    + cbn [Numeral.exponent_text Numeral.exponent_value].
      eexists. split; [reflexivity|]. now rewrite pow10_0.
Qed.

Lemma read_decimal_inv (l : list ascii) (q : Q) :
  read_decimal l = Some q ->
  exists integer fraction exponent,
    Numeral.well_formed
      (Numeral.Decimal Numeral.Unsigned integer fraction exponent) = true
    /\ l = Numeral.decimal_body integer fraction exponent.
Proof.
  unfold read_decimal.
  destruct (read_digits 0 0 l) as [[ip icount] rest] eqn:Hd.
  destruct (read_digits_inv _ _ _ _ _ _ Hd) as (integer & -> & Hi & Hstop & _ & Hn).
  destruct rest as [|c rest'].
  - destruct (Z.ltb_spec 0 icount) as [Hpos|]; [|discriminate]. intros _.
    exists integer, None, None. split; [|reflexivity].
    cbn [Numeral.well_formed]. rewrite Hi.
    destruct integer; [cbn [length] in Hn; lia|reflexivity].
  - destruct (Ascii.eqb c ".") eqn:Hc.
    + apply Ascii.eqb_eq in Hc. subst c.
      destruct (read_digits ip 0 rest') as [[m fcount] rest''] eqn:Hf.
      destruct (read_digits_inv _ _ _ _ _ _ Hf) as (f & -> & Hfd & _ & _ & Hfn).
      destruct (Z.ltb_spec 0 (icount + fcount)) as [Hpos|]; [|discriminate].
      destruct (read_exponent rest'') as [ev|] eqn:He; [|discriminate].
      destruct (read_exponent_inv _ _ He) as (exponent & Hwf & ->). intros _.
      exists integer, (Some f), exponent. split; [|reflexivity].
      cbn [Numeral.well_formed]. rewrite Hi, Hfd.
      assert (Hne : Numeral.nonempty integer || Numeral.nonempty f = true).
      { destruct integer; [|reflexivity]. destruct f; [|reflexivity].
        cbn [length] in *. lia. }
      rewrite Hne. now destruct exponent.
    + destruct (Z.ltb_spec 0 icount) as [Hpos|]; [|discriminate].
      destruct (read_exponent (c :: rest')) as [ev|] eqn:He; [|discriminate].
      destruct (read_exponent_inv _ _ He) as (exponent & Hwf & Hl). intros _.
      exists integer, None, exponent. split.
      * cbn [Numeral.well_formed]. rewrite Hi.
        assert (Hne : Numeral.nonempty integer = true)
          by (destruct integer; [cbn [length] in Hn; lia|reflexivity]).
        rewrite Hne. now destruct exponent.
      * unfold Numeral.decimal_body. cbn [Numeral.fraction_text app]. now rewrite Hl.
Qed.

(** *** Unsigned literals *)

Lemma list_ascii_eqb_eq (a b : list ascii) :
  list_ascii_eqb a b = true <-> a = b.
Proof.
  unfold list_ascii_eqb. rewrite String.eqb_eq. split; [|now intros ->].
  intros E. rewrite <- (list_ascii_of_string_of_list_ascii a),
    <- (list_ascii_of_string_of_list_ascii b). now rewrite E.
Qed.

(** The first character of a decimal literal after its sign: a digit or
    the point. *)
Lemma decimal_body_head (sign : Numeral.Sign) (integer : list ascii)
  (fraction : option (list ascii)) (exponent : option Numeral.Exponent) :
  Numeral.well_formed (Numeral.Decimal sign integer fraction exponent) = true ->
  exists c rest,
    Numeral.decimal_body integer fraction exponent = c :: rest
    /\ (Reading.is_digit c = true \/ c = "."%char).
Proof.
  cbn [Numeral.well_formed]. intros E.
  apply andb_true_iff in E as [E _]. apply andb_true_iff in E as [Hi Hf].
  unfold Numeral.decimal_body. destruct integer as [|d integer].
  - destruct fraction as [f|]; [|discriminate]. cbn [app Numeral.fraction_text].
    eexists _, _. split; [reflexivity|now right].
  - cbn [forallb] in Hi. apply andb_true_iff in Hi as [Hd _].
    eexists _, _. split; [reflexivity|now left].
Qed.

Lemma read_unsigned_body (sign : Numeral.Sign) (integer : list ascii)
  (fraction : option (list ascii)) (exponent : option Numeral.Exponent) :
  Numeral.well_formed (Numeral.Decimal sign integer fraction exponent) = true ->
  read_unsigned (Numeral.decimal_body integer fraction exponent)
  = round_double
      (pow10 (Numeral.digits_value (integer ++ default [] fraction))
         (Numeral.exponent_value exponent
          - Z.of_nat (length (default [] fraction)))).
Proof.
  intros Hwf. unfold read_unsigned.
  destruct (decimal_body_head sign integer fraction exponent Hwf)
    as (c & rest & Hbody & Hc).
  destruct (read_decimal_body sign integer fraction exponent Hwf)
    as (q & Hq & Hround).
  rewrite Hq, <- Hround.
  destruct (list_ascii_eqb _ Infinity_chars) eqn:E; [|reflexivity].
  apply list_ascii_eqb_eq in E. rewrite Hbody in E.
  injection E as -> _. destruct Hc as [Hc|Hc]; discriminate.
Qed.

Lemma read_unsigned_inv (l : list ascii) :
  read_unsigned l <> JNaN ->
  l = Infinity_chars
  \/ exists integer fraction exponent,
       Numeral.well_formed
         (Numeral.Decimal Numeral.Unsigned integer fraction exponent) = true
       /\ l = Numeral.decimal_body integer fraction exponent.
Proof.
  unfold read_unsigned.
  destruct (list_ascii_eqb l Infinity_chars) eqn:E.
  - apply list_ascii_eqb_eq in E. now left.
  - destruct (read_decimal l) as [q|] eqn:Hq; [|congruence]. intros _. right.
    exact (read_decimal_inv l q Hq).
Qed.

(** *** Literals with a radix prefix *)

Lemma radix_val_hex (radix : Z) (c : ascii) :
  is_Some (radix_val radix c) ->
  radix_val radix c = Some (default 0 (hex_val c)).
Proof.
  unfold radix_val. destruct (hex_val c) as [d|]; [|now intros [? ?]].
  cbn [default]. now destruct (d <? radix); [|intros [? ?]].
Qed.

Lemma read_radix_all (radix : Z) (ds : list ascii) : forall acc,
  forallb (fun c => bool_decide (is_Some (radix_val radix c))) ds = true ->
  read_radix radix acc ds
  = Some (fold_left (fun a c => radix * a + default 0 (hex_val c)) ds acc).
Proof.
  induction ds as [|d ds IH]; intros acc E; [reflexivity|].
  cbn [forallb] in E. apply andb_true_iff in E as [Hd Hds].
  apply bool_decide_eq_true in Hd.
  cbn [read_radix fold_left]. rewrite (radix_val_hex radix d Hd).
  now apply IH.
Qed.

Lemma read_radix_inv (radix : Z) (ds : list ascii) : forall acc n,
  read_radix radix acc ds = Some n ->
  forallb (fun c => bool_decide (is_Some (radix_val radix c))) ds = true.
Proof.
  induction ds as [|d ds IH]; intros acc n; [reflexivity|].
  cbn [read_radix forallb]. destruct (radix_val radix d) as [x|]; [|discriminate].
  intros Hr. rewrite (IH _ _ Hr).
  now rewrite bool_decide_eq_true_2 by now eexists.
Qed.

Lemma read_prefixed_digits (radix : Z) (ds : list ascii) :
  Numeral.nonempty ds = true ->
  forallb (fun c => bool_decide (is_Some (radix_val radix c))) ds = true ->
  read_prefixed radix ds
  = round_double (inject_Z (Numeral.radix_value radix ds)).
Proof.
  intros Hne Hds. unfold read_prefixed. destruct ds as [|d ds]; [discriminate|].
  now rewrite (read_radix_all radix _ 0 Hds).
Qed.

Lemma read_prefixed_inv (radix : Z) (ds : list ascii) :
  read_prefixed radix ds <> JNaN ->
  Numeral.nonempty ds
  && forallb (fun c => bool_decide (is_Some (radix_val radix c))) ds = true.
Proof.
  unfold read_prefixed. destruct ds as [|d ds]; [congruence|].
  destruct (read_radix radix 0 (d :: ds)) as [n|] eqn:Hr; [|congruence].
  intros _. cbn [Numeral.nonempty andb]. exact (read_radix_inv _ _ _ _ Hr).
Qed.

(** *** The whole literal *)

(** A character that may follow a leading [0] in a decimal literal is none
    of the radix prefixes. *)
Lemma no_prefix_after_zero (p : ascii) :
  Reading.is_digit p = true \/ p = "."%char \/ p = "e"%char \/ p = "E"%char ->
  Ascii.eqb p "x" || Ascii.eqb p "X" = false
  /\ Ascii.eqb p "o" || Ascii.eqb p "O" = false
  /\ Ascii.eqb p "b" || Ascii.eqb p "B" = false.
Proof.
  intros [Hp | [-> | [-> | ->]]]; [|repeat split..].
  rewrite (digit_eqb_false p "x" Hp eq_refl), (digit_eqb_false p "X" Hp eq_refl),
    (digit_eqb_false p "o" Hp eq_refl), (digit_eqb_false p "O" Hp eq_refl),
    (digit_eqb_false p "b" Hp eq_refl), (digit_eqb_false p "B" Hp eq_refl).
  repeat split.
Qed.

Lemma decimal_body_second (sign : Numeral.Sign) (c : ascii)
  (integer : list ascii) (fraction : option (list ascii))
  (exponent : option Numeral.Exponent) :
  Numeral.well_formed (Numeral.Decimal sign (c :: integer) fraction exponent)
  = true ->
  match integer ++ Numeral.fraction_text fraction
        ++ Numeral.exponent_text exponent with
  | [] => True
  | p :: _ =>
      Reading.is_digit p = true \/ p = "."%char \/ p = "e"%char \/ p = "E"%char
  end.
Proof.
  cbn [Numeral.well_formed forallb]. intros E.
  apply andb_true_iff in E as [E He]. apply andb_true_iff in E as [Hi _].
  apply andb_true_iff in Hi as [_ Hi].
  destruct integer as [|d integer].
  - destruct fraction as [f|]; [now right; left|].
    destruct exponent as [[l s ds]|]; [|exact I].
    cbn [app Numeral.fraction_text Numeral.exponent_text Numeral.letter].
    unfold Numeral.well_formed_exponent in He. cbn [Numeral.letter] in He.
    apply andb_true_iff in He as [He _]. apply andb_true_iff in He as [He _].
    apply orb_true_iff in He as [He|He]; apply Ascii.eqb_eq in He; auto.
  - cbn [forallb] in Hi. apply andb_true_iff in Hi as [Hd _]. now left.
Qed.

(** [read_numeric] reads every literal as the number it denotes. *)
Lemma read_numeric_text (l : Numeral.Literal) :
  Numeral.well_formed l = true -> read_numeric (Numeral.text l) = Numeral.value l.
Proof.
  destruct l as [[]|sign integer fraction exponent|prefix digits]; intros Hwf.
  - reflexivity.
  - reflexivity.
  - reflexivity.
  - pose proof (read_unsigned_body sign integer fraction exponent Hwf) as Hu.
    cbn [Numeral.text Numeral.value]. cbv zeta. rewrite <- Hu.
    destruct sign; cbn [Numeral.sign_text Numeral.signed app]; try reflexivity.
    destruct (decimal_body_head Numeral.Unsigned integer fraction exponent Hwf)
      as (c & rest & Hbody & Hc).
    rewrite Hbody. unfold read_numeric.
    assert (Hplus : Ascii.eqb c "+" = false)
      by (destruct Hc as [Hc| ->];
          [exact (digit_eqb_false c "+" Hc eq_refl)|reflexivity]).
    assert (Hminus : Ascii.eqb c "-" = false)
      by (destruct Hc as [Hc| ->];
          [exact (digit_eqb_false c "-" Hc eq_refl)|reflexivity]).
    rewrite Hplus, Hminus. destruct rest as [|p rest']; [reflexivity|].
    destruct integer as [|d integer'].
    + destruct fraction as [f|]; [|discriminate].
      unfold Numeral.decimal_body in Hbody. cbn [app Numeral.fraction_text] in Hbody.
      injection Hbody as <- _. reflexivity.
    + unfold Numeral.decimal_body in Hbody. cbn [app] in Hbody.
      injection Hbody as -> Hrest.
      pose proof (decimal_body_second Numeral.Unsigned c integer' fraction
                    exponent Hwf) as Hp.
      rewrite Hrest in Hp.
      destruct (no_prefix_after_zero p Hp) as (-> & -> & ->).
      now rewrite andb_false_r.
  - cbn [Numeral.well_formed] in Hwf. cbn [Numeral.text Numeral.value].
    unfold Numeral.radix_of in *. unfold read_numeric.
    cbn [Ascii.eqb Bool.eqb andb].
    destruct (Ascii.eqb prefix "x" || Ascii.eqb prefix "X").
    { apply andb_true_iff in Hwf as [Hne Hds].
      exact (read_prefixed_digits 16 digits Hne Hds). }
    destruct (Ascii.eqb prefix "o" || Ascii.eqb prefix "O").
    { apply andb_true_iff in Hwf as [Hne Hds].
      exact (read_prefixed_digits 8 digits Hne Hds). }
    destruct (Ascii.eqb prefix "b" || Ascii.eqb prefix "B"); [|discriminate].
    apply andb_true_iff in Hwf as [Hne Hds].
    exact (read_prefixed_digits 2 digits Hne Hds).
Qed.

Lemma negate_NaN (n : JSNumber) : negate n <> JNaN -> n <> JNaN.
Proof. now destruct n. Qed.

(** What [read_numeric] does not read as [NaN] is a literal, the empty
    string aside. *)
Lemma read_numeric_inv (t : list ascii) :
  t <> [] -> read_numeric t <> JNaN ->
  exists l, Numeral.well_formed l = true /\ t = Numeral.text l.
Proof.
  assert (Hunsigned : forall (sign : Numeral.Sign) (body : list ascii),
            read_unsigned body <> JNaN ->
            exists l, Numeral.well_formed l = true
                      /\ Numeral.sign_text sign ++ body = Numeral.text l).
  { intros sign body Hu.
    destruct (read_unsigned_inv body Hu)
      as [-> | (integer & fraction & exponent & Hwf & ->)].
    - now exists (Numeral.Infinite sign).
    - now exists (Numeral.Decimal sign integer fraction exponent). }
  assert (Hprefixed : forall (radix : Z) (p : ascii) (digits : list ascii),
            Numeral.radix_of p = Some radix ->
            read_prefixed radix digits <> JNaN ->
            exists l, Numeral.well_formed l = true
                      /\ "0"%char :: p :: digits = Numeral.text l).
  { intros radix p digits Hp Hr. exists (Numeral.Prefixed p digits).
    split; [|reflexivity]. cbn [Numeral.well_formed]. rewrite Hp.
    exact (read_prefixed_inv radix digits Hr). }
  destruct t as [|c l']; [congruence|]. intros _. unfold read_numeric.
  destruct (Ascii.eqb c "+") eqn:Hplus.
  { apply Ascii.eqb_eq in Hplus. subst c. intros Hu.
    exact (Hunsigned Numeral.Plus l' Hu). }
  destruct (Ascii.eqb c "-") eqn:Hminus.
  { apply Ascii.eqb_eq in Hminus. subst c. intros Hu.
    exact (Hunsigned Numeral.Minus l' (negate_NaN _ Hu)). }
  destruct l' as [|p digits]; [exact (Hunsigned Numeral.Unsigned [c])|].
  destruct (Ascii.eqb c "0") eqn:Hzero;
    [|cbn [andb]; exact (Hunsigned Numeral.Unsigned (c :: p :: digits))].
  apply Ascii.eqb_eq in Hzero. subst c. cbn [andb].
  destruct (Ascii.eqb p "x" || Ascii.eqb p "X") eqn:Hx.
  { apply (Hprefixed 16 p digits). unfold Numeral.radix_of. now rewrite Hx. }
  destruct (Ascii.eqb p "o" || Ascii.eqb p "O") eqn:Ho.
  { apply (Hprefixed 8 p digits). unfold Numeral.radix_of. now rewrite Hx, Ho. }
  destruct (Ascii.eqb p "b" || Ascii.eqb p "B") eqn:Hb.
  { apply (Hprefixed 2 p digits). unfold Numeral.radix_of.
    now rewrite Hx, Ho, Hb. }
  exact (Hunsigned Numeral.Unsigned ("0"%char :: p :: digits)).
Qed.

(** *** White space around a literal *)

Lemma hex_not_space (radix : Z) (c : ascii) :
  bool_decide (is_Some (radix_val radix c)) = true -> is_space c = false.
Proof.
  intros E. apply bool_decide_eq_true in E. destruct E as [d E].
  unfold radix_val, hex_val, is_space in *.
  generalize dependent (N_of_ascii c). intros n E.
  destruct (N.leb_spec 9 n), (N.leb_spec n 13), (N.eqb_spec n 32),
    (N.eqb_spec n 160); try reflexivity; exfalso.
  all: destruct (Z.leb_spec 48 (Z.of_N n)), (Z.leb_spec (Z.of_N n) 57),
         (Z.leb_spec 97 (Z.of_N n)), (Z.leb_spec (Z.of_N n) 102),
         (Z.leb_spec 65 (Z.of_N n)), (Z.leb_spec (Z.of_N n) 70);
    cbn [andb] in E; try discriminate; lia.
Qed.

Lemma solid_digits (l : list ascii) :
  forallb Reading.is_digit l = true -> Numeral.solid l = true.
Proof.
  intros E. apply forallb_forall. intros c Hc.
  rewrite forallb_forall in E. now rewrite (digit_not_space c (E c Hc)).
Qed.

Lemma solid_app (a b : list ascii) :
  Numeral.solid a = true -> Numeral.solid b = true -> Numeral.solid (a ++ b) = true.
Proof. unfold Numeral.solid. intros Ha Hb. now rewrite forallb_app, Ha, Hb. Qed.

Lemma solid_sign (s : Numeral.Sign) : Numeral.solid (Numeral.sign_text s) = true.
Proof. now destruct s. Qed.

(** A literal holds no white space, and at least one character. *)
Lemma text_solid (l : Numeral.Literal) :
  Numeral.well_formed l = true ->
  Numeral.solid (Numeral.text l) = true /\ Numeral.text l <> [].
Proof.
  destruct l as [sign|sign integer fraction exponent|prefix digits];
    cbn [Numeral.well_formed Numeral.text]; intros Hwf.
  - split; [now destruct sign|now destruct sign].
  - apply andb_true_iff in Hwf as [Hwf He].
    apply andb_true_iff in Hwf as [Hi Hf]. split.
    + apply solid_app; [apply solid_sign|].
      apply solid_app; [now apply solid_digits|]. apply solid_app.
      * destruct fraction as [f|]; [|reflexivity].
        apply andb_true_iff in Hf as [Hf _].
        cbn [Numeral.fraction_text]. unfold Numeral.solid. cbn [forallb].
        change (forallb _ f) with (Numeral.solid f). now rewrite (solid_digits f Hf).
      * destruct exponent as [[c s ds]|]; [|reflexivity].
        unfold Numeral.well_formed_exponent in He.
        cbn [Numeral.letter Numeral.exponent_digits] in He.
        apply andb_true_iff in He as [He Hds].
        apply andb_true_iff in He as [Hc _].
        cbn [Numeral.exponent_text Numeral.letter Numeral.exponent_sign
             Numeral.exponent_digits].
        change (c :: Numeral.sign_text s ++ ds)
          with ([c] ++ Numeral.sign_text s ++ ds).
        apply solid_app;
          [|apply solid_app; [apply solid_sign|now apply solid_digits]].
        apply orb_true_iff in Hc as [Hc|Hc]; apply Ascii.eqb_eq in Hc;
          now subst.
    + destruct sign; cbn [Numeral.sign_text app]; try discriminate.
      destruct integer; [|discriminate].
      destruct fraction; [discriminate|]. discriminate.
  - split; [|discriminate].
    unfold Numeral.radix_of in Hwf. unfold Numeral.solid. cbn [forallb].
    assert (Hp : is_space prefix = false /\
                 exists radix,
                   forallb (fun c => bool_decide (is_Some (radix_val radix c)))
                     digits = true).
    { destruct (Ascii.eqb prefix "x" || Ascii.eqb prefix "X") eqn:Hx.
      { apply andb_true_iff in Hwf as [_ Hds]. split; [|now exists 16].
        apply orb_true_iff in Hx as [Hx|Hx]; apply Ascii.eqb_eq in Hx;
          now subst. }
      destruct (Ascii.eqb prefix "o" || Ascii.eqb prefix "O") eqn:Ho.
      { apply andb_true_iff in Hwf as [_ Hds]. split; [|now exists 8].
        apply orb_true_iff in Ho as [Ho|Ho]; apply Ascii.eqb_eq in Ho;
          now subst. }
      destruct (Ascii.eqb prefix "b" || Ascii.eqb prefix "B") eqn:Hb;
        [|discriminate].
      apply andb_true_iff in Hwf as [_ Hds]. split; [|now exists 2].
      apply orb_true_iff in Hb as [Hb|Hb]; apply Ascii.eqb_eq in Hb;
        now subst. }
    destruct Hp as (-> & radix & Hds). cbn [negb andb].
    apply forallb_forall. intros c Hc. rewrite forallb_forall in Hds.
    now rewrite (hex_not_space radix c (Hds c Hc)).
Qed.

Lemma trim_solid (before m after : list ascii) :
  forallb is_space before = true -> forallb is_space after = true ->
  Numeral.solid m = true -> m <> [] ->
  trim (before ++ m ++ after) = m.
Proof.
  intros Hb Ha Hm Hne.
  destruct m as [|c m'] eqn:Em; [congruence|]. rewrite <- Em in *.
  destruct (exists_last Hne) as (m'' & d & Hlast).
  apply (trim_around before m after c d m' m'' Hb Ha Em Hlast).
  - rewrite Em in Hm. unfold Numeral.solid in Hm. cbn [forallb] in Hm.
    apply andb_true_iff in Hm as [Hc _]. now apply negb_true_iff in Hc.
  - rewrite Hlast in Hm. unfold Numeral.solid in Hm. rewrite forallb_app in Hm.
    apply andb_true_iff in Hm as [_ Hd]. cbn [forallb] in Hd.
    rewrite andb_true_r in Hd. now apply negb_true_iff in Hd.
Qed.

(** *** [Number] on strings *)

(** A string that is a literal, white space around it aside, is read as
    the number the literal denotes. *)
Lemma Number_literal (s : string) (l : Numeral.Literal) :
  Numeral.denotes s l -> Number (Some s) = Numeral.value l.
Proof.
  intros (Hwf & before & after & Hb & Ha & Hs). unfold Number. rewrite Hs.
  destruct (text_solid l Hwf) as [Hsolid Hne].
  rewrite (trim_solid before _ after Hb Ha Hsolid Hne).
  now apply read_numeric_text.
Qed.

(** Every other string but white space is read as [NaN]. *)
Lemma Number_not_NaN (s : string) :
  Number (Some s) <> JNaN ->
  Numeral.blank s = true \/ exists l, Numeral.denotes s l.
Proof.
  unfold Number. intros Hn.
  destruct (trim (list_ascii_of_string s)) as [|c t] eqn:Ht.
  - left. now apply blank_trim.
  - right. destruct (read_numeric_inv (c :: t) ltac:(discriminate) Hn)
      as (l & Hwf & Hl).
    exists l. split; [exact Hwf|].
    destruct (trim_split (list_ascii_of_string s)) as (b & a & Hb & Ha & Hs).
    exists b, a. split; [exact Hb|]. split; [exact Ha|].
    now rewrite <- Hl, <- Ht.
Qed.

Lemma round_double_not_NaN (q : Q) : round_double q <> JNaN.
Proof.
  assert (Hpos : forall n d, round_pos n d <> JNaN).
  { intros n d. unfold round_pos.
    destruct (2 ^ 2098 <=? _); [discriminate|].
    destruct (0 <=? _); discriminate. }
  unfold round_double. destruct (Qnum q) as [|n|n]; [discriminate|apply Hpos|].
  specialize (Hpos (Z.pos n) (Z.pos (Qden q))).
  now destruct (round_pos (Z.pos n) (Z.pos (Qden q))).
Qed.

(** A literal denotes a number. *)
Lemma value_not_NaN (l : Numeral.Literal) : Numeral.value l <> JNaN.
Proof.
  destruct l as [[]|sign integer fraction exponent|prefix digits];
    cbn [Numeral.value Numeral.signed negate]; try discriminate.
  - cbv zeta. set (q := pow10 _ _). pose proof (round_double_not_NaN q) as Hq.
    destruct sign; cbn [Numeral.signed]; try exact Hq.
    now destruct (round_double q).
  - apply round_double_not_NaN.
Qed.

(** So [NaN] is what [Number] makes of a string exactly when the string is
    neither white space nor a literal. *)
Lemma Number_NaN_iff (s : string) :
  Number (Some s) = JNaN
  <-> Numeral.blank s = false /\ forall l, ~ Numeral.denotes s l.
Proof.
  split.
  - intros Hn. split.
    + destruct (Numeral.blank s) eqn:Hb; [|reflexivity].
      now rewrite (Number_blank s Hb) in Hn.
    + intros l Hl. rewrite (Number_literal s l Hl) in Hn.
      exact (value_not_NaN l Hn).
  - intros [Hb Hl]. destruct (Number (Some s)) eqn:Hn; [reflexivity| |].
    + destruct (Number_not_NaN s) as [Hb'|[l Hd]];
        [rewrite Hn; discriminate|congruence|now destruct (Hl l)].
    + destruct (Number_not_NaN s) as [Hb'|[l Hd]];
        [rewrite Hn; discriminate|congruence|now destruct (Hl l)].
Qed.

(** ** router/Request.ts: getId and getSubTodoId *)

(** What [Number] makes of a segment. *)
Lemma Number_segment (s : string) :
  (Numeral.blank s = true -> Number (Some s) = JFin (inject_Z 0))
  /\ (forall l, Numeral.denotes s l -> Number (Some s) = Numeral.value l)
  /\ (Number (Some s) = JNaN
      <-> Numeral.blank s = false /\ forall l, ~ Numeral.denotes s l)
  /\ (Reading.decimal s = true -> (String.length s <= 15)%nat ->
      Number (Some s) = JFin (inject_Z (Reading.decimal_value s))).
Proof.
  split; [apply Number_blank|]. split; [apply Number_literal|].
  split; [apply Number_NaN_iff|apply Number_decimal].
Qed.

(** A string that [Number] reads as [NaN] is no literal. *)
Lemma not_a_literal (s : string) :
  Number (Some s) = JNaN ->
  Numeral.blank s = false /\ forall l, ~ Numeral.denotes s l.
Proof. apply Number_NaN_iff. Qed.

(** C5, as the code has it. [getId()] is [Number] of the segment at index 2
    of the raw URL split on ["/"], and [getSubTodoId()] of the segment at
    index 4.  It is [NaN] when the segment is absent (or the URL is).  When
    the segment is a numeric literal, white space around it aside (an
    optionally signed decimal with an optional fraction and exponent, an
    optionally signed [Infinity], or an unsigned integer after [0x], [0o]
    or [0b]), it is the number the literal denotes, rounded to binary64: for
    one to fifteen decimal digits, the integer itself.  When the segment is
    empty or white space only it is 0, not [NaN].  It is [NaN] for every
    other segment, and for no segment else. *)
Theorem getId_of_segment (r : Request.t) :
  let seg i := match Request.url (Request.req r) with
               | Some u => split "/" u !! i
               | None => None
               end in
  let reads (i : nat) (id : JSNumber) :=
    (seg i = None -> id = JNaN)
    /\ (forall s, seg i = Some s ->
          (Numeral.blank s = true -> id = JFin (inject_Z 0))
          /\ (forall l, Numeral.denotes s l -> id = Numeral.value l)
          /\ (id = JNaN
              <-> Numeral.blank s = false /\ forall l, ~ Numeral.denotes s l)
          /\ (Reading.decimal s = true -> (String.length s <= 15)%nat ->
              id = JFin (inject_Z (Reading.decimal_value s)))) in
  reads 2%nat (Request.getId r) /\ reads 4%nat (Request.getSubTodoId r).
Proof.
  intros seg reads.
  assert (Hn : forall i, reads i (Number (Request.segment r i))).
  { intros i. unfold reads. change (seg i) with (Request.segment r i). split.
    - now intros ->.
    - intros s ->. apply Number_segment. }
  split; apply Hn.
Qed.

(** At [/todos/42], [/todos], [/todos/12abc] and
    [/todos/-1.5e1/subtodos/0x1F/complete]. *)
Lemma getId_of_segment_witness :
  Request.getId (Sample.request "GET" "/todos/42" [] (JObj []))
  = JFin (inject_Z 42)
  /\ Request.getId (Sample.request "GET" "/todos" [] (JObj [])) = JNaN
  /\ Request.getId (Sample.request "GET" "/todos/12abc" [] (JObj [])) = JNaN
  /\ Request.getId
       (Sample.request "PUT" "/todos/-1.5e1/subtodos/0x1F/complete" []
          (JObj []))
     = Numeral.value
         (Numeral.Decimal Numeral.Minus ["1"%char] (Some ["5"%char])
            (Some {| Numeral.letter := "e";
                     Numeral.exponent_sign := Numeral.Unsigned;
                     Numeral.exponent_digits := ["1"%char] |}))
  /\ Request.getSubTodoId
       (Sample.request "PUT" "/todos/-1.5e1/subtodos/0x1F/complete" []
          (JObj []))
     = Numeral.value (Numeral.Prefixed "x" ["1"%char; "F"%char]).
Proof.
  split; [|split; [|split; [|split]]].
  - apply (proj2 (proj2 (proj2 (proj2 (proj1 (getId_of_segment
             (Sample.request "GET" "/todos/42" [] (JObj [])))) "42"
             eq_refl))));
      [reflexivity | simpl; lia].
  - apply (proj1 (proj1 (getId_of_segment
                           (Sample.request "GET" "/todos" [] (JObj [])))));
      reflexivity.
  - apply (proj1 (proj2 (proj2 (proj2 (proj1 (getId_of_segment
             (Sample.request "GET" "/todos/12abc" [] (JObj [])))) "12abc"
             eq_refl)))).
    apply not_a_literal. reflexivity.
  - apply (proj1 (proj2 (proj2 (proj1 (getId_of_segment
             (Sample.request "PUT" "/todos/-1.5e1/subtodos/0x1F/complete" []
                (JObj [])))) "-1.5e1" eq_refl))).
    split; [reflexivity|]. exists [], []. repeat split.
  - apply (proj1 (proj2 (proj2 (proj2 (getId_of_segment
             (Sample.request "PUT" "/todos/-1.5e1/subtodos/0x1F/complete" []
                (JObj [])))) "0x1F" eq_refl))).
    split; [reflexivity|]. exists [], []. repeat split.
Defined.

(** What these two literals denote, and what [Number] makes of strings that
    begin like a number. *)
Lemma Number_samples :
  Numeral.value
    (Numeral.Decimal Numeral.Minus ["1"%char] (Some ["5"%char])
       (Some {| Numeral.letter := "e";
                Numeral.exponent_sign := Numeral.Unsigned;
                Numeral.exponent_digits := ["1"%char] |}))
  = JFin (inject_Z (-15))
  /\ Numeral.value (Numeral.Prefixed "x" ["1"%char; "F"%char])
     = JFin (inject_Z 31)
  /\ Number (Some " 42 ") = JFin (inject_Z 42)
  /\ Number (Some ".5") = JFin (1 # 2)
  /\ Number (Some "12abc") = JNaN
  /\ Number (Some "1.5.2") = JNaN
  /\ Number (Some "1e") = JNaN
  /\ Number (Some "+0x10") = JNaN
  /\ Number (Some "0x") = JNaN
  /\ Number (Some "-") = JNaN.
Proof. repeat split. Qed.

(** C5 does not hold as stated: in [/todos/] the segment at index 2 is the
    empty string, which denotes no number, and [getId()] returns 0, not
    [NaN]; likewise [getSubTodoId()] on [/todos/1/subtodos/]. *)
Lemma getId_empty_segment :
  let r := Sample.request "GET" "/todos/" [] (JObj []) in
  let r' := Sample.request "GET" "/todos/1/subtodos/" [] (JObj []) in
  Request.segment r 2 = Some EmptyString
  /\ Request.getId r = JFin (inject_Z 0)
  /\ isNaN (Request.getId r) = false
  /\ Request.segment r' 4 = Some EmptyString
  /\ Request.getSubTodoId r' = JFin (inject_Z 0)
  /\ isNaN (Request.getSubTodoId r') = false.
Proof. repeat split. Qed.

(** ** router/Response.ts: send *)

Lemma string_truthy_iff (s : string) : string_truthy s = true <-> s <> "".
Proof. destruct s; simpl; split; intros; congruence. Qed.

(** The fall-through of [send]: a client that does not accept HTML, or a
    descriptor with neither [redirect] nor [template], gets JSON. *)
Lemma send_json_case `{Platform} (request : Request.t)
  (props : Response.ResponseProps) (res : Response.ServerResponse) :
  Response.head res = None -> Response.ended res = None ->
  Request.accepts request "text/html" = false
  \/ (opt_string_truthy (Response.redirect props) = false
      /\ opt_string_truthy (Response.template props) = false) ->
  Response.send request props res
  = (Return tt,
     {| Response.head :=
          Some (StatusCode.code (Response.statusCode props),
                [("Content-Type", "application/json")]);
        Response.ended :=
          Some (Some (JSON_stringify
                        (JObj [("message", JStr (Response.message props));
                               ("payload", Response.payload props)]))) |}).
Proof.
  intros Hh He Hcase. destruct res as [h e]. simpl in Hh, He. subst h e.
  unfold Response.send, Response.ContentType_HTML.
  destruct Hcase as [-> | [-> ->]]; [reflexivity|].
  now destruct (Request.accepts request "text/html").
Qed.

(** C1. For every call of [send] on a response not yet written: if the
    request accepts HTML and [redirect] is set (a non-empty string, which is
    what [if (redirect)] tests), the response is a 302 whose [Location] is
    the redirect target, with no body, whatever [template] is; else, if the
    request accepts HTML and [template] is set, the rendered template with
    the descriptor's status code and the HTML content type; in every other
    case, a JSON-only client with [redirect] set included, the descriptor's
    status code, the JSON content type as the only header, and the body
    [{message, payload}]. *)
Theorem send_branches `{Platform} (request : Request.t)
  (props : Response.ResponseProps) (res : Response.ServerResponse) :
  Response.head res = None -> Response.ended res = None ->
  let html := Request.accepts request "text/html" in
  let is_set o := opt_string_truthy o in
  (html = true -> forall r, Response.redirect props = Some r -> r <> "" ->
   Response.send request props res
   = (Return tt,
      {| Response.head := Some (302, [("Location", r)]);
         Response.ended := Some None |}))
  /\ (html = true -> is_set (Response.redirect props) = false ->
      forall t, Response.template props = Some t -> t <> "" ->
      Response.send request props res
      = (Return tt,
         {| Response.head :=
              Some (StatusCode.code (Response.statusCode props),
                    [("Content-Type", "text/html")]);
            Response.ended :=
              Some (Some (View_render t (Response.payload props))) |}))
  /\ (html = false
      \/ (is_set (Response.redirect props) = false
          /\ is_set (Response.template props) = false) ->
      Response.send request props res
      = (Return tt,
         {| Response.head :=
              Some (StatusCode.code (Response.statusCode props),
                    [("Content-Type", "application/json")]);
            Response.ended :=
              Some (Some (JSON_stringify
                            (JObj [("message", JStr (Response.message props));
                                   ("payload", Response.payload props)]))) |})).
Proof.
  intros Hh He html is_set.
  pose proof (send_json_case request props res Hh He) as Hjson.
  destruct res as [h e]. simpl in Hh, He. subst h e.
  unfold Response.send, Response.ContentType_HTML. fold html.
  split; [|split; [|exact Hjson]].
  - intros -> r Hr Hne. apply string_truthy_iff in Hne.
    rewrite Hr. simpl. rewrite Hne. reflexivity.
  - intros -> Hred t Ht Hne. apply string_truthy_iff in Hne.
    unfold is_set in Hred. rewrite Hred, Ht. simpl. rewrite Hne. reflexivity.
Qed.

(** The descriptor [{statusCode: 302, redirect: "/todos/1"}] sent to a
    client that accepts HTML, and to one that accepts JSON only. *)
Lemma send_branches_witness :
  let props := with_redirect "/todos/1" (respond StatusCode.Redirect "Created") in
  let browser := Sample.request "POST" "/todos" [("accept", "text/html,*/*")]
                   (JObj []) in
  let client := Sample.request "POST" "/todos" [("accept", "application/json")]
                  (JObj []) in
  Response.send (H := Sample.platform) browser props Response.fresh
  = (Return tt,
     {| Response.head := Some (302, [("Location", "/todos/1")]);
        Response.ended := Some None |})
  /\ Response.send (H := Sample.platform) client props Response.fresh
     = (Return tt,
        {| Response.head := Some (302, [("Content-Type", "application/json")]);
           Response.ended := Some (Some "json") |}).
Proof.
  intros props browser client. split.
  - apply (proj1 (send_branches (H := Sample.platform) browser props
                    Response.fresh eq_refl eq_refl));
      [vm_compute; reflexivity | reflexivity | discriminate].
  - apply (proj2 (proj2 (send_branches (H := Sample.platform) client props
                           Response.fresh eq_refl eq_refl))).
    left. vm_compute. reflexivity.
Defined.

(** Once the head is written, [send] throws and writes nothing more. *)
Lemma send_after_sent `{Platform} (request : Request.t)
  (props : Response.ResponseProps) (res : Response.ServerResponse) :
  Response.head res <> None ->
  Response.send request props res = (Throw ERR_HTTP_HEADERS_SENT, res).
Proof.
  intros Hh. destruct res as [[h|] e]; [clear Hh|now destruct Hh].
  unfold Response.send, Response.send_json, bind, Response.writeHead.
  destruct (Request.accepts request Response.ContentType_HTML),
    (opt_string_truthy (Response.redirect props)),
    (opt_string_truthy (Response.template props)); reflexivity.
Qed.

(** ** router/Request.ts: parseBody *)

Lemma parseBody_buffers `{Platform} (chunks : list string) :
  forall st : Request.Parsing,
    fold_left Request.on_event (Request.Data <$> chunks) st
    = {| Request.bodyRaw := fold_left String.append chunks (Request.bodyRaw st);
         Request.promise := Request.promise st;
         Request.self := Request.self st |}.
Proof.
  induction chunks as [|c chunks IH]; intros [raw p r]; simpl.
  - reflexivity.
  - rewrite IH. reflexivity.
Qed.

(** C6. [parseBody()] buffers the whole body: while the stream has not
    ended the promise is pending; at the end the buffer is parsed as
    URL-encoded pairs if the Content-Type header includes
    ["x-www-form-urlencoded"] and as JSON otherwise.  It rejects with an
    error string exactly when that parse throws (which only [JSON.parse]
    can), leaving the body field as it was; otherwise it stores the parsed
    mapping in the body field and resolves with it. *)
Theorem parseBody_settles `{Platform} (r : Request.t) (chunks : list string) :
  let raw := fold_left String.append chunks "" in
  let urlencoded :=
    match Request.headers (Request.req r) !! "content-type" with
    | Some ct => includes ct "x-www-form-urlencoded"
    | None => false
    end in
  let parsed := if urlencoded then Some (fromEntries (URLSearchParams raw))
                else JSON_parse raw in
  let st := Request.parseBody r ((Request.Data <$> chunks) ++ [Request.End]) in
  Request.promise (Request.parseBody r (Request.Data <$> chunks))
  = Request.Pending
  /\ (parsed = None <->
      Request.promise st = Request.Rejected "Request body must be valid JSON")
  /\ (parsed = None -> Request.body (Request.self st) = Request.body r)
  /\ (forall b, parsed = Some b ->
        Request.promise st = Request.Resolved b
        /\ Request.body (Request.self st) = b).
Proof.
  intros raw urlencoded parsed st.
  assert (Hp : Request.parse r raw = parsed).
  { unfold Request.parse, parsed, urlencoded.
    destruct (Request.headers (Request.req r) !! "content-type") as [ct|];
      [destruct (includes ct "x-www-form-urlencoded")|]; reflexivity. }
  assert (Hst : st = Request.on_end
                       {| Request.bodyRaw := raw;
                          Request.promise := Request.Pending;
                          Request.self := r |}).
  { unfold st, Request.parseBody. rewrite fold_left_app, parseBody_buffers.
    reflexivity. }
  split; [unfold Request.parseBody; now rewrite parseBody_buffers|].
  rewrite Hst. unfold Request.on_end. cbn [Request.bodyRaw Request.self
    Request.promise]. rewrite Hp.
  destruct parsed as [b|]; cbn.
  - split; [split; discriminate|]. split; [discriminate|].
    intros b' [= <-]. split; reflexivity.
  - split; [split; reflexivity|]. split; [reflexivity|]. discriminate.
Qed.

(** A JSON body in two chunks, a malformed one, and a form. *)
Lemma parseBody_settles_witness :
  let json := Sample.request "POST" "/todos"
                [("content-type", "application/json")] (JObj []) in
  let form := Sample.request "POST" "/todos"
                [("content-type", "application/x-www-form-urlencoded")]
                (JObj []) in
  Request.promise
    (Request.parseBody (H := Sample.platform) json
       [Request.Data "nu"; Request.Data "ll"; Request.End])
  = Request.Resolved JNull
  /\ (Request.promise
        (Request.parseBody (H := Sample.platform) json
           [Request.Data "{title"; Request.End])
      = Request.Rejected "Request body must be valid JSON")
  /\ Request.body
       (Request.self
          (Request.parseBody (H := Sample.platform) form
             [Request.Data "Buy milk"; Request.End]))
     = JObj [("title", JStr "Buy milk")].
Proof.
  intros json form. split; [|split].
  - apply (proj2 (proj2 (proj2 (parseBody_settles (H := Sample.platform) json
                                  ["nu"; "ll"])))).
    vm_compute. reflexivity.
  - apply (proj1 (proj1 (proj2 (parseBody_settles (H := Sample.platform) json
                                  ["{title"])))).
    vm_compute. reflexivity.
  - apply (proj2 (proj2 (proj2 (parseBody_settles (H := Sample.platform) form
                                  ["Buy milk"])))).
    vm_compute. reflexivity.
Defined.

(** ** router/Router.ts: dispatch *)

Lemma match_route_head (r : Router.Route) (rs : list Router.Route)
  (m path : string) :
  Router.route_matches m path r = true ->
  Router.match_route (r :: rs) m path = Some r.
Proof.
  intros Hm. unfold Router.match_route. cbn [List.find]. now rewrite Hm.
Qed.

Lemma effective_method_literal (field : string) (request : Request.t)
  (literal : string) :
  Request.method (Request.req request) = Some literal ->
  literal <> "POST" ->
  Router.effective_method field request = literal.
Proof.
  intros Hm Hl. unfold Router.effective_method. rewrite Hm.
  cbv zeta. cbn [default from_option]. unfold id.
  apply String.eqb_neq in Hl. rewrite Hl. cbn [andb].
  now destruct (member (Request.body request) field).
Qed.

(** C7. For every request whose method and path match no registered
    route, [dispatch] calls [send] once, with status 404, the message
    ["Invalid route: <METHOD> <path>"] and no payload; whatever the client
    accepts, what is written is a 404 with a JSON body holding that
    message; the store is not touched.  The method is the one the routes
    were matched against: that of the request, unless the request is a
    POST whose body asks for PUT or DELETE in the override field. *)
Theorem dispatch_unmatched `{Platform} (field : string)
  (routes : list Router.Route) (request : Request.t) (w : World.t)
  (literal u : string) :
  Request.method (Request.req request) = Some literal ->
  Request.url (Request.req request) = Some u ->
  let m := Router.effective_method field request in
  let path := Router.path_of u in
  let props := {| Response.statusCode := StatusCode.NotFound;
                  Response.message := "Invalid route: " +:+ m +:+ " " +:+ path;
                  Response.payload := JUndefined;
                  Response.template := None;
                  Response.redirect := None |} in
  Router.match_route routes m path = None ->
  Response.head (res w) = None -> Response.ended (res w) = None ->
  (literal <> "POST" -> m = literal)
  /\ Router.dispatch field routes request w
     = (Return tt,
        {| store := store w; faults := faults w; clock := clock w;
           res := {| Response.head :=
                       Some (404, [("Content-Type", "application/json")]);
                     Response.ended :=
                       Some (Some (JSON_stringify
                                     (JObj [("message",
                                             JStr (Response.message props));
                                            ("payload", JUndefined)]))) |};
           log := log w ++ [Sent props] |}).
Proof.
  intros Hmethod Hurl m path props Hm Hh He.
  split; [now apply effective_method_literal|].
  unfold Router.dispatch. rewrite Hurl.
  cbv zeta. cbn [default from_option]. unfold id. fold m path.
  rewrite Hm. unfold send, bind, modify, zoom, record, set_res. cbn.
  unfold respond. fold props.
  rewrite (send_json_case request props (res w) Hh He); [reflexivity|].
  right. split; reflexivity.
Qed.

(** [GET /unregistered] and, as in the test "Invalid path returned error.",
    [GET /tods], against the routes of the application, whichever of the
    two fields the router reads. *)
Lemma dispatch_unmatched_witness :
  let w := Sample.world Sample.store3 [] in
  sends (Router.dispatch (H := Sample.platform) "_method"
           (Router.routes (H := Sample.platform))
           (Sample.request "GET" "/unregistered" [] (JObj [])) w).2
  = [respond StatusCode.NotFound "Invalid route: GET /unregistered"]
  /\ sends (Router.dispatch (H := Sample.platform) "method"
              (Router.routes (H := Sample.platform))
              (Sample.request "GET" "/tods" [("accept", "text/html")]
                 (JObj [])) w).2
     = [respond StatusCode.NotFound "Invalid route: GET /tods"].
Proof.
  intros w. split.
  - rewrite (proj2 (dispatch_unmatched (H := Sample.platform) "_method"
                      (Router.routes (H := Sample.platform))
                      (Sample.request "GET" "/unregistered" [] (JObj [])) w
                      "GET" "/unregistered"
                      eq_refl eq_refl eq_refl eq_refl eq_refl)).
    reflexivity.
  - rewrite (proj2 (dispatch_unmatched (H := Sample.platform) "method"
                      (Router.routes (H := Sample.platform))
                      (Sample.request "GET" "/tods" [("accept", "text/html")]
                         (JObj [])) w
                      "GET" "/tods"
                      eq_refl eq_refl eq_refl eq_refl eq_refl)).
    reflexivity.
Defined.

(** ** The method override *)

(** Whatever field the router reads, a POST whose body holds PUT or DELETE
    in that field is matched as PUT or DELETE, and handled by the first
    route that matches that method and the path. *)
Lemma override_routes `{Platform} (field : string)
  (routes : list Router.Route) (request : Request.t) (m : string) :
  Request.method (Request.req request) = Some "POST" ->
  member (Request.body request) field = JStr m ->
  m = "PUT" \/ m = "DELETE" ->
  Router.effective_method field request = m
  /\ forall (route : Router.Route) (w : World.t),
       Router.match_route routes m
         (Router.path_of (default "" (Request.url (Request.req request))))
       = Some route ->
       Router.dispatch field routes request w = Router.handler route request w.
Proof.
  intros Hpost Hm Hv.
  assert (He : Router.effective_method field request = m).
  { unfold Router.effective_method. rewrite Hpost, Hm.
    cbv zeta. cbn [default from_option]. unfold id.
    now destruct Hv as [-> | ->]. }
  split; [exact He|]. intros route w Hr.
  unfold Router.dispatch. rewrite He. now rewrite Hr.
Qed.

(** A field the router does not read changes nothing: the request is
    matched by the method it was sent with. *)
Lemma other_field_no_override (field : string) (request : Request.t) :
  nullish (member (Request.body request) field) = true ->
  Router.effective_method field request
  = default "" (Request.method (Request.req request)).
Proof.
  intros Hn. unfold Router.effective_method. cbv zeta.
  now destruct (member (Request.body request) field).
Qed.

(** [Request.getMethod()], the one reader of an override among the
    sources, reads the field [method]: a body without that field, whatever
    it holds in [_method], leaves it at the method of the request. *)
Lemma getMethod_without_method_field (request : Request.t) :
  nullish (member (Request.body request) "method") = true ->
  Request.getMethod request = opt_str (Request.method (Request.req request)).
Proof.
  intros Hn. unfold Request.getMethod, coalesce. rewrite Hn.
  now destruct (truthy (Request.body request)).
Qed.

(** A POST to [/todos/1] whose body holds DELETE in [_method], and a table
    holding only [DELETE /todos/:id]: a router that reads [_method] hands
    the request to the handler, a router that reads [method] answers 404,
    and [getMethod()] says POST. *)
Lemma override_field_decides :
  let request := Sample.request "POST" "/todos/1" []
                   (JObj [("_method", JStr "DELETE")]) in
  let table := Router.del "/todos/:id"
                 (TodoController.deleteTodo (H := Sample.platform)) [] in
  let w := Sample.world Sample.store3 [] in
  Router.dispatch (H := Sample.platform) "_method" table request w
  = TodoController.deleteTodo (H := Sample.platform) request w
  /\ sends (Router.dispatch (H := Sample.platform) "method" table request w).2
     = [respond StatusCode.NotFound "Invalid route: POST /todos/1"]
  /\ Request.getMethod request = JStr "POST".
Proof.
  intros request table w. split; [|split].
  - apply (proj2 (override_routes (H := Sample.platform) "_method" table
                    request "DELETE" eq_refl eq_refl (or_intror eq_refl))
             {| Router.httpMethod := "DELETE";
                Router.pathPattern := "/todos/:id";
                Router.handler :=
                  TodoController.deleteTodo (H := Sample.platform) |} w).
    apply match_route_head. vm_compute. reflexivity.
  - vm_compute. reflexivity.
  - reflexivity.
Qed.

(** ** Running sequential code *)

Lemma bind_Return {S A B} (m : M S A) (k : A -> M S B) (s s' : S) (a : A) :
  m s = (Return a, s') -> bind m k s = k a s'.
Proof. intros Hm. unfold bind. now rewrite Hm. Qed.

Lemma bind_Throw {S A B} (m : M S A) (k : A -> M S B) (s s' : S) (e : Exn) :
  m s = (Throw e, s') -> bind m k s = (Throw e, s').
Proof. intros Hm. unfold bind. now rewrite Hm. Qed.

Lemma try_catch_Return {S A} (m : M S A) (h : Exn -> M S A) (s s' : S) (a : A) :
  m s = (Return a, s') -> try_catch m h s = (Return a, s').
Proof. intros Hm. unfold try_catch. now rewrite Hm. Qed.

Lemma try_catch_Throw {S A} (m : M S A) (h : Exn -> M S A) (s s' : S) (e : Exn) :
  m s = (Throw e, s') -> try_catch m h s = h e s'.
Proof. intros Hm. unfold try_catch. now rewrite Hm. Qed.

(** ** The store *)

Lemma calm_tail (fs : list bool) : Reading.calm fs -> Reading.calm (tail fs).
Proof. intros Hc. destruct fs; [exact Hc|]. now inversion Hc. Qed.

(** While no failure is scheduled, an interaction with the store is just
    recorded. *)
Lemma sql_calm (st : Statement) (w : World.t) :
  Reading.calm (faults w) ->
  sql st w = (Return tt, pop_fault (record (Sql st) w)).
Proof.
  intros Hc. unfold sql. destruct (faults w) as [|[] fs]; try reflexivity.
  inversion Hc; discriminate.
Qed.

(** A scheduled failure makes the next interaction throw. *)
Lemma sql_fault (st : Statement) (w : World.t) (fs : list bool) :
  faults w = true :: fs ->
  sql st w = (Throw (StoreError "connection failure"),
              pop_fault (record (Sql st) w)).
Proof. intros Hf. unfold sql. now rewrite Hf. Qed.

Lemma find_replaced (z : Z) (r' : todos.row) (rows : list todos.row) :
  forall r, List.find (fun x => todos.id x =? z) rows = Some r ->
  todos.id r' = z ->
  List.find (fun x => todos.id x =? z)
    ((fun x => if todos.id x =? z then r' else x) <$> rows) = Some r'.
Proof.
  intros r Hf Hid. induction rows as [|x rows IH]; [discriminate|].
  cbn [List.find fmap list_fmap] in *.
  destruct (todos.id x =? z) eqn:E.
  - rewrite Hid, Z.eqb_refl. reflexivity.
  - rewrite E. apply IH. exact Hf.
Qed.

(** ** models/Todo.ts: markComplete *)

Lemma update_row_complete `{Platform} (w : World.t) (n : JSNumber) (z t : Z)
  (row : todos.row) :
  pg_integer n = Some z -> find_todo (store w) z = Some row ->
  Reading.calm (faults w) ->
  Todo.update_row
    {| TodoPartial.title := None; TodoPartial.description := None;
       TodoPartial.status := Some complete; TodoPartial.dueAt := None;
       TodoPartial.completedAt := Some (ValidDate t) |}
    (ValidDate t) (Some n) w
  = (Return [Reading.completed_row t row],
     set_store
       (Todo.set_todos
          ((fun x => if todos.id x =? z then Reading.completed_row t row else x)
             <$> todos_rows (store w))
          (todos_id_seq (store w)) (store w))
       (pop_fault (record (Sql (Update "todos")) w))).
Proof.
  intros Hz Hrow Hcalm. unfold Todo.update_row.
  rewrite (bind_Return _ _ _ _ _ (sql_calm _ _ Hcalm)).
  cbn [TodoPartial.title TodoPartial.description TodoPartial.dueAt
       TodoPartial.completedAt TodoPartial.status nullable option_map
       pg_timestamp param mbind option_bind].
  rewrite Hz. cbn [param].
  unfold bind, ret, db, set_db.
  change (store (pop_fault (record (Sql (Update "todos")) w))) with (store w).
  rewrite Hrow. reflexivity.
Qed.

(** C9. Marking complete a todo that is stored with status ["complete"]
    already does not throw (while the store answers and [createUTCDate]
    yields a valid date): [markComplete()] returns, and afterwards the
    status is ["complete"] both in the instance and in its row. *)
Theorem markComplete_again `{Platform} (todo : Todo.t) (w : World.t)
  (n : JSNumber) (z t : Z) (row : todos.row) :
  TodoProps.id (Todo.props todo) = Some n -> pg_integer n = Some z ->
  find_todo (store w) z = Some row ->
  todos.status row = complete ->
  TodoProps.status (Todo.props todo) = complete ->
  Reading.calm (faults w) ->
  createUTCDate (ValidDate (clock w)) = ValidDate t ->
  exists (todo' : Todo.t) (w' : World.t),
    Todo.markComplete todo w = (Return todo', w')
    /\ TodoProps.status (Todo.props todo') = complete
    /\ find_todo (store w') z = Some (Reading.completed_row t row)
    /\ todos.status (Reading.completed_row t row) = complete.
Proof.
  intros Hid Hz Hrow _ _ Hcalm Hdate.
  set (w1 := pop_fault (record (Sql Reserve) w)).
  assert (Hc1 : Reading.calm (faults w1)) by apply calm_tail, Hcalm.
  assert (Hnow : forall v : World.t, clock v = clock w ->
            Todo.createUTCDate_now v = (Return (ValidDate t), v)).
  { intros v Hv. unfold Todo.createUTCDate_now, Date_now, bind, ret.
    now rewrite Hv, Hdate. }
  pose proof (update_row_complete w1 n z t row Hz Hrow Hc1) as Hupd.
  set (w2 := set_store _ _) in Hupd.
  assert (Hc2 : Reading.calm (faults w2)) by apply calm_tail, Hc1.
  exists {| Todo.props := Todo.spread (Todo.props todo) (Reading.completed_row t row) |},
         (pop_fault (record (Sql Release) w2)).
  split; [|split; [reflexivity|split; [|reflexivity]]].
  - unfold Todo.markComplete.
    rewrite (bind_Return _ _ _ _ _ (Hnow w eq_refl)).
    unfold Todo.update.
    rewrite (bind_Return _ _ _ _ _ (sql_calm _ _ Hcalm)). fold w1.
    rewrite (bind_Return _ _ _ _ _ (Hnow w1 eq_refl)).
    rewrite Hid, (bind_Return _ _ _ _ _ Hupd).
    rewrite (bind_Return _ _ _ _ _ (sql_calm _ _ Hc2)).
    reflexivity.
  - unfold find_todo in *. apply (find_replaced z _ _ row Hrow).
    apply List.find_some in Hrow as [_ Hrow]. now apply Z.eqb_eq in Hrow.
Qed.

(** Todo 1 of the sample store, complete already. *)
Lemma markComplete_again_witness :
  exists (todo' : Todo.t) (w' : World.t),
    Todo.markComplete (H := Sample.platform)
      {| Todo.props := Todo.of_row Sample.todo1 |}
      (Sample.world Sample.store1 [])
    = (Return todo', w')
    /\ TodoProps.status (Todo.props todo') = complete
    /\ find_todo (store w') 1 = Some (Reading.completed_row 5000 Sample.todo1)
    /\ todos.status (Reading.completed_row 5000 Sample.todo1) = complete.
Proof.
  apply (markComplete_again (H := Sample.platform)
           {| Todo.props := Todo.of_row Sample.todo1 |}
           (Sample.world Sample.store1 []) (num_of_Z 1) 1 5000 Sample.todo1);
    try (vm_compute; reflexivity).
  constructor.
Defined.

(** ** Calls of [send] from a handler *)

Lemma send_run `{Platform} (request : Request.t)
  (props : Response.ResponseProps) (w : World.t)
  (o : Outcome unit) (r' : Response.ServerResponse) :
  Response.send request props (res w) = (o, r') ->
  send request props w = (o, set_res r' (record (Sent props) w)).
Proof.
  intros Hs. unfold send, bind, modify, zoom.
  change (res (record (Sent props) w)) with (res w). now rewrite Hs.
Qed.

(** The first [send] on a response succeeds and writes its head. *)
Lemma send_first `{Platform} (request : Request.t)
  (props : Response.ResponseProps) (w : World.t) :
  Reading.unsent (res w) ->
  exists r', Response.head r' <> None
             /\ send request props w
                = (Return tt, set_res r' (record (Sent props) w)).
Proof.
  intros [Hh He].
  assert (Hs : exists r', Response.head r' <> None
                          /\ Response.send request props (res w)
                             = (Return tt, r')).
  { destruct (res w) as [h e]. simpl in Hh, He. subst h e.
    unfold Response.send, Response.send_json, bind, Response.writeHead,
      Response.end_.
    destruct (Request.accepts request Response.ContentType_HTML),
      (opt_string_truthy (Response.redirect props)),
      (opt_string_truthy (Response.template props));
      cbn; eexists; (split; [|reflexivity]); discriminate. }
  destruct Hs as (r' & Hr & Hs). exists r'. split; [exact Hr|].
  now apply send_run.
Qed.

(** A further [send] is a call all the same, but throws. *)
Lemma send_again `{Platform} (request : Request.t)
  (props : Response.ResponseProps) (w : World.t) :
  Response.head (res w) <> None ->
  send request props w
  = (Throw ERR_HTTP_HEADERS_SENT, set_res (res w) (record (Sent props) w)).
Proof.
  intros Hh. apply send_run. now apply send_after_sent.
Qed.

Lemma sends_record_Sent (props : Response.ResponseProps) (w : World.t) :
  sends (record (Sent props) w) = sends w ++ [props].
Proof. unfold sends, record. cbn [log]. now rewrite omap_app. Qed.

Lemma sends_record_Sql (st : Statement) (w : World.t) :
  sends (record (Sql st) w) = sends w.
Proof.
  unfold sends, record. cbn [log]. rewrite omap_app. cbn. apply app_nil_r.
Qed.

Lemma sends_set_res (r : Response.ServerResponse) (w : World.t) :
  sends (set_res r w) = sends w.
Proof. reflexivity. Qed.

Lemma sends_pop_fault (w : World.t) : sends (pop_fault w) = sends w.
Proof. reflexivity. Qed.

Lemma sends_set_store (d : Store.t) (w : World.t) :
  sends (set_store d w) = sends w.
Proof. reflexivity. Qed.

Create Rewrite HintDb sends.

#[local] Hint Rewrite @sends_set_res @sends_pop_fault @sends_set_store
  @sends_record_Sent @sends_record_Sql : sends.

(** ** controllers/TodoController.ts: getTodoList when the store fails *)

(** C2 fails on this path. When [Todo.readAll] throws (here: the store
    fails at the first interaction), [getTodoList] calls [send] from the
    [catch] block and, having no [return] there, calls it again after the
    [try] statement: two calls, the second of which throws since the head
    is written. *)
Theorem getTodoList_sends_twice `{Platform} (request : Request.t)
  (w : World.t) (fs : list bool) :
  Request.getSearchParams request = Some [] ->
  faults w = true :: fs ->
  Reading.unsent (res w) ->
  exists w',
    TodoController.getTodoList request w = (Throw ERR_HTTP_HEADERS_SENT, w')
    /\ sends w'
       = sends w
         ++ [with_template "ErrorView"
               (respond StatusCode.InternalServerError "Internal Server Error");
             with_payload (JObj [("todos", JArr [])])
               (with_template "ListView"
                  (respond StatusCode.OK "Todo list retrieved"))]
    /\ length (sends w') = S (S (length (sends w))).
Proof.
  intros Hq Hf Hu.
  set (w1 := pop_fault (record (Sql Reserve) w)).
  set (P500 := with_template "ErrorView"
                 (respond StatusCode.InternalServerError "Internal Server Error")).
  set (P200 := with_payload (JObj [("todos", JArr [])])
                 (with_template "ListView"
                    (respond StatusCode.OK "Todo list retrieved"))).
  destruct (send_first request P500 w1 Hu) as (r1 & Hr1 & Hs1).
  set (w2 := set_res r1 (record (Sent P500) w1)) in Hs1.
  pose proof (send_again request P200 w2 Hr1) as Hs2.
  eexists. split; [|split].
  - assert (Hsp : searchParams request w = (Return [], w))
      by (unfold searchParams; now rewrite Hq).
    unfold TodoController.getTodoList.
    rewrite (bind_Return _ _ _ _ _ Hsp).
    cbn [params_get default opt_string_truthy andb negb mbind option_bind].
    change (string_truthy "id" && negb (TodoController.isSortByValid "id"))
      with false.
    change (string_truthy "asc" && negb (TodoController.isOrderByValid "asc"))
      with false.
    cbv iota.
    erewrite (bind_Return _ _ w w2 []); [exact Hs2|].
    erewrite try_catch_Throw;
      [|unfold Todo.readAll; apply bind_Throw; apply (sql_fault _ _ fs Hf)].
    fold w1. now rewrite (bind_Return _ _ _ _ _ Hs1).
  - unfold w2, w1. autorewrite with sends. now rewrite <- app_assoc.
  - unfold w2, w1. autorewrite with sends. rewrite !length_app. cbn. lia.
Qed.

(** [GET /todos] while the store is down. *)
Lemma getTodoList_sends_twice_witness :
  exists w',
    TodoController.getTodoList (H := Sample.platform)
      (Sample.request "GET" "/todos" [] (JObj []))
      (Sample.world Sample.store1 [true])
    = (Throw ERR_HTTP_HEADERS_SENT, w')
    /\ sends w'
       = sends (Sample.world Sample.store1 [true])
         ++ [with_template "ErrorView"
               (respond StatusCode.InternalServerError "Internal Server Error");
             with_payload (JObj [("todos", JArr [])])
               (with_template "ListView"
                  (respond StatusCode.OK "Todo list retrieved"))]
    /\ length (sends w')
       = S (S (length (sends (Sample.world Sample.store1 [true])))).
Proof.
  apply (getTodoList_sends_twice (H := Sample.platform)
           (Sample.request "GET" "/todos" [] (JObj []))
           (Sample.world Sample.store1 [true]) []).
  - vm_compute. reflexivity.
  - reflexivity.
  - split; reflexivity.
Defined.

(** The handler's third call of [send] is the [catch] block's, after the
    second one threw: a stored todo is deleted by a GET of its edit form
    whose body carries [_method], and the client is shown the form. *)
Lemma sendFormEdit_sends_again :
  let request := Sample.request "GET" "/todos/1/edit" [("accept", "text/html")]
                   (JObj [("_method", JStr "DELETE")]) in
  let result := TodoController.sendFormEdit (H := Sample.platform) request
                  (Sample.world Sample.store1 []) in
  Response.message <$> sends result.2
  = ["Edit Todo"; "Todo deleted successfully!";
     "Error while fetching todo for edit"]
  /\ todos_rows (store result.2) = []
  /\ res result.2
     = {| Response.head := Some (200, [("Content-Type", "text/html")]);
          Response.ended := Some (Some "EditFormView") |}.
Proof. intros request result. vm_compute. repeat split. Qed.

(** ** controllers/SubTodoController.ts: createSubtodo *)

(** [SubTodo.create] with a title, a valid date and a [todoId] that is
    falsy inserts a row whose [todo_id] is NULL, when the [id] drawn from
    the sequence is free. *)
Lemma create_without_todo `{Platform} (w : World.t) (title : string) (t : Z)
  (todoId : JSNumber) :
  title <> "" -> (String.length title <= 255)%nat ->
  number_truthy todoId = false ->
  Reading.calm (faults w) ->
  find_subtodo (store w) (subtodos_id_seq (store w)) = None ->
  let row := {| subtodos.id := subtodos_id_seq (store w);
                subtodos.title := title; subtodos.status := incomplete;
                subtodos.created_at := t; subtodos.completed_at := None;
                subtodos.edited_at := None; subtodos.todo_id := None |} in
  exists w',
    SubTodo.create
      (SubTodoPartial.of_props
         {| SubTodoProps.id := None; SubTodoProps.title := title;
            SubTodoProps.status := incomplete;
            SubTodoProps.createdAt := ValidDate t;
            SubTodoProps.completedAt := None;
            SubTodoProps.todoId := Some todoId |}) w
    = (Return (SubTodo.of_row row), w')
    /\ subtodos_rows (store w') = subtodos_rows (store w) ++ [row]
    /\ todos_rows (store w') = todos_rows (store w)
    /\ log w' = log w ++ [Sql (Insert "subtodos")]
    /\ res w' = res w.
Proof.
  intros Hne Hlen Hfalsy Hcalm Hfresh row.
  apply string_truthy_iff in Hne.
  assert (Hv : pg_varchar255 title = Some title).
  { unfold pg_varchar255.
    destruct (Z.leb_spec (Z.of_nat (String.length title)) 255);
      [reflexivity|lia]. }
  eexists. split.
  - unfold SubTodo.create, SubTodo.insert.
    erewrite bind_Return.
    2:{ rewrite (bind_Return _ _ _ _ _ (sql_calm _ _ Hcalm)).
        cbn [SubTodoPartial.of_props SubTodoPartial.title SubTodoPartial.status
             SubTodoPartial.completedAt SubTodoPartial.createdAt
             SubTodoPartial.todoId SubTodoProps.title SubTodoProps.status
             SubTodoProps.completedAt SubTodoProps.createdAt
             SubTodoProps.todoId SubTodo.string_or_null
             SubTodo.number_or_null].
        rewrite Hne, Hfalsy.
        cbn [nullable option_map pg_timestamp]. rewrite Hv.
        unfold bind, param, ret, db, set_db.
        cbn [store set_store pop_fault record fst snd].
        rewrite Hfresh. reflexivity. }
    reflexivity.
  - repeat split.
Qed.

(** The same call when the [id] drawn is the [id] of a row: the primary key
    refuses the row, and the sequence has advanced. *)
Lemma create_duplicate `{Platform} (w : World.t) (title : string) (t : Z)
  (todoId : JSNumber) :
  title <> "" -> (String.length title <= 255)%nat ->
  number_truthy todoId = false ->
  Reading.calm (faults w) ->
  is_Some (find_subtodo (store w) (subtodos_id_seq (store w))) ->
  exists w',
    SubTodo.create
      (SubTodoPartial.of_props
         {| SubTodoProps.id := None; SubTodoProps.title := title;
            SubTodoProps.status := incomplete;
            SubTodoProps.createdAt := ValidDate t;
            SubTodoProps.completedAt := None;
            SubTodoProps.todoId := Some todoId |}) w
    = (Throw (StoreError "duplicate key"), w')
    /\ subtodos_rows (store w') = subtodos_rows (store w)
    /\ todos_rows (store w') = todos_rows (store w)
    /\ log w' = log w ++ [Sql (Insert "subtodos")]
    /\ res w' = res w.
Proof.
  intros Hne Hlen Hfalsy Hcalm [r Hr].
  apply string_truthy_iff in Hne.
  assert (Hv : pg_varchar255 title = Some title).
  { unfold pg_varchar255.
    destruct (Z.leb_spec (Z.of_nat (String.length title)) 255);
      [reflexivity|lia]. }
  eexists. split.
  - unfold SubTodo.create, SubTodo.insert.
    apply bind_Throw.
    rewrite (bind_Return _ _ _ _ _ (sql_calm _ _ Hcalm)).
    cbn [SubTodoPartial.of_props SubTodoPartial.title SubTodoPartial.status
         SubTodoPartial.completedAt SubTodoPartial.createdAt
         SubTodoPartial.todoId SubTodoProps.title SubTodoProps.status
         SubTodoProps.completedAt SubTodoProps.createdAt
         SubTodoProps.todoId SubTodo.string_or_null
         SubTodo.number_or_null].
    rewrite Hne, Hfalsy.
    cbn [nullable option_map pg_timestamp]. rewrite Hv.
    unfold bind, param, ret, db, set_db, reject, throw.
    cbn [store set_store pop_fault record fst snd].
    rewrite Hr. reflexivity.
  - repeat split.
Qed.

Lemma member_not_nullish (b : JSValue) (k s : string) :
  member b k = JStr s -> nullish b = false.
Proof. destruct b; simpl; intros; congruence. Qed.

Lemma body_of_run `{Platform} (request : Request.t) (w : World.t) :
  nullish (Request.body request) = false ->
  body_of request w = (Return (Request.body request), w).
Proof. intros Hn. unfold body_of. now rewrite Hn. Qed.

Lemma createUTCDate_now_run `{Platform} (w : World.t) (t : Z) :
  createUTCDate (ValidDate (clock w)) = ValidDate t ->
  Todo.createUTCDate_now w = (Return (ValidDate t), w).
Proof.
  intros Hd. unfold Todo.createUTCDate_now, Date_now, bind, ret.
  now rewrite Hd.
Qed.

(** C8 fails on [POST /todos/:id/subtodos]: [createSubtodo] has no
    [isNaN] test.  When [getId()] is [NaN] and the body holds a title, the
    handler inserts a subtodo whose [todo_id] is NULL and answers with a
    redirect to [/todos/NaN], where the claim (and the test "SubTodo was
    not added to the Todo due to invalid ID") wants a 400 "Invalid ID"
    and an untouched store.  (Should the [id] drawn from the sequence be
    the [id] of a row already, the primary key refuses the row and the
    answer is the 500 of the [catch] block: the statement has run all the
    same.) *)
Theorem createSubtodo_without_id_check `{Platform} (request : Request.t)
  (w : World.t) (title : string) (t : Z) :
  isNaN (Request.getId request) = true ->
  member (Request.body request) "title" = JStr title ->
  title <> "" -> (String.length title <= 255)%nat ->
  createUTCDate (ValidDate (clock w)) = ValidDate t ->
  Reading.calm (faults w) -> Reading.unsent (res w) ->
  let row := {| subtodos.id := subtodos_id_seq (store w);
                subtodos.title := title; subtodos.status := incomplete;
                subtodos.created_at := t; subtodos.completed_at := None;
                subtodos.edited_at := None; subtodos.todo_id := None |} in
  exists w',
    SubTodoController.createSubtodo request w = (Return tt, w')
    /\ sends w'
       = sends w
         ++ [match find_subtodo (store w) (subtodos_id_seq (store w)) with
             | None =>
                 with_redirect ("/todos/" +:+ Number_toString JNaN)
                   (respond StatusCode.Redirect "SubTodo created successfully!")
             | Some _ => SubTodoController.internal_error
             end]
    /\ subtodos_rows (store w')
       = subtodos_rows (store w)
         ++ match find_subtodo (store w) (subtodos_id_seq (store w)) with
            | None => [row]
            | Some _ => []
            end
    /\ statements w' = statements w ++ [Insert "subtodos"].
Proof.
  intros Hnan Htitle Hne Hlen Hdate Hcalm Hu row.
  destruct (Request.getId request) eqn:Hid; try discriminate. clear Hnan.
  destruct (find_subtodo (store w) (subtodos_id_seq (store w))) as [old|]
    eqn:Hfind.
  - destruct (create_duplicate w title t JNaN Hne Hlen eq_refl Hcalm)
      as (w1 & Hcreate & Hrows & _ & Hlog & Hres);
      [rewrite Hfind; eexists; reflexivity|].
    assert (Hu1 : Reading.unsent (res w1)) by now rewrite Hres.
    destruct (send_first request SubTodoController.internal_error w1 Hu1) as (r' & _ & Hsend).
    exists (set_res r' (record (Sent SubTodoController.internal_error) w1)).
    split; [|split; [|split]].
    + unfold SubTodoController.createSubtodo. rewrite Hid.
      rewrite (try_catch_Throw _ _ w w1 (StoreError "duplicate key"));
        [exact Hsend|].
      rewrite (bind_Return _ _ _ _ _
                 (body_of_run request w (member_not_nullish _ _ _ Htitle))).
      rewrite (bind_Return _ _ _ _ _ (createUTCDate_now_run w t Hdate)).
      rewrite Htitle. cbn [SubTodoController.isValidSubTodoProps].
      apply bind_Throw. exact Hcreate.
    + autorewrite with sends. unfold sends. rewrite Hlog, omap_app. cbn.
      now rewrite app_nil_r.
    + cbn [store set_res record]. rewrite Hrows. now rewrite app_nil_r.
    + unfold statements, record, set_res. cbn [log].
      rewrite Hlog, !omap_app. cbn. now rewrite app_nil_r.
  - destruct (create_without_todo w title t JNaN Hne Hlen eq_refl Hcalm Hfind)
      as (w1 & Hcreate & Hrows & _ & Hlog & Hres).
    fold row in Hcreate, Hrows.
    set (P := with_redirect ("/todos/" +:+ Number_toString JNaN)
                (respond StatusCode.Redirect "SubTodo created successfully!")).
    assert (Hu1 : Reading.unsent (res w1)) by now rewrite Hres.
    destruct (send_first request P w1 Hu1) as (r' & _ & Hsend).
    exists (set_res r' (record (Sent P) w1)). split; [|split; [|split]].
    + unfold SubTodoController.createSubtodo. rewrite Hid.
      apply try_catch_Return.
      rewrite (bind_Return _ _ _ _ _
                 (body_of_run request w (member_not_nullish _ _ _ Htitle))).
      rewrite (bind_Return _ _ _ _ _ (createUTCDate_now_run w t Hdate)).
      rewrite Htitle. cbn [SubTodoController.isValidSubTodoProps].
      rewrite (bind_Return _ _ _ _ _ Hcreate). exact Hsend.
    + autorewrite with sends. unfold sends. rewrite Hlog, omap_app. cbn.
      now rewrite app_nil_r.
    + exact Hrows.
    + unfold statements, record, set_res. cbn [log].
      rewrite Hlog, !omap_app. cbn. now rewrite app_nil_r.
Qed.

(** [POST /todos/abc/subtodos] with a title, the request of the test. *)
Lemma createSubtodo_without_id_check_witness :
  let request := Sample.request "POST" "/todos/abc/subtodos" []
                   (JObj [("title", JStr "Test SubTodo")]) in
  let w := Sample.world Sample.store1 [] in
  exists w',
    SubTodoController.createSubtodo (H := Sample.platform) request w
    = (Return tt, w')
    /\ sends w'
       = sends w
         ++ [with_redirect
               ("/todos/" +:+ Number_toString (Platform := Sample.platform) JNaN)
               (respond StatusCode.Redirect "SubTodo created successfully!")]
    /\ subtodos_rows (store w')
       = subtodos_rows (store w)
         ++ [{| subtodos.id := subtodos_id_seq (store w);
                subtodos.title := "Test SubTodo";
                subtodos.status := incomplete;
                subtodos.created_at := 5000; subtodos.completed_at := None;
                subtodos.edited_at := None; subtodos.todo_id := None |}]
    /\ statements w' = statements w ++ [Insert "subtodos"].
Proof.
  intros request w.
  apply (createSubtodo_without_id_check (H := Sample.platform) request w
           "Test SubTodo" 5000).
  - vm_compute. reflexivity.
  - vm_compute. reflexivity.
  - discriminate.
  - simpl. lia.
  - reflexivity.
  - constructor.
  - split; reflexivity.
Defined.

(** ** The handlers that do test [isNaN] *)

Lemma send_plain `{Platform} (request : Request.t) (c : StatusCode.t)
  (msg : string) (w : World.t) :
  Reading.unsent (res w) ->
  send request (respond c msg) w
  = (Return tt,
     set_res
       {| Response.head :=
            Some (StatusCode.code c, [("Content-Type", "application/json")]);
          Response.ended :=
            Some (Some (JSON_stringify
                          (JObj [("message", JStr msg);
                                 ("payload", JUndefined)]))) |}
       (record (Sent (respond c msg)) w)).
Proof.
  intros [Hh He]. apply send_run.
  apply (send_json_case request (respond c msg) (res w) Hh He).
  right. split; reflexivity.
Qed.

(** X21. Each handler of a route with an [:id] segment that tests [isNaN],
    on a request whose id is [NaN]: one [send], of 400 "Invalid ID",
    written as JSON, and no interaction with the store.  They are the five
    of TodoController and, for either id, [completeSubTodo]. *)
Lemma guarded_handlers_reject_NaN `{Platform} (request : Request.t)
  (w : World.t) (handler : Handler) :
  Reading.unsent (res w) ->
  (isNaN (Request.getId request) = true
   /\ In handler [TodoController.getTodo; TodoController.sendFormEdit;
                  TodoController.updateTodo; TodoController.deleteTodo;
                  TodoController.completeTodo;
                  SubTodoController.completeSubTodo])
  \/ (isNaN (Request.getSubTodoId request) = true
      /\ handler = SubTodoController.completeSubTodo) ->
  handler request w
  = (Return tt,
     set_res
       {| Response.head :=
            Some (400, [("Content-Type", "application/json")]);
          Response.ended :=
            Some (Some (JSON_stringify
                          (JObj [("message", JStr "Invalid ID");
                                 ("payload", JUndefined)]))) |}
       (record (Sent (respond StatusCode.BadRequest "Invalid ID")) w)).
Proof.
  intros Hu Hcase.
  pose proof (send_plain request StatusCode.BadRequest "Invalid ID" w Hu)
    as Hsend.
  destruct Hcase as [[Hnan Hin]|[Hnan ->]].
  - cbn [In] in Hin.
    destruct Hin as [<-|[<-|[<-|[<-|[<-|[<-|[]]]]]]].
    + unfold TodoController.getTodo. now rewrite Hnan.
    + unfold TodoController.sendFormEdit. now rewrite Hnan.
    + unfold TodoController.updateTodo. now rewrite Hnan.
    + unfold TodoController.deleteTodo. now rewrite Hnan.
    + unfold TodoController.completeTodo. now rewrite Hnan.
    + unfold SubTodoController.completeSubTodo. apply try_catch_Return.
      now rewrite Hnan.
  - unfold SubTodoController.completeSubTodo. apply try_catch_Return.
    rewrite Hnan.
    destruct (isNaN (Request.getId request) || le_zero (Request.getId request));
      exact Hsend.
Qed.

(** ** Calls of [send] on every path *)

Lemma quiet_ret {A} (a : A) : Reading.quiet (ret a).
Proof. intros w. split; reflexivity. Qed.

Lemma quiet_throw {A} (e : Exn) : Reading.quiet (throw (A := A) e).
Proof. intros w. split; reflexivity. Qed.

Lemma quiet_bind {A B} (m : M World.t A) (k : A -> M World.t B) :
  Reading.quiet m -> (forall a, Reading.quiet (k a)) -> Reading.quiet (bind m k).
Proof.
  intros Hm Hk w. unfold bind. specialize (Hm w).
  destruct (m w) as [[a|e] w1]; cbn [fst snd] in *.
  - specialize (Hk a w1). destruct Hm as [<- <-]. exact Hk.
  - exact Hm.
Qed.

Lemma quiet_try_catch {A} (m : M World.t A) (h : Exn -> M World.t A) :
  Reading.quiet m -> (forall e, Reading.quiet (h e)) -> Reading.quiet (try_catch m h).
Proof.
  intros Hm Hh w. unfold try_catch. specialize (Hm w).
  destruct (m w) as [[a|e] w1]; cbn [fst snd] in *.
  - exact Hm.
  - specialize (Hh e w1). destruct Hm as [<- <-]. exact Hh.
Qed.

Lemma quiet_sql (st : Statement) : Reading.quiet (sql st).
Proof.
  intros w. unfold sql. destruct (faults w) as [|[] fs]; cbn [snd];
    autorewrite with sends; split; reflexivity.
Qed.

Lemma quiet_param {A} (o : option A) (msg : string) : Reading.quiet (param o msg).
Proof. destruct o; [apply quiet_ret|apply quiet_throw]. Qed.

Lemma quiet_db : Reading.quiet db.
Proof. intros w. split; reflexivity. Qed.

Lemma quiet_set_db (d : Store.t) : Reading.quiet (set_db d).
Proof. intros w. split; reflexivity. Qed.

Lemma quiet_Date_now : Reading.quiet Date_now.
Proof. intros w. split; reflexivity. Qed.

Create HintDb quiet.
#[local] Hint Resolve quiet_ret quiet_throw quiet_sql quiet_param quiet_db
  quiet_set_db quiet_Date_now : quiet.

(** Breaks a composite computation down to the primitives above. *)
Ltac quiet_step :=
  match goal with
  | |- Reading.quiet (bind _ _) => apply quiet_bind; [|intros ?]
  | |- Reading.quiet (try_catch _ _) => apply quiet_try_catch; [|intros ?]
  | |- Reading.quiet (match ?x with _ => _ end) => destruct x
  | |- Reading.quiet (if ?b then _ else _) => destruct b
  | |- Reading.quiet (reject _) => apply quiet_throw
  | |- Reading.quiet _ => solve [auto with quiet]
  end.

Ltac quiet_tac := repeat quiet_step.

Section Quiet.
Context `{Platform}.

Lemma quiet_createUTCDate_now : Reading.quiet Todo.createUTCDate_now.
Proof. unfold Todo.createUTCDate_now. quiet_tac. Qed.
#[local] Hint Resolve quiet_createUTCDate_now : quiet.


Lemma quiet_body_of (request : Request.t) : Reading.quiet (body_of request).
Proof. unfold body_of. quiet_tac. Qed.
#[local] Hint Resolve quiet_body_of : quiet.


Lemma quiet_searchParams (request : Request.t) : Reading.quiet (searchParams request).
Proof. unfold searchParams. quiet_tac. Qed.
#[local] Hint Resolve quiet_searchParams : quiet.


Lemma quiet_SubTodo_readByTodoId (i : JSNumber) :
  Reading.quiet (SubTodo.readByTodoId i).
Proof. unfold SubTodo.readByTodoId. quiet_tac. Qed.
#[local] Hint Resolve quiet_SubTodo_readByTodoId : quiet.


Lemma quiet_SubTodo_read (i : JSNumber) : Reading.quiet (SubTodo.read i).
Proof. unfold SubTodo.read. quiet_tac. Qed.
#[local] Hint Resolve quiet_SubTodo_read : quiet.


Lemma quiet_SubTodo_create (p : SubTodoPartial.t) : Reading.quiet (SubTodo.create p).
Proof. unfold SubTodo.create, SubTodo.insert. quiet_tac. Qed.
#[local] Hint Resolve quiet_SubTodo_create : quiet.


Lemma quiet_SubTodo_update (self : SubTodo.t) (u : SubTodoPartial.t) :
  Reading.quiet (SubTodo.update self u).
Proof. unfold SubTodo.update, SubTodo.update_row. quiet_tac. Qed.
#[local] Hint Resolve quiet_SubTodo_update : quiet.


Lemma quiet_SubTodo_markComplete (self : SubTodo.t) :
  Reading.quiet (SubTodo.markComplete self).
Proof. unfold SubTodo.markComplete. quiet_tac. Qed.
#[local] Hint Resolve quiet_SubTodo_markComplete : quiet.


Lemma quiet_SubTodo_readAll (st : option Status) (sortBy : option string) :
  Reading.quiet (SubTodo.readAll st sortBy).
Proof. unfold SubTodo.readAll. quiet_tac. Qed.
#[local] Hint Resolve quiet_SubTodo_readAll : quiet.


Lemma quiet_Todo_read (i : JSNumber) : Reading.quiet (Todo.read i).
Proof. unfold Todo.read. quiet_tac. Qed.
#[local] Hint Resolve quiet_Todo_read : quiet.


Lemma quiet_Todo_update (self : Todo.t) (u : TodoPartial.t) :
  Reading.quiet (Todo.update self u).
Proof. unfold Todo.update, Todo.update_row. quiet_tac. Qed.
#[local] Hint Resolve quiet_Todo_update : quiet.


Lemma quiet_Todo_markComplete (self : Todo.t) : Reading.quiet (Todo.markComplete self).
Proof. unfold Todo.markComplete. quiet_tac. Qed.
#[local] Hint Resolve quiet_Todo_markComplete : quiet.


Lemma quiet_Todo_delete (self : Todo.t) : Reading.quiet (Todo.delete self).
Proof. unfold Todo.delete, Todo.delete_row. quiet_tac. Qed.
#[local] Hint Resolve quiet_Todo_delete : quiet.



Lemma quiet_Todo_create (p : TodoProps.t) : Reading.quiet (Todo.create p).
Proof. unfold Todo.create, Todo.insert. quiet_tac. Qed.
#[local] Hint Resolve quiet_Todo_create : quiet.

(** ** Handlers that call [send] exactly once *)

Lemma once_send (request : Request.t) (p : Response.ResponseProps) :
  Reading.sends_once (send request p).
Proof.
  intros w Hu. destruct (send_first request p w Hu) as (r' & _ & ->).
  cbn [fst snd]. split; [reflexivity|]. exists p.
  now autorewrite with sends.
Qed.

Lemma once_weaken (m : M World.t unit) :
  Reading.sends_once m -> Reading.sends_once_or_throws m.
Proof. intros Hm w Hu. left. now apply Hm. Qed.

Lemma once_bind_quiet {A} (m : M World.t A) (k : A -> M World.t unit) :
  Reading.quiet m -> (forall a, Reading.sends_once_or_throws (k a)) ->
  Reading.sends_once_or_throws (bind m k).
Proof.
  intros Hm Hk w Hu. unfold bind. specialize (Hm w).
  destruct (m w) as [[a|e] w1]; cbn [fst snd] in *; destruct Hm as [Hs Hr].
  - rewrite <- Hs, <- Hr. apply Hk. now rewrite Hr.
  - right. split; [now exists e|]. now split.
Qed.

Lemma once_try_catch (m : M World.t unit) (h : Exn -> M World.t unit) :
  Reading.sends_once_or_throws m -> (forall e, Reading.sends_once (h e)) ->
  Reading.sends_once (try_catch m h).
Proof.
  intros Hm Hh w Hu. unfold try_catch. specialize (Hm w Hu).
  destruct (m w) as [[[]|e] w1]; cbn [fst snd] in *.
  - destruct Hm as [Hm|[[e He] _]]; [exact Hm|discriminate].
  - destruct Hm as [[Hm _]|(_ & Hs & Hr)]; [discriminate|].
    rewrite <- Hs. apply Hh. now rewrite Hr.
Qed.

(** Follows the structure of a handler down to its calls of [send]. *)
Ltac once_step :=
  match goal with
  | |- Reading.sends_once (send _ _) => apply once_send
  | |- Reading.sends_once (try_catch _ _) => apply once_try_catch; [|intros ?]
  | |- Reading.sends_once (match ?x with _ => _ end) => destruct x
  | |- Reading.sends_once (if ?b then _ else _) => destruct b
  | |- Reading.sends_once_or_throws (bind _ _) =>
      apply once_bind_quiet; [solve [quiet_tac]|intros ?]
  | |- Reading.sends_once_or_throws (match ?x with _ => _ end) => destruct x
  | |- Reading.sends_once_or_throws (if ?b then _ else _) => destruct b
  | |- Reading.sends_once_or_throws (send _ _) => apply once_weaken, once_send
  | |- Reading.sends_once_or_throws (try_catch _ _) => apply once_weaken
  end.

Ltac once_tac := repeat once_step.

(** The handlers whose every path ends in one [send]: on a response not yet
    written they return after exactly one call, whatever the request and
    whatever the store does. *)
Lemma sibling_handlers_send_once (handler : Handler) (request : Request.t) :
  In handler [TodoController.sendFormCreate; TodoController.deleteTodo;
              TodoController.completeTodo; SubTodoController.createSubtodo;
              SubTodoController.getSubTodoList;
              SubTodoController.completeSubTodo] ->
  Reading.sends_once (handler request).
Proof.
  cbn [In]. intros [<-|[<-|[<-|[<-|[<-|[<-|[]]]]]]].
  - unfold TodoController.sendFormCreate. once_tac.
  - unfold TodoController.deleteTodo. once_tac.
  - unfold TodoController.completeTodo. once_tac.
  - unfold SubTodoController.createSubtodo. once_tac.
  - unfold SubTodoController.getSubTodoList. once_tac.
  - unfold SubTodoController.completeSubTodo. once_tac.
Qed.

(** [createTodo] and [updateTodo] read [req.body] outside any [try]: one
    call of [send], or a throw before any. *)
Lemma body_handlers_send_at_most_once (handler : Handler)
  (request : Request.t) :
  In handler [TodoController.createTodo; TodoController.updateTodo] ->
  Reading.sends_once_or_throws (handler request).
Proof.
  cbn [In]. intros [<-|[<-|[]]].
  - unfold TodoController.createTodo. once_tac.
  - unfold TodoController.updateTodo. once_tac.
Qed.

Lemma quiet_SubTodo_delete (self : SubTodo.t) :
  Reading.quiet (SubTodo.delete self).
Proof. unfold SubTodo.delete, SubTodo.delete_row. quiet_tac. Qed.
#[local] Hint Resolve quiet_SubTodo_delete : quiet.

(** X18. Eight handlers call [send] exactly once and return, on every
    path, whatever the request and whatever the store does: the six above
    and the two handlers of SubTodoController that no route reaches,
    [getSubTodo] and [deleteSubTodo]. *)
Theorem handlers_send_exactly_once (handler : Handler) (request : Request.t)
  (w : World.t) :
  In handler [TodoController.sendFormCreate; TodoController.deleteTodo;
              TodoController.completeTodo; SubTodoController.createSubtodo;
              SubTodoController.getSubTodoList;
              SubTodoController.completeSubTodo;
              SubTodoController.getSubTodo;
              SubTodoController.deleteSubTodo] ->
  Reading.unsent (res w) ->
  exists (w' : World.t) (p : Response.ResponseProps),
    handler request w = (Return tt, w') /\ sends w' = sends w ++ [p].
Proof.
  intros Hin Hu.
  assert (Honce : Reading.sends_once (handler request)).
  { cbn [In] in Hin.
    destruct Hin as [<-|[<-|[<-|[<-|[<-|[<-|[<-|[<-|[]]]]]]]]];
      try (apply sibling_handlers_send_once; cbn [In]; tauto).
    - unfold SubTodoController.getSubTodo. once_tac.
    - unfold SubTodoController.deleteSubTodo. once_tac. }
  destruct (Honce w Hu) as [Hr [p Hp]].
  exists (handler request w).2, p. split; [|exact Hp].
  destruct (handler request w) as [o w']. cbn [fst snd] in *. now subst o.
Qed.



Lemma once_bind_returns {A} (m : M World.t A) (k : A -> M World.t unit) :
  Reading.quiet m -> (forall w, exists a, (m w).1 = Return a) ->
  (forall a, Reading.sends_once (k a)) ->
  Reading.sends_once (bind m k).
Proof.
  intros Hq Hr Hk w Hu. unfold bind.
  destruct (Hq w) as [Hs Hres]. destruct (Hr w) as [a Ha].
  destruct (m w) as [o w1]. cbn [fst snd] in *. subst o.
  rewrite <- Hs. apply Hk. now rewrite Hres.
Qed.

(** X19. [createTodo] and [updateTodo] call [send] exactly once and
    return, on every path and whatever the store does, provided the parsed
    body is neither [null] nor [undefined]. *)
Theorem todo_handlers_send_once_with_body (handler : Handler)
  (request : Request.t) (w : World.t) :
  In handler [TodoController.createTodo; TodoController.updateTodo] ->
  nullish (Request.body request) = false ->
  Reading.unsent (res w) ->
  exists (w' : World.t) (p : Response.ResponseProps),
    handler request w = (Return tt, w') /\ sends w' = sends w ++ [p].
Proof.
  intros Hin Hbody Hu.
  assert (Hb : forall v : World.t,
            exists a, (body_of request v).1 = Return a).
  { intros v. rewrite (body_of_run request v Hbody). now eexists. }
  assert (Honce : Reading.sends_once (handler request)).
  { cbn [In] in Hin. destruct Hin as [<-|[<-|[]]].
    - unfold TodoController.createTodo.
      apply once_bind_returns; [quiet_tac|exact Hb|intros body].
      apply once_bind_returns; [quiet_tac|intros v; now eexists|intros createdAt].
      once_tac.
      apply once_bind_returns; [quiet_tac| |intros todo; once_tac].
      intros v. unfold try_catch, bind, ret.
      destruct (Todo.create _ v) as [[t|e] v']; now eexists.
    - unfold TodoController.updateTodo. once_tac.
      apply once_bind_returns; [quiet_tac|exact Hb|intros body]. once_tac. }
  destruct (Honce w Hu) as [Hr [p Hp]].
  exists (handler request w).2, p. split; [|exact Hp].
  destruct (handler request w) as [o w']. cbn [fst snd] in *. now subst o.
Qed.

End Quiet.

(** [POST /todos] with the JSON body [null]: [createTodo] throws on
    [req.body.title] and never calls [send]. *)
Lemma createTodo_null_body :
  let result := TodoController.createTodo (H := Sample.platform)
                  (Sample.request "POST" "/todos" [] JNull)
                  (Sample.world Sample.store1 []) in
  result.1 = Throw (TypeError "Cannot read properties of null")
  /\ sends result.2 = [].
Proof. intros result. vm_compute. split; reflexivity. Qed.

(** ** Further runs *)

(** [GET /todos/1] while the store is down: [getTodo] answers from its
    [catch] block and again after it. *)
Lemma getTodo_sends_twice :
  let result := TodoController.getTodo (H := Sample.platform)
                  (Sample.request "GET" "/todos/1" [] (JObj []))
                  (Sample.world Sample.store1 [true]) in
  result.1 = Throw ERR_HTTP_HEADERS_SENT
  /\ Response.message <$> sends result.2
     = ["Internal Server Error"; "Not found"].
Proof. intros result. vm_compute. split; reflexivity. Qed.

(** [GET /todos/abc/subtodos]: [getSubTodoList] tests no id either; it reads
    the table and redirects to [/todos/NaN]. *)
Lemma getSubTodoList_without_id_check :
  let result := SubTodoController.getSubTodoList (H := Sample.platform)
                  (Sample.request "GET" "/todos/abc/subtodos" [] (JObj []))
                  (Sample.world Sample.store1 []) in
  result.1 = Return tt
  /\ sends result.2
     = [with_payload (JObj [("subtodosArray", JArr [])])
          (with_redirect "/todos/NaN"
             (respond StatusCode.Redirect "SubTodo list retrieved"))]
  /\ statements result.2 = [Reserve; Select "subtodos"; Release].
Proof. intros result. vm_compute. repeat split. Qed.

(* ===================================================================== *)
(** * Further properties of the adapters, the models and the handlers      *)
(* ===================================================================== *)

(** ** router/Response.ts: a second send *)

(** X1. Whatever the requests and the descriptors, the first [send] on a
    response not yet written returns with the head written and the response
    ended, and a second [send] on it throws [ERR_HTTP_HEADERS_SENT] and
    leaves the response as the first call wrote it. *)
Theorem send_twice_first_wins `{Platform} (request1 request2 : Request.t)
  (props1 props2 : Response.ResponseProps) (r : Response.ServerResponse) :
  Reading.unsent r ->
  exists r1 : Response.ServerResponse,
    Response.send request1 props1 r = (Return tt, r1)
    /\ Response.head r1 <> None /\ Response.ended r1 <> None
    /\ Response.send request2 props2 r1 = (Throw ERR_HTTP_HEADERS_SENT, r1).
Proof.
  intros [Hh He].
  assert (Hs : exists r1, Response.send request1 props1 r = (Return tt, r1)
                          /\ Response.head r1 <> None
                          /\ Response.ended r1 <> None).
  { destruct r as [h e]. simpl in Hh, He. subst h e.
    unfold Response.send, Response.send_json, bind, Response.writeHead,
      Response.end_.
    destruct (Request.accepts request1 Response.ContentType_HTML),
      (opt_string_truthy (Response.redirect props1)),
      (opt_string_truthy (Response.template props1));
      cbn; eexists; (split; [reflexivity|]); split; discriminate. }
  destruct Hs as (r1 & Hs & Hh1 & He1). exists r1.
  split; [exact Hs|]. split; [exact Hh1|]. split; [exact He1|].
  now apply send_after_sent.
Qed.

(** A list view, then the error view. *)
Lemma send_twice_first_wins_witness :
  exists r1 : Response.ServerResponse,
    Response.send (H := Sample.platform)
      (Sample.request "GET" "/todos" [("accept", "text/html")] (JObj []))
      (with_template "ListView" (respond StatusCode.OK "Todo list retrieved"))
      Response.fresh
    = (Return tt, r1)
    /\ Response.head r1 <> None /\ Response.ended r1 <> None
    /\ Response.send (H := Sample.platform)
         (Sample.request "GET" "/todos" [("accept", "text/html")] (JObj []))
         (respond StatusCode.InternalServerError "Internal Server Error") r1
       = (Throw ERR_HTTP_HEADERS_SENT, r1).
Proof.
  apply (send_twice_first_wins (H := Sample.platform)).
  split; reflexivity.
Defined.

(** ** router/Request.ts: a form that overrides the method *)

Lemma assoc_set_field_same (k : string) (v : JSValue)
  (l : list (string * JSValue)) :
  assoc k (set_field k v l) = Some v.
Proof.
  induction l as [|[k' v'] l IH]; cbn [set_field assoc].
  - now rewrite String.eqb_refl.
  - destruct (String.eqb_spec k k') as [->|Hne]; cbn [assoc].
    + now rewrite String.eqb_refl.
    + destruct (String.eqb_spec k k'); [contradiction|exact IH].
Qed.

Lemma assoc_set_field_other (k k' : string) (v : JSValue)
  (l : list (string * JSValue)) :
  k <> k' -> assoc k (set_field k' v l) = assoc k l.
Proof.
  intros Hne. induction l as [|[k'' v''] l IH]; cbn [set_field assoc].
  - destruct (String.eqb_spec k k'); [contradiction|reflexivity].
  - destruct (String.eqb_spec k' k'') as [->|Hne']; cbn [assoc].
    + destruct (String.eqb_spec k k''); [contradiction|reflexivity].
    + destruct (String.eqb_spec k k''); [reflexivity|exact IH].
Qed.

Lemma assoc_fold_other (k : string) (entries : list (string * string)) :
  Forall (fun kv => kv.1 <> k) entries ->
  forall acc,
    assoc k (fold_left (fun acc kv => set_field kv.1 (JStr kv.2) acc)
                       entries acc)
    = assoc k acc.
Proof.
  intros Hall. induction Hall as [|[k' v'] entries Hk _ IH]; intros acc.
  - reflexivity.
  - cbn [fold_left fst snd] in *. rewrite IH.
    apply assoc_set_field_other. congruence.
Qed.

(** [Object.fromEntries]: the last entry of a key gives its value. *)
Lemma member_fromEntries (k v : string) (before after : list (string * string)) :
  Forall (fun kv => kv.1 <> k) after ->
  member (fromEntries (before ++ (k, v) :: after)) k = JStr v.
Proof.
  intros Hafter. unfold fromEntries, member.
  rewrite fold_left_app. cbn [fold_left fst snd].
  rewrite (assoc_fold_other k after Hafter), assoc_set_field_same.
  reflexivity.
Qed.

(** X2. A form body overrides the method. When the Content-Type includes
    [x-www-form-urlencoded] and the last [method] entry of the body is [m],
    the promise of [parseBody] resolves with the object it stores in
    [body], [getMethod()] on the request then returns [m], and the message
    underneath is the one it was. *)
Theorem form_overrides_method `{Platform} (r : Request.t)
  (chunks : list string) (ct m : string)
  (before after : list (string * string)) :
  Request.headers (Request.req r) !! "content-type" = Some ct ->
  includes ct "x-www-form-urlencoded" = true ->
  URLSearchParams (fold_left String.append chunks "")
  = before ++ ("method", m) :: after ->
  Forall (fun kv => kv.1 <> "method") after ->
  let st := Request.parseBody r ((Request.Data <$> chunks) ++ [Request.End]) in
  Request.promise st = Request.Resolved (Request.body (Request.self st))
  /\ Request.getMethod (Request.self st) = JStr m
  /\ Request.req (Request.self st) = Request.req r.
Proof.
  intros Hct Hform Hentries Hafter st.
  assert (Hst : st = Request.on_end
                       {| Request.bodyRaw := fold_left String.append chunks "";
                          Request.promise := Request.Pending;
                          Request.self := r |}).
  { unfold st, Request.parseBody. rewrite fold_left_app, parseBody_buffers.
    reflexivity. }
  rewrite Hst. unfold Request.on_end, Request.parse.
  cbn [Request.bodyRaw Request.self Request.promise].
  rewrite Hct, Hform, Hentries.
  cbn [Request.promise Request.self Request.settle Request.body Request.req].
  split; [reflexivity|]. split; [|reflexivity].
  unfold Request.getMethod. cbn [Request.body Request.req].
  rewrite (member_fromEntries "method" m before after Hafter).
  reflexivity.
Qed.

(** A form sent in two chunks, with a hidden [method] field. *)
Lemma form_overrides_method_witness :
  let entries := [("title", "Call"); ("method", "PUT")] in
  let r := Request.new
             (Sample.message "POST" "/todos/1"
                [("content-type", "application/x-www-form-urlencoded")]) in
  let st := Request.parseBody (H := Sample.posting entries) r
              ((Request.Data <$> ["title=Call"; "&method=PUT"])
               ++ [Request.End]) in
  Request.promise st = Request.Resolved (Request.body (Request.self st))
  /\ Request.getMethod (Request.self st) = JStr "PUT"
  /\ Request.req (Request.self st) = Request.req r.
Proof.
  intros entries r.
  apply (form_overrides_method (H := Sample.posting entries) r
           ["title=Call"; "&method=PUT"]
           "application/x-www-form-urlencoded" "PUT" [("title", "Call")] []).
  - reflexivity.
  - reflexivity.
  - reflexivity.
  - constructor.
Defined.

(** ** router/Request.ts: an id followed by a query string *)

Lemma list_ascii_app (a b : string) :
  list_ascii_of_string (a +:+ b)
  = list_ascii_of_string a ++ list_ascii_of_string b.
Proof.
  induction a as [|c a IH]; [reflexivity|].
  change (String c a +:+ b) with (String c (a +:+ b)).
  cbn [list_ascii_of_string app]. now rewrite IH.
Qed.

Lemma drop_spaces_keeps (c : ascii) (a b : list ascii) :
  is_space c = false -> exists a', drop_spaces (a ++ c :: b) = a' ++ c :: b.
Proof.
  intros Hc. induction a as [|x a IH]; cbn [app drop_spaces].
  - rewrite Hc. now exists [].
  - destruct (is_space x); [exact IH|]. now exists (x :: a).
Qed.

Lemma read_digits_until (c : ascii) (ds rest : list ascii) :
  Reading.is_digit c = false ->
  forallb Reading.is_digit ds = true ->
  forall acc count,
    exists v, read_digits acc count (ds ++ c :: rest)
              = (v, count + Z.of_nat (length ds), c :: rest).
Proof.
  intros Hc. induction ds as [|d ds IH]; intros Hds acc count.
  - cbn [app read_digits length]. unfold Reading.is_digit in Hc.
    destruct (digit_val c); [discriminate|]. eexists. do 2 f_equal. lia.
  - cbn [forallb] in Hds. apply andb_true_iff in Hds as [Hd Hds].
    cbn [app read_digits]. unfold Reading.is_digit in Hd.
    destruct (digit_val d) as [x|]; [|discriminate].
    destruct (IH Hds (10 * acc + x) (count + 1)) as [v Hv].
    exists v. rewrite Hv. cbn [length]. do 2 f_equal. lia.
Qed.

(** [Number] of decimal digits followed by a question mark is [NaN]. *)
Lemma Number_with_query (d q : string) :
  Reading.decimal d = true -> Number (Some (d +:+ "?" +:+ q)) = JNaN.
Proof.
  unfold Reading.decimal. intros Hd. apply andb_true_iff in Hd as [Hne Hd].
  unfold Number. rewrite !list_ascii_app. cbn [list_ascii_of_string app].
  set (ds := list_ascii_of_string d) in *.
  set (qs := list_ascii_of_string q).
  assert (Hq : is_space "?" = false) by reflexivity.
  assert (Hds : ds <> []) by (unfold ds; now destruct d).
  destruct ds as [|c ds]; [congruence|]. clear Hds Hne.
  cbn [forallb] in Hd. apply andb_true_iff in Hd as [Hc Hd].
  assert (Htrim : exists t, trim ((c :: ds) ++ "?"%char :: qs)
                            = (c :: ds) ++ "?"%char :: t).
  { unfold trim. cbn [app drop_spaces]. rewrite (digit_not_space c Hc).
    change (c :: ds ++ "?"%char :: qs) with ((c :: ds) ++ "?"%char :: qs).
    rewrite rev_app_distr. cbn [rev]. rewrite <- app_assoc. cbn [app].
    destruct (drop_spaces_keeps "?" (rev qs) (rev ds ++ [c]) Hq) as [a' ->].
    rewrite rev_app_distr. cbn [rev]. rewrite rev_app_distr. cbn [rev app].
    rewrite rev_involutive, <- app_assoc. cbn [app]. now exists (rev a'). }
  destruct Htrim as [t ->].
  assert (Hu : read_unsigned ((c :: ds) ++ "?"%char :: t) = JNaN).
  { unfold read_unsigned, list_ascii_eqb, Infinity_chars.
    cbn [app list_ascii_of_string string_of_list_ascii String.eqb].
    rewrite (digit_eqb_false c "I" Hc eq_refl).
    unfold read_decimal.
    destruct (read_digits_until "?" (c :: ds) t eq_refl
                ltac:(cbn [forallb]; now rewrite Hc, Hd) 0 0) as [v Hv].
    cbn [app] in Hv. rewrite Hv.
    change (Ascii.eqb "?" ".") with false. cbv iota.
    assert (Hpos : (0 <? 0 + Z.of_nat (length (c :: ds))) = true)
      by (apply Z.ltb_lt; cbn [length]; lia).
    rewrite Hpos. reflexivity. }
  unfold read_numeric. cbn [app].
  rewrite (digit_eqb_false c "+" Hc eq_refl), (digit_eqb_false c "-" Hc eq_refl).
  destruct ds as [|p ds'].
  - cbn [app]. change (Ascii.eqb "?" "x") with false.
    change (Ascii.eqb "?" "X") with false. change (Ascii.eqb "?" "o") with false.
    change (Ascii.eqb "?" "O") with false. change (Ascii.eqb "?" "b") with false.
    change (Ascii.eqb "?" "B") with false. rewrite !andb_false_r. exact Hu.
  - cbn [forallb] in Hd. apply andb_true_iff in Hd as [Hp _]. cbn [app].
    rewrite (digit_eqb_false p "x" Hp eq_refl), (digit_eqb_false p "X" Hp eq_refl),
      (digit_eqb_false p "o" Hp eq_refl), (digit_eqb_false p "O" Hp eq_refl),
      (digit_eqb_false p "b" Hp eq_refl), (digit_eqb_false p "B" Hp eq_refl).
    rewrite !andb_false_r. exact Hu.
Qed.

(** X3. [getId()] and [getSubTodoId()] split the raw URL, query string
    included: when the segment read is decimal digits followed by [?] and
    whatever else, the id is [NaN]. *)
Theorem getId_with_query_string (r : Request.t) :
  let reads (i : nat) (id : JSNumber) :=
    forall d q : string,
      Request.segment r i = Some (d +:+ "?" +:+ q) ->
      Reading.decimal d = true -> id = JNaN in
  reads 2%nat (Request.getId r) /\ reads 4%nat (Request.getSubTodoId r).
Proof.
  unfold Request.getId, Request.getSubTodoId.
  split; intros d q -> Hd; now apply Number_with_query.
Qed.

(** [GET /todos/1?sortBy=title]. *)
Lemma getId_with_query_string_witness :
  Request.getId (Sample.request "GET" "/todos/1?sortBy=title" [] (JObj []))
  = JNaN.
Proof.
  apply (proj1 (getId_with_query_string
                  (Sample.request "GET" "/todos/1?sortBy=title" [] (JObj []))))
    with (d := "1") (q := "sortBy=title").
  - reflexivity.
  - reflexivity.
Defined.

(** ** Numbers that are row ids *)

Lemma pg_integer_num_of_Z (z : Z) :
  - 2 ^ 31 <= z < 2 ^ 31 -> pg_integer (num_of_Z z) = Some z.
Proof.
  intros [Hl Hu]. unfold pg_integer, num_of_Z, inject_Z. cbn [Qden Qnum].
  cbn [Pos.eqb andb].
  destruct (Z.leb_spec (- 2 ^ 31) z); [|lia].
  destruct (Z.ltb_spec z (2 ^ 31)); [reflexivity|lia].
Qed.

Lemma number_truthy_num_of_Z (z : Z) :
  number_truthy (num_of_Z z) = negb (z =? 0).
Proof.
  unfold number_truthy, num_of_Z.
  destruct (Qeq_bool (inject_Z z) (inject_Z 0)) eqn:E.
  - apply Qeq_bool_iff in E. unfold Qeq, inject_Z in E. cbn in E.
    assert (z = 0) as -> by lia. reflexivity.
  - destruct (Z.eqb_spec z 0) as [->|]; [|reflexivity].
    now rewrite Qeq_bool_refl in E.
Qed.

Lemma filter_head {A} (f : A -> bool) (l : list A) :
  match List.filter f l with [] => None | r :: _ => Some r end
  = List.find f l.
Proof.
  induction l as [|x l IH]; [reflexivity|]. cbn [List.filter List.find].
  now destruct (f x).
Qed.

Lemma pg_varchar255_short (s : string) :
  (String.length s <= 255)%nat -> pg_varchar255 s = Some s.
Proof.
  intros Hl. unfold pg_varchar255.
  destruct (Z.leb_spec (Z.of_nat (String.length s)) 255); [reflexivity|lia].
Qed.

(** ** models/Subtodo.ts while the store answers *)

Lemma SubTodo_read_calm (w : World.t) (i : JSNumber) (z : Z) :
  pg_integer i = Some z -> Reading.calm (faults w) ->
  SubTodo.read i w
  = (Return (SubTodo.of_row <$> find_subtodo (store w) z),
     pop_fault (record (Sql (Select "subtodos")) w)).
Proof.
  intros Hz Hc. unfold SubTodo.read.
  rewrite (bind_Return _ _ _ _ _ (sql_calm _ _ Hc)), Hz.
  unfold param, bind, ret, db, find_subtodo.
  change (store (pop_fault (record (Sql (Select "subtodos")) w)))
    with (store w).
  rewrite <- filter_head.
  now destruct (List.filter _ _).
Qed.

Lemma SubTodo_create_calm (w : World.t) (title : string) (st : Status)
  (c : Z) (completed : option Z) (todoId : option JSNumber) (todo_id : option Z) :
  title <> "" -> (String.length title <= 255)%nat ->
  nullable pg_integer (SubTodo.number_or_null todoId) = Some todo_id ->
  (forall z, todo_id = Some z -> is_Some (find_todo (store w) z)) ->
  Reading.calm (faults w) ->
  find_subtodo (store w) (subtodos_id_seq (store w)) = None ->
  let row := {| subtodos.id := subtodos_id_seq (store w);
                subtodos.title := title; subtodos.status := st;
                subtodos.created_at := c; subtodos.completed_at := completed;
                subtodos.edited_at := None; subtodos.todo_id := todo_id |} in
  SubTodo.create
    {| SubTodoPartial.id := None; SubTodoPartial.title := Some title;
       SubTodoPartial.status := Some st;
       SubTodoPartial.createdAt := Some (ValidDate c);
       SubTodoPartial.completedAt := ValidDate <$> completed;
       SubTodoPartial.todoId := todoId |} w
  = (Return (SubTodo.of_row row),
     set_store
       (SubTodo.set_subtodos (subtodos_rows (store w) ++ [row])
          (subtodos_id_seq (store w) + 1) (store w))
       (pop_fault (record (Sql (Insert "subtodos")) w))).
Proof.
  intros Hne Hlen Htodo Href Hcalm Hfresh row.
  apply string_truthy_iff in Hne.
  unfold SubTodo.create, SubTodo.insert.
  assert (Hcomp : nullable pg_timestamp (ValidDate <$> completed) = Some completed)
    by now destruct completed.
  assert (Hr : match todo_id with
               | Some z => bool_decide (is_Some (find_todo (store w) z))
               | None => true
               end = true).
  { destruct todo_id as [z|]; [|reflexivity].
    apply bool_decide_eq_true. now apply Href. }
  erewrite bind_Return.
  2:{ rewrite (bind_Return _ _ _ _ _ (sql_calm _ _ Hcalm)).
      cbn [SubTodoPartial.title SubTodoPartial.status
           SubTodoPartial.completedAt SubTodoPartial.createdAt
           SubTodoPartial.todoId SubTodo.string_or_null].
      rewrite Hne, Htodo, Hcomp.
      cbn [nullable option_map pg_timestamp].
      rewrite (pg_varchar255_short _ Hlen).
      unfold param, bind, ret, db, set_db. cbn [option_map].
      change (store (pop_fault (record (Sql (Insert "subtodos")) w)))
        with (store w).
      rewrite Hfresh, Hr. reflexivity. }
  reflexivity.
Qed.

Lemma store_pop_record (ev : Event) (w : World.t) :
  store (pop_fault (record ev w)) = store w.
Proof. reflexivity. Qed.

Lemma find_subtodo_id (d : Store.t) (z : Z) (r : subtodos.row) :
  find_subtodo d z = Some r -> subtodos.id r = z.
Proof.
  intros Hf. apply List.find_some in Hf as [_ Hf]. now apply Z.eqb_eq in Hf.
Qed.

Lemma find_todo_id (d : Store.t) (z : Z) (r : todos.row) :
  find_todo d z = Some r -> todos.id r = z.
Proof.
  intros Hf. apply List.find_some in Hf as [_ Hf]. now apply Z.eqb_eq in Hf.
Qed.

Lemma find_none_Forall {A} (f : A -> bool) (l : list A) :
  Forall (fun y => f y = false) l -> List.find f l = None.
Proof.
  intros Hl. induction Hl as [|y l Hy _ IH]; [reflexivity|].
  cbn [List.find]. now rewrite Hy.
Qed.

Lemma find_app_fresh {A} (f : A -> bool) (l : list A) (x : A) :
  Forall (fun y => f y = false) l -> f x = true ->
  List.find f (l ++ [x]) = Some x.
Proof.
  intros Hl Hx. induction Hl as [|y l Hy _ IH]; cbn [List.find app].
  - now rewrite Hx.
  - now rewrite Hy.
Qed.

(** X4. [SubTodo.create] and then [SubTodo.read]. With a non-empty title
    of at most 255 characters, a valid creation date and the id of a stored
    todo, on a store that answers and whose sequence is ahead of the ids in
    use, [create] returns an instance that carries the next id of the
    sequence and the values given, and the table holds one more row;
    [read] of that id then returns this instance.  [readByTodoId] of the
    todo lists, before, the rows of the table whose [todo_id] is that of
    the todo, in the order of the table, and, after, the same followed by
    the new instance. *)
Theorem SubTodo_create_then_read (w : World.t) (title : string) (st : Status)
  (c z : Z) :
  title <> "" -> (String.length title <= 255)%nat ->
  z <> 0 -> - 2 ^ 31 <= z < 2 ^ 31 -> is_Some (find_todo (store w) z) ->
  Forall (fun r => subtodos.id r < subtodos_id_seq (store w))
         (subtodos_rows (store w)) ->
  - 2 ^ 31 <= subtodos_id_seq (store w) < 2 ^ 31 ->
  Reading.calm (faults w) ->
  let row := {| subtodos.id := subtodos_id_seq (store w);
                subtodos.title := title; subtodos.status := st;
                subtodos.created_at := c; subtodos.completed_at := None;
                subtodos.edited_at := None; subtodos.todo_id := Some z |} in
  let old := SubTodo.of_row
               <$> List.filter
                     (fun r => bool_decide (subtodos.todo_id r = Some z))
                     (subtodos_rows (store w)) in
  exists (s : SubTodo.t) (w1 w2 w3 : World.t),
    SubTodo.create
      {| SubTodoPartial.id := None; SubTodoPartial.title := Some title;
         SubTodoPartial.status := Some st;
         SubTodoPartial.createdAt := Some (ValidDate c);
         SubTodoPartial.completedAt := None;
         SubTodoPartial.todoId := Some (num_of_Z z) |} w
    = (Return s, w1)
    /\ SubTodo.props s
       = {| SubTodoProps.id := Some (num_of_Z (subtodos_id_seq (store w)));
            SubTodoProps.title := title; SubTodoProps.status := st;
            SubTodoProps.createdAt := ValidDate c;
            SubTodoProps.completedAt := None;
            SubTodoProps.todoId := Some (num_of_Z z) |}
    /\ subtodos_rows (store w1) = subtodos_rows (store w) ++ [row]
    /\ SubTodo.read (num_of_Z (subtodos_id_seq (store w))) w1
       = (Return (Some s), w2)
    /\ (SubTodo.readByTodoId (num_of_Z z) w).1 = Return old
    /\ SubTodo.readByTodoId (num_of_Z z) w1 = (Return (old ++ [s]), w3).
Proof.
  intros Hne Hlen Hz Hrange Htodo Hfresh Hseq Hcalm.
  set (seq := subtodos_id_seq (store w)) in *.
  intros row0 old.
  assert (Htruthy : number_truthy (num_of_Z z) = true).
  { rewrite number_truthy_num_of_Z. now destruct (Z.eqb_spec z 0). }
  assert (Hparam : nullable pg_integer
                     (SubTodo.number_or_null (Some (num_of_Z z))) = Some (Some z)).
  { cbn [SubTodo.number_or_null]. rewrite Htruthy. cbn [nullable].
    now rewrite (pg_integer_num_of_Z z Hrange). }
  assert (Hfree : find_subtodo (store w) seq = None).
  { apply find_none_Forall. eapply Forall_impl; [exact Hfresh|].
    cbn beta. intros r Hr. apply Z.eqb_neq. lia. }
  pose proof (SubTodo_create_calm w title st c None (Some (num_of_Z z)) (Some z)
                Hne Hlen Hparam ltac:(now intros ? [= <-]) Hcalm Hfree)
    as Hcreate.
  cbn zeta in Hcreate. fold seq in Hcreate.
  set (row := {| subtodos.id := seq; subtodos.title := title |}) in Hcreate.
  set (w1 := set_store _ _) in Hcreate.
  assert (Hc1 : Reading.calm (faults w1)) by apply calm_tail, Hcalm.
  pose proof (SubTodo_read_calm w1 (num_of_Z seq) seq
                (pg_integer_num_of_Z seq Hseq) Hc1) as Hread.
  assert (Hfind : find_subtodo (store w1) seq = Some row).
  { unfold find_subtodo, w1. cbn [store set_store subtodos_rows SubTodo.set_subtodos].
    apply find_app_fresh.
    - eapply Forall_impl; [exact Hfresh|]. cbn beta. intros r Hr.
      apply Z.eqb_neq. lia.
    - apply Z.eqb_refl. }
  rewrite Hfind in Hread.
  exists (SubTodo.of_row row), w1.
  eexists. eexists.
  split; [exact Hcreate|]. split; [reflexivity|]. split; [reflexivity|].
  split; [exact Hread|].
  unfold SubTodo.readByTodoId.
  rewrite (bind_Return _ _ _ _ _ (sql_calm _ _ Hcalm)).
  rewrite (bind_Return _ _ _ _ _ (sql_calm _ _ Hc1)).
  rewrite (pg_integer_num_of_Z z Hrange).
  unfold param, bind, ret, db. rewrite !store_pop_record.
  split; [reflexivity|].
  unfold w1, old. cbn [store set_store subtodos_rows SubTodo.set_subtodos].
  rewrite List.filter_app, fmap_app. cbn [List.filter subtodos.todo_id row].
  rewrite bool_decide_eq_true_2 by reflexivity. reflexivity.
Qed.

(** A third subtodo for todo 1 of the sample store of three todos, which
    has two already: the subtodos 1 and 3. *)
Lemma SubTodo_create_then_read_witness :
  let w := Sample.world Sample.store3 [] in
  let new := {| subtodos.id := 5; subtodos.title := "Shop";
                subtodos.status := incomplete; subtodos.created_at := 3000;
                subtodos.completed_at := None; subtodos.edited_at := None;
                subtodos.todo_id := Some 1 |} in
  exists (s : SubTodo.t) (w1 w2 w3 : World.t),
    SubTodo.create
      {| SubTodoPartial.id := None; SubTodoPartial.title := Some "Shop";
         SubTodoPartial.status := Some incomplete;
         SubTodoPartial.createdAt := Some (ValidDate 3000);
         SubTodoPartial.completedAt := None;
         SubTodoPartial.todoId := Some (num_of_Z 1) |} w
    = (Return s, w1)
    /\ SubTodo.props s
       = {| SubTodoProps.id := Some (num_of_Z 5);
            SubTodoProps.title := "Shop"; SubTodoProps.status := incomplete;
            SubTodoProps.createdAt := ValidDate 3000;
            SubTodoProps.completedAt := None;
            SubTodoProps.todoId := Some (num_of_Z 1) |}
    /\ subtodos_rows (store w1)
       = [Sample.sub1; Sample.sub2; Sample.sub3; Sample.sub4; new]
    /\ SubTodo.read (num_of_Z 5) w1 = (Return (Some s), w2)
    /\ (SubTodo.readByTodoId (num_of_Z 1) w).1
       = Return [SubTodo.of_row Sample.sub1; SubTodo.of_row Sample.sub3]
    /\ SubTodo.readByTodoId (num_of_Z 1) w1
       = (Return [SubTodo.of_row Sample.sub1; SubTodo.of_row Sample.sub3; s],
          w3).
Proof.
  intros w new.
  apply (SubTodo_create_then_read w "Shop" incomplete 3000 1).
  - discriminate.
  - simpl. lia.
  - lia.
  - lia.
  - eexists. reflexivity.
  - repeat constructor.
  - simpl. lia.
  - constructor.
Defined.

Lemma SubTodo_create_rejects (p : SubTodoPartial.t) (w : World.t) :
  SubTodo.string_or_null (SubTodoPartial.title p) = None
  \/ SubTodoPartial.status p = None \/ SubTodoPartial.createdAt p = None ->
  exists (e : Exn) (w' : World.t),
    SubTodo.create p w = (Throw e, w')
    /\ subtodos_rows (store w') = subtodos_rows (store w)
    /\ todos_rows (store w') = todos_rows (store w).
Proof.
  intros Hcols.
  unfold SubTodo.create, SubTodo.insert, bind, sql, param, reject, throw, ret,
    db, set_db.
  destruct (faults w) as [|[] fs]; [|eexists _, _; repeat split|].
  all: destruct (nullable pg_timestamp (SubTodoPartial.completedAt p));
    [|eexists _, _; repeat split].
  all: destruct (nullable pg_timestamp (SubTodoPartial.createdAt p))
         as [p_created|] eqn:Hc; [|eexists _, _; repeat split].
  all: destruct (nullable pg_integer _); [|eexists _, _; repeat split].
  all: destruct (nullable pg_varchar255 _) as [p_title|] eqn:Ht;
    [|eexists _, _; repeat split].
  all: destruct p_title as [t|], (SubTodoPartial.status p) as [st|] eqn:Hs,
         p_created as [c|]; try (eexists _, _; repeat split; fail).
  all: exfalso; destruct Hcols as [Hcols|[Hcols|Hcols]]; try discriminate.
  all: try (rewrite Hcols in Ht; discriminate).
  all: rewrite Hcols in Hc; discriminate.
Qed.

(** X5. [SubTodo.create] stores no row without a title, a status and a
    creation date: when the title is absent or the empty string (it is
    passed as [title || null]), or the status or [createdAt] is absent, it
    throws, whatever the store does, and both tables hold the rows they
    held. *)
Theorem SubTodo_create_requires_columns (p : SubTodoPartial.t) (w : World.t) :
  SubTodoPartial.title p = None \/ SubTodoPartial.title p = Some ""
  \/ SubTodoPartial.status p = None \/ SubTodoPartial.createdAt p = None ->
  exists (e : Exn) (w' : World.t),
    SubTodo.create p w = (Throw e, w')
    /\ subtodos_rows (store w') = subtodos_rows (store w)
    /\ todos_rows (store w') = todos_rows (store w).
Proof.
  intros Hmissing. apply SubTodo_create_rejects.
  destruct Hmissing as [-> | [-> | [-> | ->]]]; auto.
Qed.

(** An empty title. *)
Lemma SubTodo_create_requires_columns_witness :
  exists (e : Exn) (w' : World.t),
    SubTodo.create
      {| SubTodoPartial.id := None; SubTodoPartial.title := Some "";
         SubTodoPartial.status := Some incomplete;
         SubTodoPartial.createdAt := Some (ValidDate 3000);
         SubTodoPartial.completedAt := None;
         SubTodoPartial.todoId := None |}
      (Sample.world Sample.store1 [])
    = (Throw e, w')
    /\ subtodos_rows (store w') = subtodos_rows (store (Sample.world Sample.store1 []))
    /\ todos_rows (store w') = todos_rows (store (Sample.world Sample.store1 [])).
Proof.
  apply (SubTodo_create_requires_columns
           {| SubTodoPartial.id := None; SubTodoPartial.title := Some "";
              SubTodoPartial.status := Some incomplete;
              SubTodoPartial.createdAt := Some (ValidDate 3000);
              SubTodoPartial.completedAt := None;
              SubTodoPartial.todoId := None |}).
  right. left. reflexivity.
Defined.

Lemma filter_find_none {A} (f : A -> bool) (l : list A) :
  List.find f (List.filter (fun x => negb (f x)) l) = None.
Proof.
  induction l as [|x l IH]; [reflexivity|]. cbn [List.filter].
  destruct (f x) eqn:E; cbn [negb]; [exact IH|].
  cbn [List.find]. now rewrite E.
Qed.

Lemma filter_find_some {A} (f : A -> bool) (l : list A) (x : A) :
  List.find f l = Some x -> exists l', List.filter f l = x :: l'.
Proof.
  induction l as [|y l IH]; [discriminate|]. cbn [List.find List.filter].
  destruct (f y); [intros [= ->]; now eexists|exact IH].
Qed.

Lemma SubTodo_delete_row_calm (w : World.t) (i : JSNumber) (z : Z) :
  pg_integer i = Some z -> Reading.calm (faults w) ->
  SubTodo.delete_row i w
  = (Return (List.filter (fun r => subtodos.id r =? z)
                         (subtodos_rows (store w))),
     set_store
       (SubTodo.set_subtodos
          (List.filter (fun r => negb (subtodos.id r =? z))
                       (subtodos_rows (store w)))
          (subtodos_id_seq (store w)) (store w))
       (pop_fault (record (Sql (Delete "subtodos")) w))).
Proof.
  intros Hz Hc. unfold SubTodo.delete_row.
  rewrite (bind_Return _ _ _ _ _ (sql_calm _ _ Hc)), Hz.
  reflexivity.
Qed.

(** X6. [delete()] on a stored subtodo while the store answers: it
    returns, the table has lost the rows of that id and no other, the todos
    are as before, [SubTodo.read] of the id now returns [null], and a
    second [delete()] throws "SubTodo not deleted". *)
Theorem SubTodo_delete_then_read (self : SubTodo.t) (w : World.t)
  (i : JSNumber) (z : Z) (row : subtodos.row) :
  SubTodoProps.id (SubTodo.props self) = Some i -> pg_integer i = Some z ->
  find_subtodo (store w) z = Some row ->
  Reading.calm (faults w) ->
  exists w1 : World.t,
    SubTodo.delete self w = (Return tt, w1)
    /\ subtodos_rows (store w1)
       = List.filter (fun r => negb (subtodos.id r =? z))
                     (subtodos_rows (store w))
    /\ todos_rows (store w1) = todos_rows (store w)
    /\ (SubTodo.read i w1).1 = Return None
    /\ (SubTodo.delete self w1).1 = Throw (Error "SubTodo not deleted").
Proof.
  intros Hid Hz Hrow Hcalm.
  pose proof (SubTodo_delete_row_calm w i z Hz Hcalm) as Hdel.
  set (w1 := set_store _ _) in Hdel.
  assert (Hc1 : Reading.calm (faults w1)) by apply calm_tail, Hcalm.
  assert (Hgone : find_subtodo (store w1) z = None).
  { unfold find_subtodo, w1.
    cbn [store set_store subtodos_rows SubTodo.set_subtodos].
    apply (filter_find_none (fun r => subtodos.id r =? z)). }
  exists w1. split; [|split; [reflexivity|split; [reflexivity|split]]].
  - unfold SubTodo.delete. rewrite Hid, (bind_Return _ _ _ _ _ Hdel).
    destruct (filter_find_some _ _ _ Hrow) as [l' ->]. reflexivity.
  - rewrite (SubTodo_read_calm w1 i z Hz Hc1), Hgone. reflexivity.
  - unfold SubTodo.delete.
    rewrite Hid, (bind_Return _ _ _ _ _ (SubTodo_delete_row_calm w1 i z Hz Hc1)).
    unfold find_subtodo in Hgone. rewrite <- filter_head in Hgone.
    destruct (List.filter _ (subtodos_rows (store w1))); [reflexivity|discriminate].
Qed.

(** Subtodo 1 of the sample store. *)
Lemma SubTodo_delete_then_read_witness :
  exists w1 : World.t,
    SubTodo.delete (SubTodo.of_row Sample.sub1) (Sample.world Sample.store2 [])
    = (Return tt, w1)
    /\ subtodos_rows (store w1)
       = List.filter (fun r => negb (subtodos.id r =? 1))
                     (subtodos_rows (store (Sample.world Sample.store2 [])))
    /\ todos_rows (store w1) = todos_rows (store (Sample.world Sample.store2 []))
    /\ (SubTodo.read (num_of_Z 1) w1).1 = Return None
    /\ (SubTodo.delete (SubTodo.of_row Sample.sub1) w1).1
       = Throw (Error "SubTodo not deleted").
Proof.
  apply (SubTodo_delete_then_read (SubTodo.of_row Sample.sub1)
           (Sample.world Sample.store2 []) (num_of_Z 1) 1 Sample.sub1).
  - reflexivity.
  - reflexivity.
  - reflexivity.
  - constructor.
Defined.

Lemma existsb_filter_negb {A} (f : A -> bool) (l : list A) :
  existsb f (List.filter (fun x => negb (f x)) l) = false.
Proof.
  induction l as [|x l IH]; [reflexivity|]. cbn [List.filter].
  destruct (f x) eqn:E; cbn [negb]; [exact IH|].
  cbn [existsb]. now rewrite E, IH.
Qed.

Lemma find_subtodo_replaced (z : Z) (r' : subtodos.row)
  (rows : list subtodos.row) :
  forall r, List.find (fun x => subtodos.id x =? z) rows = Some r ->
  subtodos.id r' = z ->
  List.find (fun x => subtodos.id x =? z)
    ((fun x => if subtodos.id x =? z then r' else x) <$> rows) = Some r'.
Proof.
  intros r Hf Hid. induction rows as [|x rows IH]; [discriminate|].
  cbn [List.find fmap list_fmap] in *.
  destruct (subtodos.id x =? z) eqn:E.
  - rewrite Hid, Z.eqb_refl. reflexivity.
  - rewrite E. apply IH. exact Hf.
Qed.

Lemma SubTodo_update_calm (self : SubTodo.t) (w : World.t) (i : JSNumber)
  (z : Z) (row : subtodos.row) (title : option string) (status : option Status)
  (completed : option Z) :
  SubTodoProps.id (SubTodo.props self) = Some i -> pg_integer i = Some z ->
  find_subtodo (store w) z = Some row ->
  Reading.calm (faults w) ->
  nullable pg_varchar255 (SubTodo.string_or_null title) <> None ->
  SubTodo.string_or_null title <> None \/ status <> None \/ completed <> None ->
  let u := {| SubTodoPartial.id := None; SubTodoPartial.title := title;
              SubTodoPartial.status := status;
              SubTodoPartial.createdAt := None;
              SubTodoPartial.completedAt := ValidDate <$> completed;
              SubTodoPartial.todoId := None |} in
  let row' := Reading.updated_subtodo (SubTodo.string_or_null title) status completed row in
  SubTodo.update self u w
  = (Return {| SubTodo.props := SubTodo.assign (SubTodo.props self) u |},
     set_store
       (SubTodo.set_subtodos
          ((fun x => if subtodos.id x =? z then row' else x)
             <$> subtodos_rows (store w))
          (subtodos_id_seq (store w)) (store w))
       (pop_fault (record (Sql (Update "subtodos")) w))).
Proof.
  intros Hid Hz Hrow Hcalm Hlen Hcol u row'.
  assert (Hno : SubTodo.no_column (SubTodo.toPartialEntity u) = false).
  { unfold SubTodo.toPartialEntity, u.
    cbn [SubTodoPartial.id SubTodoPartial.title SubTodoPartial.status
         SubTodoPartial.createdAt SubTodoPartial.completedAt
         SubTodoPartial.todoId SubTodo.number_or_null SubTodo.no_column].
    destruct (SubTodo.string_or_null title), status, completed; try reflexivity.
    destruct Hcol as [?|[?|?]]; congruence. }
  assert (Hv : nullable pg_varchar255 (SubTodo.string_or_null title)
               = Some (SubTodo.string_or_null title)).
  { destruct (SubTodo.string_or_null title) as [t|]; [|reflexivity].
    cbn [nullable] in *. unfold pg_varchar255 in *.
    now destruct (Z.of_nat (String.length t) <=? 255). }
  assert (Hcomp : nullable pg_timestamp (ValidDate <$> completed) = Some completed)
    by now destruct completed.
  unfold SubTodo.update. rewrite Hid.
  erewrite bind_Return.
  2:{ unfold SubTodo.update_row.
      rewrite (bind_Return _ _ _ _ _ (sql_calm _ _ Hcalm)), Hno.
      unfold SubTodo.toPartialEntity, u.
      cbn [SubTodoPartial.id SubTodoPartial.title SubTodoPartial.status
           SubTodoPartial.createdAt SubTodoPartial.completedAt
           SubTodoPartial.todoId SubTodo.number_or_null
           SubTodoPartialEntity.id SubTodoPartialEntity.title
           SubTodoPartialEntity.status SubTodoPartialEntity.created_at
           SubTodoPartialEntity.completed_at SubTodoPartialEntity.todo_id].
      rewrite Hv, Hcomp, Hz.
      cbn [nullable option_map].
      unfold param, bind, ret, db, set_db. rewrite store_pop_record, Hrow.
      cbn [default].
      rewrite (find_subtodo_id _ _ _ Hrow).
      rewrite (existsb_filter_negb (fun x => subtodos.id x =? z)).
      cbn [negb andb]. reflexivity. }
  unfold row', Reading.updated_subtodo. rewrite (find_subtodo_id _ _ _ Hrow).
  reflexivity.
Qed.

Lemma statements_record_Sql (st : Statement) (w : World.t) :
  statements (record (Sql st) w) = statements w ++ [st].
Proof. unfold statements, record. cbn [log]. now rewrite omap_app. Qed.

Lemma statements_record_Sent (p : Response.ResponseProps) (w : World.t) :
  statements (record (Sent p) w) = statements w.
Proof.
  unfold statements, record. cbn [log]. rewrite omap_app. cbn. apply app_nil_r.
Qed.

Lemma statements_set_res (r : Response.ServerResponse) (w : World.t) :
  statements (set_res r w) = statements w.
Proof. reflexivity. Qed.

Lemma statements_pop_fault (w : World.t) : statements (pop_fault w) = statements w.
Proof. reflexivity. Qed.

Lemma statements_set_store (d : Store.t) (w : World.t) :
  statements (set_store d w) = statements w.
Proof. reflexivity. Qed.

Create Rewrite HintDb statements.
#[local] Hint Rewrite @statements_set_res @statements_pop_fault
  @statements_set_store @statements_record_Sent @statements_record_Sql
  : statements.

(** X7. [markComplete()] on a stored subtodo while the store answers: it
    returns with status ["complete"] and [completedAt] the current time,
    in the instance and in the row, by one [UPDATE]; the title, the
    creation date, the todo and [edited_at] of the row are as before, and
    so is the table of todos. *)
Theorem SubTodo_markComplete_completes (self : SubTodo.t) (w : World.t)
  (i : JSNumber) (z : Z) (row : subtodos.row) :
  SubTodoProps.id (SubTodo.props self) = Some i -> pg_integer i = Some z ->
  find_subtodo (store w) z = Some row ->
  Reading.calm (faults w) ->
  exists (self' : SubTodo.t) (w1 : World.t) (row' : subtodos.row),
    SubTodo.markComplete self w = (Return self', w1)
    /\ SubTodoProps.status (SubTodo.props self') = complete
    /\ SubTodoProps.completedAt (SubTodo.props self')
       = Some (ValidDate (clock w))
    /\ find_subtodo (store w1) z = Some row'
    /\ row' = Reading.updated_subtodo None (Some complete) (Some (clock w)) row
    /\ subtodos.edited_at row' = subtodos.edited_at row
    /\ todos_rows (store w1) = todos_rows (store w)
    /\ statements w1 = statements w ++ [Update "subtodos"].
Proof.
  intros Hid Hz Hrow Hcalm.
  pose proof (SubTodo_update_calm self w i z row None (Some complete)
                (Some (clock w)) Hid Hz Hrow Hcalm ltac:(discriminate)
                ltac:(right; left; discriminate)) as Hupd.
  cbn zeta in Hupd.
  eexists _, _, _. split; [|split; [|split; [|split; [|split; [reflexivity|split; [|split]]]]]].
  - unfold SubTodo.markComplete, Date_now, bind. exact Hupd.
  - reflexivity.
  - reflexivity.
  - unfold find_subtodo in *. cbn [store set_store subtodos_rows SubTodo.set_subtodos].
    apply (find_subtodo_replaced z _ _ row Hrow).
    cbn [Reading.updated_subtodo subtodos.id]. exact (find_subtodo_id _ _ _ Hrow).
  - reflexivity.
  - reflexivity.
  - now autorewrite with statements.
Qed.

(** Subtodo 1 of the sample store, at time 5000. *)
Lemma SubTodo_markComplete_completes_witness :
  exists (self' : SubTodo.t) (w1 : World.t) (row' : subtodos.row),
    SubTodo.markComplete (SubTodo.of_row Sample.sub1)
      (Sample.world Sample.store2 [])
    = (Return self', w1)
    /\ SubTodoProps.status (SubTodo.props self') = complete
    /\ SubTodoProps.completedAt (SubTodo.props self')
       = Some (ValidDate (clock (Sample.world Sample.store2 [])))
    /\ find_subtodo (store w1) 1 = Some row'
    /\ row' = Reading.updated_subtodo None (Some complete)
                (Some (clock (Sample.world Sample.store2 []))) Sample.sub1
    /\ subtodos.edited_at row' = subtodos.edited_at Sample.sub1
    /\ todos_rows (store w1) = todos_rows (store (Sample.world Sample.store2 []))
    /\ statements w1
       = statements (Sample.world Sample.store2 []) ++ [Update "subtodos"].
Proof.
  apply (SubTodo_markComplete_completes (SubTodo.of_row Sample.sub1)
           (Sample.world Sample.store2 []) (num_of_Z 1) 1 Sample.sub1).
  - reflexivity.
  - reflexivity.
  - reflexivity.
  - constructor.
Defined.

(** X8. [update] with an empty title beside a status: [toPartialEntity]
    drops the empty title, so the row keeps its title and takes the status,
    while [Object.assign] gives the instance the empty title: instance and
    row differ afterwards. *)
Theorem SubTodo_update_empty_title (self : SubTodo.t) (w : World.t)
  (i : JSNumber) (z : Z) (row : subtodos.row) (st : Status) :
  SubTodoProps.id (SubTodo.props self) = Some i -> pg_integer i = Some z ->
  find_subtodo (store w) z = Some row ->
  Reading.calm (faults w) ->
  exists (self' : SubTodo.t) (w1 : World.t) (row' : subtodos.row),
    SubTodo.update self
      {| SubTodoPartial.id := None; SubTodoPartial.title := Some "";
         SubTodoPartial.status := Some st; SubTodoPartial.createdAt := None;
         SubTodoPartial.completedAt := None; SubTodoPartial.todoId := None |} w
    = (Return self', w1)
    /\ SubTodoProps.title (SubTodo.props self') = ""
    /\ SubTodoProps.status (SubTodo.props self') = st
    /\ find_subtodo (store w1) z = Some row'
    /\ subtodos.title row' = subtodos.title row
    /\ subtodos.status row' = st.
Proof.
  intros Hid Hz Hrow Hcalm.
  pose proof (SubTodo_update_calm self w i z row (Some "") (Some st) None
                Hid Hz Hrow Hcalm ltac:(discriminate)
                ltac:(right; left; discriminate)) as Hupd.
  cbn zeta in Hupd.
  eexists _, _, _. split; [exact Hupd|].
  split; [reflexivity|]. split; [reflexivity|].
  split.
  - unfold find_subtodo in *.
    cbn [store set_store subtodos_rows SubTodo.set_subtodos].
    apply (find_subtodo_replaced z _ _ row Hrow).
    cbn [Reading.updated_subtodo subtodos.id].
    exact (find_subtodo_id _ _ _ Hrow).
  - split; reflexivity.
Qed.

(** Subtodo 1 of the sample store. *)
Lemma SubTodo_update_empty_title_witness :
  exists (self' : SubTodo.t) (w1 : World.t) (row' : subtodos.row),
    SubTodo.update (SubTodo.of_row Sample.sub1)
      {| SubTodoPartial.id := None; SubTodoPartial.title := Some "";
         SubTodoPartial.status := Some complete;
         SubTodoPartial.createdAt := None;
         SubTodoPartial.completedAt := None; SubTodoPartial.todoId := None |}
      (Sample.world Sample.store2 [])
    = (Return self', w1)
    /\ SubTodoProps.title (SubTodo.props self') = ""
    /\ SubTodoProps.status (SubTodo.props self') = complete
    /\ find_subtodo (store w1) 1 = Some row'
    /\ subtodos.title row' = subtodos.title Sample.sub1
    /\ subtodos.status row' = complete.
Proof.
  apply (SubTodo_update_empty_title (SubTodo.of_row Sample.sub1)
           (Sample.world Sample.store2 []) (num_of_Z 1) 1 Sample.sub1 complete).
  - reflexivity.
  - reflexivity.
  - reflexivity.
  - constructor.
Defined.

(** ** [ORDER BY] *)

Lemma insert_sorted_perm {A} (leb : A -> A -> bool) (x : A) (l : list A) :
  insert_sorted leb x l ≡ₚ x :: l.
Proof.
  induction l as [|y l IH]; [reflexivity|]. cbn [insert_sorted].
  destruct (leb x y); [reflexivity|]. rewrite IH. apply Permutation_swap.
Qed.

Lemma sort_by_perm {A} (leb : A -> A -> bool) (l : list A) :
  sort_by leb l ≡ₚ l.
Proof.
  induction l as [|x l IH]; [reflexivity|]. cbn [sort_by fold_right].
  rewrite insert_sorted_perm. now apply Permutation_cons.
Qed.

Lemma order_by_perm `{Platform} {A} (key : A -> SortKey) (asc : bool)
  (l : list A) :
  order_by key asc l ≡ₚ l.
Proof. unfold order_by. destruct asc; apply sort_by_perm. Qed.

Lemma insert_sorted_Sorted {A} (leb : A -> A -> bool) (x : A) (l : list A) :
  (forall a b, leb a b = true \/ leb b a = true) ->
  Sorted (fun a b => leb a b = true) l ->
  Sorted (fun a b => leb a b = true) (insert_sorted leb x l).
Proof.
  intros Htotal Hl. induction Hl as [|y l Hl IH Hy]; cbn [insert_sorted].
  - repeat constructor.
  - destruct (leb x y) eqn:E.
    + constructor; [now constructor|now constructor].
    + constructor; [exact IH|].
      assert (Hyx : leb y x = true) by (destruct (Htotal x y); congruence).
      destruct Hy as [|z l' Hz]; cbn [insert_sorted].
      * now constructor.
      * destruct (leb x z); now constructor.
Qed.

Lemma sort_by_Sorted {A} (leb : A -> A -> bool) (l : list A) :
  (forall a b, leb a b = true \/ leb b a = true) ->
  Sorted (fun a b => leb a b = true) (sort_by leb l).
Proof.
  intros Htotal. induction l as [|x l IH]; cbn [sort_by fold_right].
  - constructor.
  - now apply insert_sorted_Sorted.
Qed.

Lemma key_leb_total `{Platform} (a b : SortKey) :
  (forall s t, collate_leb s t = true \/ collate_leb t s = true) ->
  key_leb a b = true \/ key_leb b a = true.
Proof.
  intros Hc. destruct a as [x|x|[x|]|[]], b as [y|y|[y|]|[]];
    cbn [key_leb Status_eqb negb orb]; auto.
  - destruct (Z.leb_spec x y); [now left|right]. apply Z.leb_le. lia.
  - destruct (Z.leb_spec x y); [now left|right]. apply Z.leb_le. lia.
Qed.

(** X9. [SubTodo.readAll] while the store answers: it returns one instance
    for each row of the status asked for (all rows when none is), holding
    every column of the row, [editedAt] included; in ascending order of
    creation when [sortBy] is ["createdAt"], and in the order of the table
    when there is no [sortBy]; the store is as before and the statements
    are reserve, select, release. *)
Theorem SubTodo_readAll_lists `{Platform} (status : option Status)
  (sortBy : option string) (w : World.t) :
  Reading.calm (faults w) ->
  let asked :=
    List.filter (fun r => match status with
                          | Some st => Status_eqb (subtodos.status r) st
                          | None => true
                          end) (subtodos_rows (store w)) in
  exists (rows : list subtodos.row) (w1 : World.t),
    SubTodo.readAll status sortBy w
    = (Return ((fun r => {| SubTodo.listed_props := SubTodo.snakeToCamel_row r |})
                 <$> rows), w1)
    /\ rows ≡ₚ asked
    /\ (sortBy = Some "createdAt" ->
        Sorted (fun a b => subtodos.created_at a <= subtodos.created_at b) rows)
    /\ (opt_string_truthy sortBy = false -> rows = asked)
    /\ store w1 = store w
    /\ statements w1 = statements w ++ [Reserve; Select "subtodos"; Release].
Proof.
  intros Hcalm asked.
  set (w1 := pop_fault (record (Sql Reserve) w)).
  assert (Hc1 : Reading.calm (faults w1)) by apply calm_tail, Hcalm.
  set (w2 := pop_fault (record (Sql (Select "subtodos")) w1)).
  assert (Hc2 : Reading.calm (faults w2)) by apply calm_tail, Hc1.
  assert (Hfilter : forall l : list subtodos.row,
            List.filter (fun _ => true) l = l).
  { induction l as [|x l IH]; [reflexivity|]. cbn. now rewrite IH. }
  assert (Hf : match status with
               | Some st => List.filter (fun r => Status_eqb (subtodos.status r) st)
                              (subtodos_rows (store w))
               | None => subtodos_rows (store w)
               end = asked).
  { unfold asked. destruct status; [reflexivity|]. now rewrite Hfilter. }
  eexists _, _. split; [|split; [|split; [|split; [|split]]]].
  - unfold SubTodo.readAll.
    rewrite (bind_Return _ _ _ _ _ (sql_calm _ _ Hcalm)). fold w1.
    rewrite (bind_Return _ _ _ _ _ (sql_calm _ _ Hc1)). fold w2.
    unfold bind at 1. unfold db.
    rewrite (bind_Return _ _ _ _ _ (sql_calm _ _ Hc2)).
    unfold ret. reflexivity.
  - change (store w2) with (store w). rewrite Hf.
    destruct (SubTodo.string_or_null sortBy) as [s|]; [|reflexivity].
    destruct (String.eqb_spec s "createdAt") as [->|Hs].
    + apply order_by_perm.
    + repeat (destruct s as [|[b0 b1 b2 b3 b4 b5 b6 b7] s]; [reflexivity|];
              destruct b0; try reflexivity; destruct b1; try reflexivity;
              destruct b2; try reflexivity; destruct b3; try reflexivity;
              destruct b4; try reflexivity; destruct b5; try reflexivity;
              destruct b6; try reflexivity; destruct b7; try reflexivity).
      destruct s; [now destruct Hs|reflexivity].
  - intros ->. cbn [SubTodo.string_or_null string_truthy].
    unfold order_by.
    eapply Sorted_ind with (P := fun l => Sorted _ l);
      [constructor| |apply (sort_by_Sorted
         (fun a b => key_leb (KTime (Some (subtodos.created_at a)))
                             (KTime (Some (subtodos.created_at b)))))].
    + intros a l _ IH Hd. constructor; [exact IH|].
      destruct Hd; constructor. cbn [key_leb] in *. now apply Z.leb_le.
    + intros a b. cbn [key_leb].
      destruct (Z.leb_spec (subtodos.created_at a) (subtodos.created_at b));
        [now left|right]. apply Z.leb_le. lia.
  - intros Hnone. change (store w2) with (store w). rewrite Hf.
    assert (Hs : SubTodo.string_or_null sortBy = None).
    { destruct sortBy as [s|]; [|reflexivity]. cbn [SubTodo.string_or_null].
      cbn [opt_string_truthy] in Hnone. now rewrite Hnone. }
    now rewrite Hs.
  - reflexivity.
  - unfold w2, w1. now autorewrite with statements; rewrite <- !app_assoc.
Qed.

(** The incomplete subtodos of the sample store of four subtodos, by
    creation date. *)
Lemma SubTodo_readAll_lists_witness :
  let w := Sample.world Sample.store3 [] in
  exists (rows : list subtodos.row) (w1 : World.t),
    SubTodo.readAll (H := Sample.platform) (Some incomplete) (Some "createdAt")
      w
    = (Return ((fun r => {| SubTodo.listed_props := SubTodo.snakeToCamel_row r |})
                 <$> rows), w1)
    /\ rows ≡ₚ [Sample.sub1; Sample.sub3; Sample.sub4]
    /\ (Some "createdAt" = Some "createdAt" ->
        Sorted (fun a b => subtodos.created_at a <= subtodos.created_at b) rows)
    /\ (opt_string_truthy (Some "createdAt") = false ->
        rows = [Sample.sub1; Sample.sub3; Sample.sub4])
    /\ store w1 = store w
    /\ statements w1 = statements w ++ [Reserve; Select "subtodos"; Release].
Proof.
  intros w.
  apply (SubTodo_readAll_lists (H := Sample.platform) (Some incomplete)
           (Some "createdAt") w).
  constructor.
Defined.

(** What that call returns: the subtodos 3, 4 and 1, and with each the
    date of its last edit. *)
Lemma SubTodo_readAll_sample :
  (SubTodo.readAll (H := Sample.platform) (Some incomplete) (Some "createdAt")
     (Sample.world Sample.store3 [])).1
  = Return
      [{| SubTodo.listed_props :=
            {| SubTodoRow.id := num_of_Z 3; SubTodoRow.title := "Whole";
               SubTodoRow.status := incomplete;
               SubTodoRow.createdAt := ValidDate 600;
               SubTodoRow.completedAt := None; SubTodoRow.editedAt := None;
               SubTodoRow.todoId := Some (num_of_Z 1) |} |};
       {| SubTodo.listed_props :=
            {| SubTodoRow.id := num_of_Z 4; SubTodoRow.title := "Figures";
               SubTodoRow.status := incomplete;
               SubTodoRow.createdAt := ValidDate 1100;
               SubTodoRow.completedAt := None;
               SubTodoRow.editedAt := Some (ValidDate 1150);
               SubTodoRow.todoId := Some (num_of_Z 2) |} |};
       {| SubTodo.listed_props :=
            {| SubTodoRow.id := num_of_Z 1; SubTodoRow.title := "Skimmed";
               SubTodoRow.status := incomplete;
               SubTodoRow.createdAt := ValidDate 1500;
               SubTodoRow.completedAt := None; SubTodoRow.editedAt := None;
               SubTodoRow.todoId := Some (num_of_Z 1) |} |}].
Proof. reflexivity. Qed.


(** X11. [Todo.readAll] with a non-empty [sortBy] while the store
    answers (the collation being a total order): it returns the rows of the
    status asked for (all rows when none is), each once, sorted by the
    column [getSortBy] gives, ascending when [orderBy] is ["asc"] or empty
    and descending otherwise; the store is as before and the statements are
    reserve, select, release. *)
Theorem Todo_readAll_lists `{Platform} (status : option Status)
  (sortBy orderBy : string) (w : World.t) :
  (forall s t, collate_leb s t = true \/ collate_leb t s = true) ->
  sortBy <> "" ->
  Reading.calm (faults w) ->
  exists (rows : list todos.row) (w1 : World.t),
    Todo.readAll status (Some sortBy) (Some orderBy) w
    = (Return ((fun r => {| Todo.props := Todo.of_row r |}) <$> rows), w1)
    /\ rows ≡ₚ List.filter
                 (fun r => match status with
                           | Some st => Status_eqb (todos.status r) st
                           | None => true
                           end) (todos_rows (store w))
    /\ Sorted (fun a b =>
                 if (orderBy =? "asc")%string || (orderBy =? "")%string
                 then key_leb (Todo.getSortBy sortBy a) (Todo.getSortBy sortBy b)
                      = true
                 else key_leb (Todo.getSortBy sortBy b) (Todo.getSortBy sortBy a)
                      = true) rows
    /\ store w1 = store w
    /\ statements w1 = statements w ++ [Reserve; Select "todos"; Release].
Proof.
  intros Hcollate Hsort Hcalm.
  apply string_truthy_iff in Hsort.
  set (w1 := pop_fault (record (Sql Reserve) w)).
  assert (Hc1 : Reading.calm (faults w1)) by apply calm_tail, Hcalm.
  set (w2 := pop_fault (record (Sql (Select "todos")) w1)).
  assert (Hc2 : Reading.calm (faults w2)) by apply calm_tail, Hc1.
  assert (Hfilter : forall l : list todos.row, List.filter (fun _ => true) l = l).
  { induction l as [|x l IH]; [reflexivity|]. cbn. now rewrite IH. }
  set (asc := (orderBy =? "asc")%string || (orderBy =? "")%string).
  assert (Hasc : (if opt_string_truthy (Some orderBy)
                  then Todo.getOrderBy (default "" (Some orderBy)) else true)
                 = asc).
  { unfold asc, Todo.getOrderBy. cbn [opt_string_truthy default].
    destruct orderBy as [|c s]; [reflexivity|].
    cbn [string_truthy]. now rewrite orb_false_r. }
  set (filtered := match status with
                   | Some st =>
                       List.filter (fun r => Status_eqb (todos.status r) st)
                                   (todos_rows (store w))
                   | None => todos_rows (store w)
                   end).
  exists (order_by (Todo.getSortBy sortBy) asc filtered),
         (pop_fault (record (Sql Release) w2)).
  split; [|split; [|split; [|split]]].
  - unfold Todo.readAll.
    rewrite (bind_Return _ _ _ _ _ (sql_calm _ _ Hcalm)). fold w1.
    rewrite (bind_Return _ _ _ _ _ (sql_calm _ _ Hc1)). fold w2.
    unfold bind at 1. unfold db.
    change (store w2) with (store w). fold filtered.
    rewrite Hasc. cbn [opt_string_truthy default]. rewrite Hsort.
    unfold bind at 1. unfold ret at 1.
    rewrite (bind_Return _ _ _ _ _ (sql_calm _ _ Hc2)).
    reflexivity.
  - rewrite order_by_perm. unfold filtered.
    destruct status; [reflexivity|]. now rewrite Hfilter.
  - unfold order_by. destruct asc.
    + apply (sort_by_Sorted
               (fun a b => key_leb (Todo.getSortBy sortBy a)
                                   (Todo.getSortBy sortBy b))).
      intros a b. now apply key_leb_total.
    + apply (sort_by_Sorted
               (fun a b => key_leb (Todo.getSortBy sortBy b)
                                   (Todo.getSortBy sortBy a))).
      intros a b. now apply key_leb_total.
  - reflexivity.
  - unfold w2, w1. now autorewrite with statements; rewrite <- !app_assoc.
Qed.

(** The incomplete todos of the sample store of three todos, by title. *)
Lemma Todo_readAll_lists_witness :
  let w := Sample.world Sample.store3 [] in
  exists (rows : list todos.row) (w1 : World.t),
    Todo.readAll (H := Sample.platform) (Some incomplete) (Some "title")
      (Some "asc") w
    = (Return ((fun r => {| Todo.props := Todo.of_row r |}) <$> rows), w1)
    /\ rows ≡ₚ [Sample.todo2; Sample.todo3]
    /\ Sorted (fun a b =>
                 if ("asc" =? "asc")%string || ("asc" =? "")%string
                 then key_leb (H := Sample.platform)
                        (Todo.getSortBy "title" a) (Todo.getSortBy "title" b)
                      = true
                 else key_leb (H := Sample.platform)
                        (Todo.getSortBy "title" b) (Todo.getSortBy "title" a)
                      = true)
              rows
    /\ store w1 = store w
    /\ statements w1 = statements w ++ [Reserve; Select "todos"; Release].
Proof.
  intros w.
  apply (Todo_readAll_lists (H := Sample.platform) (Some incomplete) "title"
           "asc" w).
  - intros s t. cbn [collate_leb Sample.platform]. unfold String.leb.
    rewrite (String.compare_antisym s t).
    destruct (String.compare t s); cbn; auto.
  - discriminate.
  - constructor.
Defined.

(** What that call returns, "Call Ann" before "Write report", and what the
    three todos give by creation date, the latest first. *)
Lemma Todo_readAll_sample :
  let w := Sample.world Sample.store3 [] in
  let instance r := {| Todo.props := Todo.of_row r |} in
  (Todo.readAll (H := Sample.platform) (Some incomplete) (Some "title")
     (Some "asc") w).1
  = Return [instance Sample.todo3; instance Sample.todo2]
  /\ (Todo.readAll (H := Sample.platform) None (Some "createdAt")
        (Some "desc") w).1
     = Return [instance Sample.todo1; instance Sample.todo3;
               instance Sample.todo2].
Proof. split; reflexivity. Qed.


(** ** models/Todo.ts while the store answers *)

Lemma sql_ok (st : Statement) (w : World.t) (fs : list bool) :
  faults w = false :: fs ->
  sql st w = (Return tt, pop_fault (record (Sql st) w)).
Proof. intros Hf. unfold sql. now rewrite Hf. Qed.

Lemma pg_integer_range (n : JSNumber) (z : Z) :
  pg_integer n = Some z -> - 2 ^ 31 <= z < 2 ^ 31.
Proof.
  destruct n as [| |q]; try discriminate. unfold pg_integer.
  destruct (Pos.eqb (Qden q) 1); [|discriminate].
  destruct (Z.leb_spec (- 2 ^ 31) (Qnum q)); [|discriminate].
  destruct (Z.ltb_spec (Qnum q) (2 ^ 31)); [|discriminate].
  cbn [andb]. intros [= <-]. lia.
Qed.

Lemma SubTodo_readByTodoId_calm (w : World.t) (i : JSNumber) (z : Z) :
  pg_integer i = Some z -> Reading.calm (faults w) ->
  SubTodo.readByTodoId i w
  = (Return (SubTodo.of_row <$>
             List.filter (fun r => bool_decide (subtodos.todo_id r = Some z))
                         (subtodos_rows (store w))),
     pop_fault (record (Sql (Select "subtodos")) w)).
Proof.
  intros Hz Hc. unfold SubTodo.readByTodoId.
  rewrite (bind_Return _ _ _ _ _ (sql_calm _ _ Hc)), Hz. reflexivity.
Qed.

Lemma Todo_read_calm (w : World.t) (i : JSNumber) (z : Z)
  (row : todos.row) :
  pg_integer i = Some z -> find_todo (store w) z = Some row ->
  Reading.calm (faults w) ->
  Todo.read i w
  = (Return (Some {| Todo.props :=
                       Todo.with_subTodos (Todo.of_row row)
                         (SubTodo.of_row <$>
                          List.filter
                            (fun r => bool_decide (subtodos.todo_id r = Some z))
                            (subtodos_rows (store w))) |}),
     pop_fault (record (Sql (Select "subtodos"))
       (pop_fault (record (Sql Release)
          (pop_fault (record (Sql (Select "todos"))
             (pop_fault (record (Sql Reserve) w)))))))).
Proof.
  intros Hz Hrow Hcalm.
  set (w1 := pop_fault (record (Sql Reserve) w)).
  assert (Hc1 : Reading.calm (faults w1)) by apply calm_tail, Hcalm.
  set (w2 := pop_fault (record (Sql (Select "todos")) w1)).
  assert (Hc2 : Reading.calm (faults w2)) by apply calm_tail, Hc1.
  set (w3 := pop_fault (record (Sql Release) w2)).
  assert (Hc3 : Reading.calm (faults w3)) by apply calm_tail, Hc2.
  unfold Todo.read.
  rewrite (bind_Return _ _ _ _ _ (sql_calm _ _ Hcalm)). fold w1.
  rewrite (bind_Return _ _ _ _ _ (sql_calm _ _ Hc1)). fold w2.
  rewrite Hz. unfold param at 1. unfold bind at 1. unfold ret at 1.
  unfold bind at 1. unfold db.
  rewrite (bind_Return _ _ _ _ _ (sql_calm _ _ Hc2)). fold w3.
  change (store w2) with (store w).
  unfold find_todo in Hrow. rewrite <- filter_head in Hrow.
  destruct (List.filter _ (todos_rows (store w))) as [|r rs]; [discriminate|].
  injection Hrow as ->.
  rewrite (bind_Return _ _ _ _ _ (SubTodo_readByTodoId_calm w3 i z Hz Hc3)).
  reflexivity.
Qed.

Lemma Todo_read_missing (w : World.t) (i : JSNumber) (z : Z) :
  pg_integer i = Some z -> find_todo (store w) z = None ->
  Reading.calm (faults w) ->
  Todo.read i w
  = (Return None,
     pop_fault (record (Sql Release)
       (pop_fault (record (Sql (Select "todos"))
          (pop_fault (record (Sql Reserve) w)))))).
Proof.
  intros Hz Hrow Hcalm.
  set (w1 := pop_fault (record (Sql Reserve) w)).
  assert (Hc1 : Reading.calm (faults w1)) by apply calm_tail, Hcalm.
  set (w2 := pop_fault (record (Sql (Select "todos")) w1)).
  assert (Hc2 : Reading.calm (faults w2)) by apply calm_tail, Hc1.
  unfold Todo.read.
  rewrite (bind_Return _ _ _ _ _ (sql_calm _ _ Hcalm)). fold w1.
  rewrite (bind_Return _ _ _ _ _ (sql_calm _ _ Hc1)). fold w2.
  rewrite Hz. unfold param at 1. unfold bind at 1. unfold ret at 1.
  unfold bind at 1. unfold db.
  rewrite (bind_Return _ _ _ _ _ (sql_calm _ _ Hc2)).
  change (store w2) with (store w).
  unfold find_todo in Hrow. rewrite <- filter_head in Hrow.
  destruct (List.filter _ (todos_rows (store w))) as [|r rs]; [|discriminate].
  reflexivity.
Qed.

Lemma Todo_create_calm `{Platform} (w : World.t) (title description : string)
  (st : Status) (due : option Z) (c : Z) :
  (String.length title <= 255)%nat ->
  find_todo (store w) (todos_id_seq (store w)) = None ->
  Reading.calm (faults w) ->
  let row := {| todos.id := todos_id_seq (store w); todos.title := title;
                todos.description := description; todos.status := st;
                todos.due_at := due; todos.created_at := c;
                todos.completed_at := None; todos.edited_at := None |} in
  Todo.create
    {| TodoProps.id := None; TodoProps.title := JStr title;
       TodoProps.description := JStr description; TodoProps.status := st;
       TodoProps.dueAt := ValidDate <$> due;
       TodoProps.createdAt := Some (ValidDate c);
       TodoProps.completedAt := None; TodoProps.editedAt := None;
       TodoProps.subTodos := None |} w
  = (Return {| Todo.props := Todo.of_row row |},
     pop_fault (record (Sql Release)
       (set_store
          (Todo.set_todos (todos_rows (store w) ++ [row])
             (todos_id_seq (store w) + 1) (store w))
          (pop_fault (record (Sql (Insert "todos"))
             (pop_fault (record (Sql Reserve) w))))))).
Proof.
  intros Hlen Hfresh Hcalm row.
  set (w1 := pop_fault (record (Sql Reserve) w)).
  assert (Hc1 : Reading.calm (faults w1)) by apply calm_tail, Hcalm.
  set (w2 := pop_fault (record (Sql (Insert "todos")) w1)).
  assert (Hc2 : Reading.calm (faults w2)) by apply calm_tail, Hc1.
  assert (Hdue : nullable pg_timestamp (ValidDate <$> due) = Some due)
    by now destruct due.
  unfold Todo.create.
  rewrite (bind_Return _ _ _ _ _ (sql_calm _ _ Hcalm)). fold w1.
  cbn [TodoProps.createdAt]. unfold bind at 1. unfold ret at 1.
  erewrite bind_Return.
  2:{ unfold Todo.insert.
      rewrite (bind_Return _ _ _ _ _ (sql_calm _ _ Hc1)). fold w2.
      cbn [TodoProps.subTodos TodoProps.id TodoProps.title
           TodoProps.description TodoProps.dueAt TodoProps.completedAt
           TodoProps.editedAt TodoProps.status].
      rewrite Hdue.
      cbn [nullable option_map pg_timestamp Todo.text_column pg_text fmap
           option_fmap].
      unfold param, bind, ret, db, set_db. cbn [default nullable].
      rewrite (pg_varchar255_short _ Hlen). cbn [option_map].
      change (store w2) with (store w). rewrite Hfresh.
      rewrite bool_decide_eq_false_2 by (intros [? ?]; discriminate).
      reflexivity. }
  set (w3 := set_store _ _).
  assert (Hc3 : Reading.calm (faults w3)) by apply calm_tail, Hc1.
  rewrite (bind_Return _ _ _ _ _ (sql_calm _ _ Hc3)). reflexivity.
Qed.

(** X10. [Todo.create] and then [Todo.read]. With a title of at most 255
    characters and valid dates, on a store that answers and whose sequence
    is ahead of the ids in use, [create] returns an instance that carries
    the next id of the sequence and the values given, between a reserve and
    a release; [read] of that id then returns these props with an empty
    list of subtodos. *)
Theorem Todo_create_then_read `{Platform} (w : World.t)
  (title description : string) (st : Status) (due : option Z) (c : Z) :
  (String.length title <= 255)%nat ->
  Forall (fun r => todos.id r < todos_id_seq (store w)) (todos_rows (store w)) ->
  Forall (fun r => subtodos.todo_id r <> Some (todos_id_seq (store w)))
         (subtodos_rows (store w)) ->
  - 2 ^ 31 <= todos_id_seq (store w) < 2 ^ 31 ->
  Reading.calm (faults w) ->
  exists (todo : Todo.t) (w1 w2 : World.t),
    Todo.create
      {| TodoProps.id := None; TodoProps.title := JStr title;
         TodoProps.description := JStr description; TodoProps.status := st;
         TodoProps.dueAt := ValidDate <$> due;
         TodoProps.createdAt := Some (ValidDate c);
         TodoProps.completedAt := None; TodoProps.editedAt := None;
         TodoProps.subTodos := None |} w
    = (Return todo, w1)
    /\ Todo.props todo
       = {| TodoProps.id := Some (num_of_Z (todos_id_seq (store w)));
            TodoProps.title := JStr title;
            TodoProps.description := JStr description; TodoProps.status := st;
            TodoProps.dueAt := ValidDate <$> due;
            TodoProps.createdAt := Some (ValidDate c);
            TodoProps.completedAt := None; TodoProps.editedAt := None;
            TodoProps.subTodos := None |}
    /\ Todo.read (num_of_Z (todos_id_seq (store w))) w1
       = (Return (Some {| Todo.props := Todo.with_subTodos (Todo.props todo) [] |}),
          w2)
    /\ statements w1 = statements w ++ [Reserve; Insert "todos"; Release].
Proof.
  intros Hlen Hfresh Hsubs Hseq Hcalm.
  set (seq := todos_id_seq (store w)) in *.
  assert (Hnone : find_todo (store w) seq = None).
  { unfold find_todo. apply find_none_Forall.
    eapply Forall_impl; [exact Hfresh|]. cbn beta. intros r Hr.
    apply Z.eqb_neq. lia. }
  pose proof (Todo_create_calm w title description st due c Hlen Hnone Hcalm)
    as Hcreate.
  cbn zeta in Hcreate. fold seq in Hcreate.
  set (row := {| todos.id := seq; todos.title := title |}) in Hcreate.
  set (w1 := pop_fault (record (Sql Release) _)) in Hcreate.
  assert (Hc1 : Reading.calm (faults w1)) by (do 3 apply calm_tail; exact Hcalm).
  assert (Hfind : find_todo (store w1) seq = Some row).
  { unfold find_todo, w1.
    cbn [store set_store pop_fault record todos_rows Todo.set_todos].
    apply find_app_fresh.
    - eapply Forall_impl; [exact Hfresh|]. cbn beta. intros r Hr.
      apply Z.eqb_neq. lia.
    - apply Z.eqb_refl. }
  pose proof (Todo_read_calm w1 (num_of_Z seq) seq row
                (pg_integer_num_of_Z seq Hseq) Hfind Hc1) as Hread.
  assert (Hempty : List.filter
                     (fun r => bool_decide (subtodos.todo_id r = Some seq))
                     (subtodos_rows (store w1)) = []).
  { change (subtodos_rows (store w1)) with (subtodos_rows (store w)).
    induction Hsubs as [|r rs Hr _ IH]; [reflexivity|]. cbn [List.filter].
    now rewrite bool_decide_eq_false_2. }
  rewrite Hempty in Hread.
  eexists _, w1, _. split; [exact Hcreate|]. split; [reflexivity|].
  split; [exact Hread|].
  unfold w1. now autorewrite with statements; rewrite <- !app_assoc.
Qed.

(** A second todo in the sample store. *)
Lemma Todo_create_then_read_witness :
  exists (todo : Todo.t) (w1 w2 : World.t),
    Todo.create (H := Sample.platform)
      {| TodoProps.id := None; TodoProps.title := JStr "Call";
         TodoProps.description := JStr "the bank";
         TodoProps.status := incomplete;
         TodoProps.dueAt := ValidDate <$> Some 9000;
         TodoProps.createdAt := Some (ValidDate 3000);
         TodoProps.completedAt := None; TodoProps.editedAt := None;
         TodoProps.subTodos := None |} (Sample.world Sample.store2 [])
    = (Return todo, w1)
    /\ Todo.props todo
       = {| TodoProps.id :=
              Some (num_of_Z (todos_id_seq (store (Sample.world Sample.store2 []))));
            TodoProps.title := JStr "Call";
            TodoProps.description := JStr "the bank";
            TodoProps.status := incomplete;
            TodoProps.dueAt := ValidDate <$> Some 9000;
            TodoProps.createdAt := Some (ValidDate 3000);
            TodoProps.completedAt := None; TodoProps.editedAt := None;
            TodoProps.subTodos := None |}
    /\ Todo.read
         (num_of_Z (todos_id_seq (store (Sample.world Sample.store2 [])))) w1
       = (Return (Some {| Todo.props := Todo.with_subTodos (Todo.props todo) [] |}),
          w2)
    /\ statements w1
       = statements (Sample.world Sample.store2 [])
         ++ [Reserve; Insert "todos"; Release].
Proof.
  apply (Todo_create_then_read (H := Sample.platform)
           (Sample.world Sample.store2 []) "Call" "the bank" incomplete
           (Some 9000) 3000).
  - simpl. lia.
  - repeat constructor.
  - repeat constructor. discriminate.
  - simpl. lia.
  - constructor.
Defined.

Lemma filter_negb_find_none {A} (f : A -> bool) (l : list A) :
  List.find f l = None -> List.filter (fun x => negb (f x)) l = l.
Proof.
  induction l as [|x l IH]; [reflexivity|]. cbn [List.find List.filter].
  destruct (f x); [discriminate|]. intros Hf. cbn [negb]. now rewrite IH.
Qed.

(** With unique ids, the rows other than the one found are one fewer. *)
Lemma filter_negb_unique (z : Z) (rows : list todos.row) (row : todos.row) :
  NoDup (todos.id <$> rows) ->
  List.find (fun r => todos.id r =? z) rows = Some row ->
  Z.of_nat (length rows)
  - Z.of_nat (length (List.filter (fun r => negb (todos.id r =? z)) rows)) = 1.
Proof.
  induction rows as [|x rows IH]; [discriminate|].
  rewrite fmap_cons, NoDup_cons. intros [Hx Hnd].
  cbn [List.find List.filter].
  destruct (Z.eqb_spec (todos.id x) z) as [Heq|Hne]; cbn [negb].
  - intros _.
    rewrite (filter_negb_find_none (fun r => todos.id r =? z)).
    + cbn [length]. lia.
    + apply find_none_Forall. apply Forall_forall. intros r Hr.
      apply Z.eqb_neq. intros Hrz. apply Hx. rewrite Heq, <- Hrz.
      now apply list_elem_of_fmap_2.
  - intros Hf. specialize (IH Hnd Hf). cbn [length]. lia.
Qed.

Lemma Todo_delete_calm (self : Todo.t) (w : World.t) (i : JSNumber) (z : Z) :
  TodoProps.id (Todo.props self) = Some i -> pg_integer i = Some z ->
  NoDup (todos.id <$> todos_rows (store w)) ->
  Reading.calm (faults w) ->
  Todo.delete self w
  = (Return (bool_decide (is_Some (find_todo (store w) z))),
     pop_fault (record (Sql Release)
       (set_store (Reading.without_todo z (store w))
          (pop_fault (record (Sql (Delete "todos"))
             (pop_fault (record (Sql Reserve) w))))))).
Proof.
  intros Hid Hz Hnd Hcalm.
  set (w1 := pop_fault (record (Sql Reserve) w)).
  assert (Hc1 : Reading.calm (faults w1)) by apply calm_tail, Hcalm.
  set (w2 := pop_fault (record (Sql (Delete "todos")) w1)).
  assert (Hc2 : Reading.calm (faults w2)) by apply calm_tail, Hc1.
  set (kept := List.filter (fun r => negb (todos.id r =? z))
                           (todos_rows (store w))).
  set (count := Z.of_nat (length (todos_rows (store w)))
                - Z.of_nat (length kept)).
  assert (Hcount : count = if bool_decide (is_Some (find_todo (store w) z))
                           then 1 else 0).
  { unfold count, kept. destruct (find_todo (store w) z) as [row|] eqn:Hf.
    - rewrite bool_decide_eq_true_2 by now eexists.
      now apply (filter_negb_unique z _ row).
    - rewrite bool_decide_eq_false_2 by (intros [? ?]; discriminate).
      unfold find_todo in Hf.
      rewrite (filter_negb_find_none (fun r => todos.id r =? z) _ Hf). lia. }
  set (w3 := set_store (Reading.without_todo z (store w)) w2).
  assert (Hc3 : Reading.calm (faults w3)) by apply calm_tail, Hc1.
  unfold Todo.delete.
  rewrite (bind_Return _ _ _ _ _ (sql_calm _ _ Hcalm)). fold w1.
  rewrite (bind_Return _ _ w1 w3 count).
  2:{ unfold Todo.delete_row.
      rewrite (bind_Return _ _ _ _ _ (sql_calm _ _ Hc1)). fold w2.
      rewrite Hid. cbn [mbind option_bind]. rewrite Hz.
      unfold param, bind, ret, db, set_db. cbv zeta.
      change (store w2) with (store w). fold kept.
      change (Z.of_nat (length (todos_rows (store w)))
              - Z.of_nat (length kept)) with count.
      unfold w3, Reading.without_todo. fold kept. rewrite Hcount.
      now destruct (bool_decide (is_Some (find_todo (store w) z))). }
  rewrite (bind_Return _ _ _ _ _ (sql_calm _ _ Hc3)).
  unfold ret. rewrite Hcount.
  now destruct (bool_decide (is_Some (find_todo (store w) z))).
Qed.

(** X12. [delete()] of a todo while the store answers, ids being unique:
    it returns [true] exactly when a todo of that id was stored; afterwards
    none is, the other todos are all there, the subtodos of a deleted todo
    are gone with it (ON DELETE CASCADE) and no other subtodo is; the
    statements are reserve, delete, release. *)
Theorem Todo_delete_cascades (self : Todo.t) (w : World.t)
  (i : JSNumber) (z : Z) :
  TodoProps.id (Todo.props self) = Some i -> pg_integer i = Some z ->
  NoDup (todos.id <$> todos_rows (store w)) ->
  Reading.calm (faults w) ->
  exists w1 : World.t,
    Todo.delete self w
    = (Return (bool_decide (is_Some (find_todo (store w) z))), w1)
    /\ find_todo (store w1) z = None
    /\ todos_rows (store w1)
       = List.filter (fun r => negb (todos.id r =? z)) (todos_rows (store w))
    /\ subtodos_rows (store w1)
       = (if bool_decide (is_Some (find_todo (store w) z))
          then List.filter
                 (fun r => negb (bool_decide (subtodos.todo_id r = Some z)))
                 (subtodos_rows (store w))
          else subtodos_rows (store w))
    /\ statements w1 = statements w ++ [Reserve; Delete "todos"; Release].
Proof.
  intros Hid Hz Hnd Hcalm.
  eexists. split; [exact (Todo_delete_calm self w i z Hid Hz Hnd Hcalm)|].
  split; [|split; [reflexivity|split; [reflexivity|]]].
  - apply (filter_find_none (fun r => todos.id r =? z)).
  - now autorewrite with statements; rewrite <- !app_assoc.
Qed.

(** Todo 1 of the sample store, which has one subtodo. *)
Lemma Todo_delete_cascades_witness :
  exists w1 : World.t,
    Todo.delete {| Todo.props := Todo.of_row Sample.todo1 |}
      (Sample.world Sample.store2 [])
    = (Return (bool_decide
                 (is_Some (find_todo (store (Sample.world Sample.store2 [])) 1))),
       w1)
    /\ find_todo (store w1) 1 = None
    /\ todos_rows (store w1)
       = List.filter (fun r => negb (todos.id r =? 1))
                     (todos_rows (store (Sample.world Sample.store2 [])))
    /\ subtodos_rows (store w1)
       = (if bool_decide
               (is_Some (find_todo (store (Sample.world Sample.store2 [])) 1))
          then List.filter
                 (fun r => negb (bool_decide (subtodos.todo_id r = Some 1)))
                 (subtodos_rows (store (Sample.world Sample.store2 [])))
          else subtodos_rows (store (Sample.world Sample.store2 [])))
    /\ statements w1
       = statements (Sample.world Sample.store2 [])
         ++ [Reserve; Delete "todos"; Release].
Proof.
  apply (Todo_delete_cascades
           {| Todo.props := Todo.of_row Sample.todo1 |}
           (Sample.world Sample.store2 []) (num_of_Z 1) 1).
  - reflexivity.
  - reflexivity.
  - repeat constructor. apply not_elem_of_nil.
  - constructor.
Defined.

(** X13. No method of [Todo] releases its connection when its statement
    fails. If the store answers [reserve()] and fails the statement that
    follows, each of [create], [read], [readAll], [update] and [delete]
    throws with the connection reserved and never released, the tables
    being as before. *)
Theorem Todo_failed_statement_leaks `{Platform} (w : World.t) (fs : list bool)
  (self : Todo.t) (p : TodoProps.t) (u : TodoPartial.t) (i : JSNumber)
  (status : option Status) (sortBy orderBy : option string) :
  faults w = false :: true :: fs ->
  Reading.leaks_connection (Todo.create p) (Insert "todos") w
  /\ Reading.leaks_connection (Todo.read i) (Select "todos") w
  /\ Reading.leaks_connection (Todo.readAll status sortBy orderBy)
       (Select "todos") w
  /\ Reading.leaks_connection (Todo.update self u) (Update "todos") w
  /\ Reading.leaks_connection (Todo.delete self) (Delete "todos") w.
Proof.
  intros Hf.
  set (w1 := pop_fault (record (Sql Reserve) w)).
  assert (Hf1 : faults w1 = true :: fs) by (unfold w1; cbn; now rewrite Hf).
  pose proof (sql_ok Reserve w _ Hf) as Hreserve. fold w1 in Hreserve.
  assert (Hst : forall st,
            statements (pop_fault (record (Sql st) w1))
            = statements w ++ [Reserve; st]).
  { intros st. unfold w1. autorewrite with statements.
    now rewrite <- app_assoc. }
  assert (Hnow : Todo.createUTCDate_now w1
                 = (Return (createUTCDate (ValidDate (clock w1))), w1))
    by reflexivity.
  unfold Reading.leaks_connection.
  split; [|split; [|split; [|split]]]; eexists _, _.
  - split; [|split; [apply Hst|reflexivity]].
    unfold Todo.create. rewrite (bind_Return _ _ _ _ _ Hreserve).
    destruct (TodoProps.createdAt p) as [c|].
    + unfold bind at 1. unfold ret at 1.
      apply bind_Throw. unfold Todo.insert.
      apply bind_Throw. apply (sql_fault _ _ fs Hf1).
    + rewrite (bind_Return _ _ _ _ _ Hnow).
      apply bind_Throw. unfold Todo.insert.
      apply bind_Throw. apply (sql_fault _ _ fs Hf1).
  - split; [|split; [apply Hst|reflexivity]].
    unfold Todo.read. rewrite (bind_Return _ _ _ _ _ Hreserve).
    apply bind_Throw. apply (sql_fault _ _ fs Hf1).
  - split; [|split; [apply Hst|reflexivity]].
    unfold Todo.readAll. rewrite (bind_Return _ _ _ _ _ Hreserve).
    apply bind_Throw. apply (sql_fault _ _ fs Hf1).
  - split; [|split; [apply Hst|reflexivity]].
    unfold Todo.update. rewrite (bind_Return _ _ _ _ _ Hreserve).
    rewrite (bind_Return _ _ _ _ _ Hnow).
    apply bind_Throw. unfold Todo.update_row.
    apply bind_Throw. apply (sql_fault _ _ fs Hf1).
  - split; [|split; [apply Hst|reflexivity]].
    unfold Todo.delete. rewrite (bind_Return _ _ _ _ _ Hreserve).
    apply bind_Throw. unfold Todo.delete_row.
    apply bind_Throw. apply (sql_fault _ _ fs Hf1).
Qed.

(** The store answers once and then fails. *)
Lemma Todo_failed_statement_leaks_witness :
  let w := Sample.world Sample.store1 [false; true] in
  let self := {| Todo.props := Todo.of_row Sample.todo1 |} in
  Reading.leaks_connection
    (Todo.create (H := Sample.platform) (Todo.of_row Sample.todo1))
    (Insert "todos") w
  /\ Reading.leaks_connection (Todo.read (num_of_Z 1)) (Select "todos") w
  /\ Reading.leaks_connection
       (Todo.readAll (H := Sample.platform) None (Some "id") (Some "asc"))
       (Select "todos") w
  /\ Reading.leaks_connection
       (Todo.update (H := Sample.platform) self
          {| TodoPartial.title := None; TodoPartial.description := None;
             TodoPartial.status := Some complete; TodoPartial.dueAt := None;
             TodoPartial.completedAt := None |})
       (Update "todos") w
  /\ Reading.leaks_connection (Todo.delete self)
       (Delete "todos") w.
Proof.
  intros w self.
  apply (Todo_failed_statement_leaks (H := Sample.platform) w []).
  reflexivity.
Defined.

(** X14. [listSubTodos()] agrees with [Todo.read]: for a stored todo, on
    a store that answers, [read] returns the row of the todo with, in
    [props.subTodos], the subtodos whose [todo_id] is the id of the todo, in
    the order of the table; [listSubTodos()] on that instance returns the
    same list (a todo of id 0 included, through [id || 0]); the store is
    as before. *)
Theorem listSubTodos_agrees_with_read (w : World.t) (i : JSNumber) (z : Z)
  (row : todos.row) :
  pg_integer i = Some z -> find_todo (store w) z = Some row ->
  Reading.calm (faults w) ->
  let subs := SubTodo.of_row
                <$> List.filter
                      (fun r => bool_decide (subtodos.todo_id r = Some z))
                      (subtodos_rows (store w)) in
  exists (todo : Todo.t) (w1 w2 : World.t),
    Todo.read i w = (Return (Some todo), w1)
    /\ Todo.props todo = Todo.with_subTodos (Todo.of_row row) subs
    /\ Todo.listSubTodos todo w1 = (Return subs, w2)
    /\ store w2 = store w.
Proof.
  intros Hz Hrow Hcalm subs.
  pose proof (Todo_read_calm w i z row Hz Hrow Hcalm) as Hread.
  fold subs in Hread.
  set (w1 := pop_fault (record (Sql (Select "subtodos")) _)) in Hread.
  assert (Hc1 : Reading.calm (faults w1)) by (do 4 apply calm_tail; exact Hcalm).
  eexists _, w1, _. split; [exact Hread|]. split; [reflexivity|].
  assert (Hq : pg_integer (default (num_of_Z 0)
                             (if negb (z =? 0) then Some (num_of_Z z) else None))
               = Some z).
  { destruct (Z.eqb_spec z 0) as [->|Hne]; cbn [negb default].
    - reflexivity.
    - apply pg_integer_num_of_Z. exact (pg_integer_range _ _ Hz). }
  split.
  - unfold Todo.listSubTodos.
    cbn [Todo.props Todo.with_subTodos TodoProps.id Todo.of_row
         SubTodo.number_or_null].
    rewrite (find_todo_id _ _ _ Hrow), number_truthy_num_of_Z.
    rewrite (SubTodo_readByTodoId_calm w1 _ z Hq Hc1). reflexivity.
  - reflexivity.
Qed.

(** Todo 2 of the sample store of three todos: its subtodos are the
    second and the fourth of the table. *)
Lemma listSubTodos_agrees_with_read_witness :
  let w := Sample.world Sample.store3 [] in
  let subs := [SubTodo.of_row Sample.sub2; SubTodo.of_row Sample.sub4] in
  exists (todo : Todo.t) (w1 w2 : World.t),
    Todo.read (num_of_Z 2) w = (Return (Some todo), w1)
    /\ Todo.props todo = Todo.with_subTodos (Todo.of_row Sample.todo2) subs
    /\ Todo.listSubTodos todo w1 = (Return subs, w2)
    /\ store w2 = store w.
Proof.
  intros w subs.
  apply (listSubTodos_agrees_with_read w (num_of_Z 2) 2 Sample.todo2).
  - reflexivity.
  - reflexivity.
  - constructor.
Defined.

(** ** models/Todo.ts: the list of subtodos of an instance *)

(** X15. [addSubTodo] on a store that answers and where the id the
    sequence gives next is not in use, with a non-empty title of at most
    255 characters and the id of a stored todo in [todoId]: it returns the
    subtodo created and appends it to [props.subTodos] (to the empty list
    when there was none).  The row refers to the todo named in the props
    passed, whichever todo the method is called on. *)
Theorem addSubTodo_appends (self : Todo.t) (w : World.t) (title : string)
  (st : Status) (c z : Z) :
  title <> "" -> (String.length title <= 255)%nat ->
  z <> 0 -> - 2 ^ 31 <= z < 2 ^ 31 -> is_Some (find_todo (store w) z) ->
  find_subtodo (store w) (subtodos_id_seq (store w)) = None ->
  Reading.calm (faults w) ->
  let row := {| subtodos.id := subtodos_id_seq (store w);
                subtodos.title := title; subtodos.status := st;
                subtodos.created_at := c; subtodos.completed_at := None;
                subtodos.edited_at := None; subtodos.todo_id := Some z |} in
  exists (w1 : World.t) (self' : Todo.t),
    Todo.addSubTodo
      {| SubTodoProps.id := None; SubTodoProps.title := title;
         SubTodoProps.status := st; SubTodoProps.createdAt := ValidDate c;
         SubTodoProps.completedAt := None;
         SubTodoProps.todoId := Some (num_of_Z z) |} (w, self)
    = (Return (SubTodo.of_row row), (w1, self'))
    /\ Todo.props self'
       = Todo.with_subTodos (Todo.props self)
           (default [] (TodoProps.subTodos (Todo.props self))
            ++ [SubTodo.of_row row])
    /\ subtodos_rows (store w1) = subtodos_rows (store w) ++ [row]
    /\ todos_rows (store w1) = todos_rows (store w).
Proof.
  intros Hne Hlen Hz Hrange Htodo Hfree Hcalm row.
  assert (Htruthy : number_truthy (num_of_Z z) = true).
  { rewrite number_truthy_num_of_Z. now destruct (Z.eqb_spec z 0). }
  assert (Hparam : nullable pg_integer
                     (SubTodo.number_or_null (Some (num_of_Z z))) = Some (Some z)).
  { cbn [SubTodo.number_or_null]. rewrite Htruthy. cbn [nullable].
    now rewrite (pg_integer_num_of_Z z Hrange). }
  pose proof (SubTodo_create_calm w title st c None (Some (num_of_Z z)) (Some z)
                Hne Hlen Hparam ltac:(now intros ? [= <-]) Hcalm Hfree)
    as Hcreate.
  cbn zeta in Hcreate. fold row in Hcreate.
  set (p := {| SubTodoProps.id := None; SubTodoProps.title := title |}).
  match type of Hcreate with
  | _ = ?result =>
      change (SubTodo.create (SubTodoPartial.of_props p) w = result) in Hcreate
  end.
  eexists _, _. split; [|split; [|split]].
  - unfold Todo.addSubTodo, Todo.this, Todo.set_subTodos, Todo.world, zoom,
      modify, bind, try_catch, ret.
    cbn [fst snd]. rewrite Hcreate. reflexivity.
  - unfold Todo.subTodos_or_empty.
    now destruct self as [[? ? ? ? ? ? ? ? []]].
  - reflexivity.
  - reflexivity.
Qed.

(** A third subtodo added to todo 1 of the sample store of three todos, as
    [Todo.read] returns it, with its two subtodos. *)
Lemma addSubTodo_appends_witness :
  let w := Sample.world Sample.store3 [] in
  let self := {| Todo.props :=
                   Todo.with_subTodos (Todo.of_row Sample.todo1)
                     [SubTodo.of_row Sample.sub1;
                      SubTodo.of_row Sample.sub3] |} in
  let row := {| subtodos.id := 5; subtodos.title := "Shop";
                subtodos.status := incomplete; subtodos.created_at := 3000;
                subtodos.completed_at := None; subtodos.edited_at := None;
                subtodos.todo_id := Some 1 |} in
  exists (w1 : World.t) (self' : Todo.t),
    Todo.addSubTodo
      {| SubTodoProps.id := None; SubTodoProps.title := "Shop";
         SubTodoProps.status := incomplete;
         SubTodoProps.createdAt := ValidDate 3000;
         SubTodoProps.completedAt := None;
         SubTodoProps.todoId := Some (num_of_Z 1) |} (w, self)
    = (Return (SubTodo.of_row row), (w1, self'))
    /\ Todo.props self'
       = Todo.with_subTodos (Todo.of_row Sample.todo1)
           [SubTodo.of_row Sample.sub1; SubTodo.of_row Sample.sub3;
            SubTodo.of_row row]
    /\ subtodos_rows (store w1)
       = [Sample.sub1; Sample.sub2; Sample.sub3; Sample.sub4; row]
    /\ todos_rows (store w1) = todos_rows (store w).
Proof.
  intros w self row.
  apply (addSubTodo_appends self w "Shop" incomplete 3000 1).
  - discriminate.
  - simpl. lia.
  - lia.
  - lia.
  - eexists. reflexivity.
  - reflexivity.
  - constructor.
Defined.

(** X16. Whatever [SubTodo.create] throws, [addSubTodo] throws
    [Error("SubTodo not created")] in its place; the instance is left with
    the list of subtodos it had, the empty list if it had none. *)
Theorem addSubTodo_masks_error (self : Todo.t) (p : SubTodoProps.t)
  (w : World.t) (e : Exn) :
  (SubTodo.create (SubTodoPartial.of_props p) w).1 = Throw e ->
  Todo.addSubTodo p (w, self)
  = (Throw (Error "SubTodo not created"),
     ((SubTodo.create (SubTodoPartial.of_props p) w).2,
      {| Todo.props :=
           Todo.with_subTodos (Todo.props self)
             (default [] (TodoProps.subTodos (Todo.props self))) |})).
Proof.
  intros He.
  unfold Todo.addSubTodo, Todo.this, Todo.set_subTodos, Todo.world, zoom,
    modify, bind, try_catch, ret, throw.
  cbn [fst snd].
  destruct (SubTodo.create (SubTodoPartial.of_props p) w) as [o w1].
  cbn [fst snd] in *. subst o. reflexivity.
Qed.

(** An empty title: the NOT NULL violation is reported as not created. *)
Lemma addSubTodo_masks_error_witness :
  let p := {| SubTodoProps.id := None; SubTodoProps.title := "";
              SubTodoProps.status := incomplete;
              SubTodoProps.createdAt := ValidDate 3000;
              SubTodoProps.completedAt := None;
              SubTodoProps.todoId := Some (num_of_Z 1) |} in
  let self := {| Todo.props := Todo.of_row Sample.todo1 |} in
  let w := Sample.world Sample.store2 [] in
  Todo.addSubTodo p (w, self)
  = (Throw (Error "SubTodo not created"),
     ((SubTodo.create (SubTodoPartial.of_props p) w).2,
      {| Todo.props :=
           Todo.with_subTodos (Todo.props self)
             (default [] (TodoProps.subTodos (Todo.props self))) |})).
Proof.
  intros p self w.
  apply (addSubTodo_masks_error self p w (StoreError "not-null violation")).
  reflexivity.
Defined.

(** [findIndex] returns the index of the first element the callback
    accepts. *)
Lemma findIndex_first (n : JSNumber) (subs : list SubTodo.t) (k : nat)
  (removed : SubTodo.t) :
  subs !! k = Some removed -> Todo.has_id n removed = true ->
  (forall (j : nat) (s : SubTodo.t),
     (j < k)%nat -> subs !! j = Some s -> Todo.has_id n s = false) ->
  Todo.findIndex n subs = Some k.
Proof.
  revert k. induction subs as [|s0 subs IH]; intros k Hk Hid Hearlier;
    [discriminate|].
  cbn [Todo.findIndex]. destruct k as [|k].
  - injection Hk as ->. now rewrite Hid.
  - rewrite (Hearlier 0%nat s0 ltac:(lia) eq_refl).
    rewrite (IH k Hk Hid); [reflexivity|].
    intros j s Hj Hs. apply (Hearlier (S j) s); [lia|exact Hs].
Qed.

(** And [None] when it accepts none. *)
Lemma findIndex_none (n : JSNumber) (subs : list SubTodo.t) :
  Forall (fun s => Todo.has_id n s = false) subs ->
  Todo.findIndex n subs = None.
Proof.
  intros Hall. induction Hall as [|s subs Hs _ IH]; [reflexivity|].
  cbn [Todo.findIndex]. now rewrite Hs, IH.
Qed.

(** X17. [removeSubTodo(n)] on an instance whose list [props.subTodos]
    holds a subtodo of id [n]: with [removed], at index [k], the first
    subtodo of the list whose id is [n] (no subtodo before it has that
    id), the call takes [removed] out of the list, the others staying in
    their order, and only then deletes it from the store: the outcome is
    that of [delete()] on it, and the list is shortened whatever the
    outcome.  When the store fails, the call throws, the tables are as
    before, and the instance has forgotten the subtodo all the same. *)
Theorem removeSubTodo_forgets_first (self : Todo.t) (w : World.t)
  (subs : list SubTodo.t) (n : JSNumber) (k : nat) (removed : SubTodo.t) :
  TodoProps.subTodos (Todo.props self) = Some subs ->
  subs !! k = Some removed ->
  Todo.has_id n removed = true ->
  (forall (j : nat) (s : SubTodo.t),
     (j < k)%nat -> subs !! j = Some s -> Todo.has_id n s = false) ->
  Todo.removeSubTodo n (w, self)
  = ((SubTodo.delete removed w).1,
     ((SubTodo.delete removed w).2,
      {| Todo.props :=
           Todo.with_subTodos (Todo.props self) (base.delete k subs) |}))
  /\ (forall fs, faults w = true :: fs ->
        exists e, (Todo.removeSubTodo n (w, self)).1 = Throw e
                  /\ store (Todo.removeSubTodo n (w, self)).2.1 = store w).
Proof.
  intros Hsubs Hrem Hid Hearlier.
  pose proof (findIndex_first n subs k removed Hrem Hid Hearlier) as Hk.
  assert (Hrun : Todo.removeSubTodo n (w, self)
                 = ((SubTodo.delete removed w).1,
                    ((SubTodo.delete removed w).2,
                     {| Todo.props :=
                          Todo.with_subTodos (Todo.props self)
                            (base.delete k subs) |}))).
  { unfold Todo.removeSubTodo, Todo.this, bind at 1. cbn [snd].
    rewrite Hsubs, Hk.
    unfold Todo.set_subTodos, modify, bind. cbn [fst snd]. rewrite Hrem.
    unfold Todo.world, zoom. cbn [fst snd].
    destruct removed as [rp]. cbn [SubTodo.props].
    now destruct (SubTodo.delete {| SubTodo.props := rp |} w). }
  split; [exact Hrun|].
  intros fs Hf. rewrite Hrun. cbn [fst snd].
  unfold Todo.has_id in Hid.
  destruct (SubTodoProps.id (SubTodo.props removed)) as [i|] eqn:Hi;
    [|discriminate].
  unfold SubTodo.delete, SubTodo.delete_row. rewrite Hi.
  rewrite (bind_Throw _ _ _ _ _
             (bind_Throw _ _ _ _ _ (sql_fault (Delete "subtodos") w fs Hf))).
  cbn [fst snd]. now eexists.
Qed.

(** A list that holds subtodo 1 twice, after subtodo 3 and around
    subtodo 2: the first of the two goes, at index 1, while the store is
    down. *)
Lemma removeSubTodo_forgets_first_witness :
  let subs := [SubTodo.of_row Sample.sub3; SubTodo.of_row Sample.sub1;
               SubTodo.of_row Sample.sub2; SubTodo.of_row Sample.sub1] in
  let self := {| Todo.props :=
                   Todo.with_subTodos (Todo.of_row Sample.todo1) subs |} in
  let w := Sample.world Sample.store3 [true] in
  Todo.removeSubTodo (num_of_Z 1) (w, self)
  = ((SubTodo.delete (SubTodo.of_row Sample.sub1) w).1,
     ((SubTodo.delete (SubTodo.of_row Sample.sub1) w).2,
      {| Todo.props :=
           Todo.with_subTodos (Todo.props self)
             [SubTodo.of_row Sample.sub3; SubTodo.of_row Sample.sub2;
              SubTodo.of_row Sample.sub1] |}))
  /\ (forall fs, faults w = true :: fs ->
        exists e, (Todo.removeSubTodo (num_of_Z 1) (w, self)).1 = Throw e
                  /\ store (Todo.removeSubTodo (num_of_Z 1) (w, self)).2.1
                     = store w).
Proof.
  intros subs self w.
  apply (removeSubTodo_forgets_first self w subs (num_of_Z 1) 1%nat
           (SubTodo.of_row Sample.sub1)).
  - reflexivity.
  - reflexivity.
  - reflexivity.
  - intros [|j] s Hj Hs; [|lia]. injection Hs as <-. reflexivity.
Defined.

(** With an id that no subtodo of the list has, [removeSubTodo] changes
    nothing and issues no statement. *)
Lemma removeSubTodo_unknown_id (self : Todo.t) (w : World.t)
  (subs : list SubTodo.t) (n : JSNumber) :
  TodoProps.subTodos (Todo.props self) = Some subs ->
  Forall (fun s => Todo.has_id n s = false) subs ->
  Todo.removeSubTodo n (w, self) = (Return tt, (w, self)).
Proof.
  intros Hsubs Hall.
  unfold Todo.removeSubTodo, Todo.this, bind. cbn [snd].
  now rewrite Hsubs, (findIndex_none n subs Hall).
Qed.


(** ** Handlers: requests refused before the store is asked *)

(** What a refusal leaves behind: one [send], nothing asked of the store. *)
Lemma refused `{Platform} (request : Request.t) (c : StatusCode.t)
  (msg : string) (w : World.t) :
  Reading.unsent (res w) ->
  exists w' : World.t,
    send request (respond c msg) w = (Return tt, w')
    /\ sends w' = sends w ++ [respond c msg]
    /\ statements w' = statements w
    /\ store w' = store w
    /\ res w'
       = {| Response.head :=
              Some (StatusCode.code c, [("Content-Type", "application/json")]);
            Response.ended :=
              Some (Some (JSON_stringify
                            (JObj [("message", JStr msg);
                                   ("payload", JUndefined)]))) |}.
Proof.
  intros Hu. eexists. split; [exact (send_plain request c msg w Hu)|].
  split; [now autorewrite with sends|].
  split; [now autorewrite with statements|]. split; reflexivity.
Qed.

(** X22. [getSubTodo], [deleteSubTodo] and [completeSubTodo] refuse an id
    that is [NaN], zero or negative ([completeSubTodo]: either of its two
    ids): one [send], of 400 "Invalid ID", written as JSON, and no
    interaction with the store. *)
Theorem subtodo_handlers_refuse_bad_id `{Platform} (handler : Handler)
  (request : Request.t) (w : World.t) :
  In handler [SubTodoController.getSubTodo; SubTodoController.deleteSubTodo;
              SubTodoController.completeSubTodo]
  /\ (isNaN (Request.getId request) = true
      \/ le_zero (Request.getId request) = true)
  \/ handler = SubTodoController.completeSubTodo
     /\ (isNaN (Request.getSubTodoId request) = true
         \/ le_zero (Request.getSubTodoId request) = true) ->
  Reading.unsent (res w) ->
  exists w' : World.t,
    handler request w = (Return tt, w')
    /\ sends w' = sends w ++ [respond StatusCode.BadRequest "Invalid ID"]
    /\ statements w' = statements w
    /\ store w' = store w
    /\ res w'
       = {| Response.head :=
              Some (400, [("Content-Type", "application/json")]);
            Response.ended :=
              Some (Some (JSON_stringify
                            (JObj [("message", JStr "Invalid ID");
                                   ("payload", JUndefined)]))) |}.
Proof.
  intros Hcase Hu.
  destruct (refused request StatusCode.BadRequest "Invalid ID" w Hu)
    as (w' & Hsend & Hrest).
  exists w'. split; [|exact Hrest].
  destruct Hcase as [[Hin Hid]|[-> Hsub]].
  - assert (Hbad : isNaN (Request.getId request)
                   || le_zero (Request.getId request) = true)
      by (destruct Hid as [-> | ->]; [reflexivity|apply orb_true_r]).
    cbn [In] in Hin. destruct Hin as [<-|[<-|[<-|[]]]].
    + unfold SubTodoController.getSubTodo. apply try_catch_Return.
      now rewrite Hbad.
    + unfold SubTodoController.deleteSubTodo. apply try_catch_Return.
      now rewrite Hbad.
    + unfold SubTodoController.completeSubTodo. apply try_catch_Return.
      now rewrite Hbad.
  - assert (Hbad : isNaN (Request.getSubTodoId request)
                   || le_zero (Request.getSubTodoId request) = true)
      by (destruct Hsub as [-> | ->]; [reflexivity|apply orb_true_r]).
    unfold SubTodoController.completeSubTodo. apply try_catch_Return.
    rewrite Hbad.
    now destruct (isNaN (Request.getId request)
                  || le_zero (Request.getId request)).
Qed.

(** [DELETE /subtodos/0]. *)
Lemma subtodo_handlers_refuse_bad_id_witness :
  let request := Sample.request "DELETE" "/subtodos/0" [] (JObj []) in
  let w := Sample.world Sample.store2 [] in
  exists w' : World.t,
    SubTodoController.deleteSubTodo (H := Sample.platform) request w
    = (Return tt, w')
    /\ sends w' = sends w ++ [respond StatusCode.BadRequest "Invalid ID"]
    /\ statements w' = statements w
    /\ store w' = store w
    /\ res w'
       = {| Response.head :=
              Some (400, [("Content-Type", "application/json")]);
            Response.ended :=
              Some (Some (JSON_stringify (Platform := Sample.platform)
                            (JObj [("message", JStr "Invalid ID");
                                   ("payload", JUndefined)]))) |}.
Proof.
  intros request w.
  apply (subtodo_handlers_refuse_bad_id (H := Sample.platform)
           SubTodoController.deleteSubTodo request w).
  - left. split; [cbn [In]; tauto|]. right. vm_compute. reflexivity.
  - split; reflexivity.
Defined.

(** [GET /todos/abc]. *)
Lemma guarded_handlers_reject_NaN_witness :
  let request := Sample.request "GET" "/todos/abc" [] (JObj []) in
  let w := Sample.world Sample.store1 [] in
  TodoController.getTodo (H := Sample.platform) request w
  = (Return tt,
     set_res
       {| Response.head :=
            Some (400, [("Content-Type", "application/json")]);
          Response.ended :=
            Some (Some (JSON_stringify (Platform := Sample.platform)
                          (JObj [("message", JStr "Invalid ID");
                                 ("payload", JUndefined)]))) |}
       (record (Sent (respond StatusCode.BadRequest "Invalid ID")) w)).
Proof.
  intros request w.
  apply (guarded_handlers_reject_NaN (H := Sample.platform) request w
           TodoController.getTodo).
  - split; reflexivity.
  - left. split; [vm_compute; reflexivity|cbn [In]; tauto].
Defined.

Lemma string_truthy_eqb (s : string) :
  string_truthy s = negb (s =? "")%string.
Proof. now destruct s. Qed.

Lemma opt_string_truthy_default (o : option string) :
  opt_string_truthy o = string_truthy (default "" o).
Proof. now destruct o. Qed.

Lemma searchParams_run `{Platform} (request : Request.t)
  (params : list (string * string)) (w : World.t) :
  Request.getSearchParams request = Some params ->
  searchParams request w = (Return params, w).
Proof. intros Hq. unfold searchParams. now rewrite Hq. Qed.

(** Decides [s = lit] for each literal compared with [s] in the goal. *)
Ltac string_cases s :=
  repeat match goal with
         | |- context [String.eqb s ?lit] =>
             destruct (String.eqb_spec s lit); [subst s|]
         end.

(** X23. [getTodoList] refuses a query it does not know, before the store
    is asked: a [status] other than incomplete and complete, else a
    [sortBy] outside id, title, description, dueAt, createdAt, updatedAt,
    else an [orderBy] other than asc and desc (an empty value passes each
    test) gives one [send] of status 400 with the message of the first
    test that fails, and no interaction with the store. *)
Theorem getTodoList_refuses_bad_query `{Platform} (request : Request.t)
  (w : World.t) (params : list (string * string)) (msg : string) :
  Request.getSearchParams request = Some params ->
  let status := default "" (params_get "status" params) in
  let sortBy := default "id" (params_get "sortBy" params) in
  let orderBy := default "asc" (params_get "orderBy" params) in
  (~ In status [""; "incomplete"; "complete"]
   /\ msg = "Invalid filter parameter.")
  \/ (In status [""; "incomplete"; "complete"]
      /\ ~ In sortBy [""; "id"; "title"; "description"; "dueAt"; "createdAt";
                      "updatedAt"]
      /\ msg = "Invalid sortBy parameter.")
  \/ (In status [""; "incomplete"; "complete"]
      /\ In sortBy [""; "id"; "title"; "description"; "dueAt"; "createdAt";
                    "updatedAt"]
      /\ ~ In orderBy [""; "asc"; "desc"]
      /\ msg = "Invalid orderBy parameter.") ->
  Reading.unsent (res w) ->
  exists w' : World.t,
    TodoController.getTodoList request w = (Return tt, w')
    /\ sends w' = sends w ++ [respond StatusCode.BadRequest msg]
    /\ statements w' = statements w
    /\ store w' = store w.
Proof.
  intros Hq status sortBy orderBy Hcase Hu.
  destruct (refused request StatusCode.BadRequest msg w Hu)
    as (w' & Hsend & Hsends & Hst & Hstore & _).
  exists w'. split; [|now repeat split].
  unfold TodoController.getTodoList.
  rewrite (bind_Return _ _ _ _ _ (searchParams_run request params w Hq)).
  rewrite opt_string_truthy_default. fold status sortBy orderBy.
  rewrite !string_truthy_eqb. unfold TodoController.isSortByValid,
    TodoController.isOrderByValid.
  cbn [In] in Hcase. clearbody status sortBy orderBy.
  destruct Hcase as [[Hs ->]|[(Hs & Hb & ->)|(Hs & Hb & Ho & ->)]].
  - string_cases status; try (exfalso; intuition congruence). exact Hsend.
  - assert (Hok : negb (String.eqb status "")
                  && negb (String.eqb status "incomplete")
                  && negb (String.eqb status "complete") = false).
    { destruct Hs as [<-|[<-|[<-|[]]]]; reflexivity. }
    rewrite Hok. string_cases sortBy; try (exfalso; intuition congruence).
    exact Hsend.
  - assert (Hok : negb (String.eqb status "")
                  && negb (String.eqb status "incomplete")
                  && negb (String.eqb status "complete") = false).
    { destruct Hs as [<-|[<-|[<-|[]]]]; reflexivity. }
    assert (Hok' : negb (String.eqb sortBy "")
                   && negb (TodoController.isSortByValid sortBy) = false).
    { destruct Hb as [<-|[<-|[<-|[<-|[<-|[<-|[<-|[]]]]]]]]; reflexivity. }
    fold (TodoController.isSortByValid sortBy). rewrite Hok, Hok'.
    string_cases orderBy; try (exfalso; intuition congruence). exact Hsend.
Qed.

(** [GET /todos?status=done]. *)
Lemma getTodoList_refuses_bad_query_witness :
  let request := Sample.request "GET" "/todos?status=done" [] (JObj []) in
  let w := Sample.world Sample.store1 [] in
  exists w' : World.t,
    TodoController.getTodoList (H := Sample.querying [("status", "done")])
      request w
    = (Return tt, w')
    /\ sends w'
       = sends w ++ [respond StatusCode.BadRequest "Invalid filter parameter."]
    /\ statements w' = statements w
    /\ store w' = store w.
Proof.
  intros request w.
  apply (getTodoList_refuses_bad_query (H := Sample.querying [("status", "done")])
           request w [("status", "done")] "Invalid filter parameter.").
  - reflexivity.
  - left. split; [|reflexivity]. cbn. intuition discriminate.
  - split; reflexivity.
Defined.

(** X24. [getSubTodoList] refuses a [status] other than incomplete and
    complete, else a [sortBy] other than createdAt and dueAt (an empty
    value passes each test): one [send] of status 400 with the message of
    the first test that fails, and no interaction with the store. *)
Theorem getSubTodoList_refuses_bad_query `{Platform} (request : Request.t)
  (w : World.t) (params : list (string * string)) (msg : string) :
  Request.getSearchParams request = Some params ->
  let status := default "" (params_get "status" params) in
  let sortBy := default "" (params_get "sortBy" params) in
  (~ In status [""; "incomplete"; "complete"] /\ msg = "Invalid status")
  \/ (In status [""; "incomplete"; "complete"]
      /\ ~ In sortBy [""; "createdAt"; "dueAt"]
      /\ msg = "Invalid sortBy parameter") ->
  Reading.unsent (res w) ->
  exists w' : World.t,
    SubTodoController.getSubTodoList request w = (Return tt, w')
    /\ sends w' = sends w ++ [respond StatusCode.BadRequest msg]
    /\ statements w' = statements w
    /\ store w' = store w.
Proof.
  intros Hq status sortBy Hcase Hu.
  destruct (refused request StatusCode.BadRequest msg w Hu)
    as (w' & Hsend & Hsends & Hst & Hstore & _).
  exists w'. split; [|now repeat split].
  unfold SubTodoController.getSubTodoList. apply try_catch_Return.
  rewrite (bind_Return _ _ _ _ _ (searchParams_run request params w Hq)).
  rewrite (bind_Return _ _ _ _ _ (searchParams_run request params w Hq)).
  rewrite !opt_string_truthy_default. fold status sortBy.
  rewrite !string_truthy_eqb.
  cbn [In] in Hcase. clearbody status sortBy.
  destruct Hcase as [[Hs ->]|(Hs & Hb & ->)].
  - string_cases status; try (exfalso; intuition congruence). exact Hsend.
  - assert (Hok : negb (String.eqb status "")
                  && negb (String.eqb status "incomplete"
                           || String.eqb status "complete") = false).
    { destruct Hs as [<-|[<-|[<-|[]]]]; reflexivity. }
    rewrite Hok. string_cases sortBy; try (exfalso; intuition congruence).
    exact Hsend.
Qed.

(** [GET /todos/1/subtodos?sortBy=title]. *)
Lemma getSubTodoList_refuses_bad_query_witness :
  let request := Sample.request "GET" "/todos/1/subtodos?sortBy=title" []
                   (JObj []) in
  let w := Sample.world Sample.store2 [] in
  exists w' : World.t,
    SubTodoController.getSubTodoList
      (H := Sample.querying [("sortBy", "title")]) request w
    = (Return tt, w')
    /\ sends w'
       = sends w ++ [respond StatusCode.BadRequest "Invalid sortBy parameter"]
    /\ statements w' = statements w
    /\ store w' = store w.
Proof.
  intros request w.
  apply (getSubTodoList_refuses_bad_query
           (H := Sample.querying [("sortBy", "title")])
           request w [("sortBy", "title")] "Invalid sortBy parameter").
  - reflexivity.
  - right. split; [cbn; tauto|]. split; [|reflexivity].
    cbn. intuition discriminate.
  - split; reflexivity.
Defined.

(** ** The columns a request can sort by *)

(** X25. The columns a request can sort todos by.  Of the values
    [isSortByValid] accepts, [Todo.readAll] orders by the id column for
    exactly ["id"] and ["updatedAt"] (a column the table does not have);
    and the columns status, completedAt and editedAt, which [readAll] can
    order by, are refused by [isSortByValid]. *)
Theorem sortBy_columns (s : string) :
  (TodoController.isSortByValid s = true ->
   ((forall r, Todo.getSortBy s r = KInt (todos.id r))
    <-> s = "id" \/ s = "updatedAt"))
  /\ (In s ["status"; "completedAt"; "editedAt"] ->
      TodoController.isSortByValid s = false
      /\ forall r, Todo.getSortBy s r <> KInt (todos.id r)).
Proof.
  split.
  - unfold TodoController.isSortByValid. intros Hvalid.
    assert (Hin : In s ["id"; "title"; "description"; "dueAt"; "createdAt";
                        "updatedAt"]).
    { cbn [In].
      repeat (apply orb_true_iff in Hvalid as [Hvalid|Hvalid];
              [|apply String.eqb_eq in Hvalid; subst s; intuition]).
      apply String.eqb_eq in Hvalid. subst s. intuition. }
    pose (r0 := {| todos.id := 0; todos.title := ""; todos.description := "";
                   todos.status := incomplete; todos.due_at := None;
                   todos.created_at := 0; todos.completed_at := None;
                   todos.edited_at := None |}).
    cbn [In] in Hin.
    destruct Hin as [<-|[<-|[<-|[<-|[<-|[<-|[]]]]]]];
      (split; [intros Hk; specialize (Hk r0); try discriminate; tauto|]);
      intros [Heq|Heq]; try discriminate; intros r; reflexivity.
  - cbn [In]. intros [<-|[<-|[<-|[]]]]; (split; [reflexivity|]);
      intros r; discriminate.
Qed.

(** [updatedAt] is accepted and orders by id; [status] is refused. *)
Lemma sortBy_columns_witness :
  TodoController.isSortByValid "updatedAt" = true
  /\ (forall r, Todo.getSortBy "updatedAt" r = KInt (todos.id r))
  /\ TodoController.isSortByValid "status" = false.
Proof.
  destruct (sortBy_columns "updatedAt") as [Hvalid _].
  destruct (sortBy_columns "status") as [_ Hrejected].
  split; [reflexivity|]. split.
  - apply (Hvalid eq_refl). now right.
  - apply Hrejected. cbn [In]. tauto.
Defined.

(** ** controllers/TodoController.ts: createTodo and updateTodo *)

Lemma sent_once `{Platform} (request : Request.t)
  (p : Response.ResponseProps) (w : World.t) :
  Reading.unsent (res w) ->
  exists w' : World.t,
    send request p w = (Return tt, w')
    /\ sends w' = sends w ++ [p]
    /\ statements w' = statements w
    /\ store w' = store w.
Proof.
  intros Hu. destruct (send_first request p w Hu) as (r' & _ & Hs).
  eexists. split; [exact Hs|].
  split; [now autorewrite with sends|].
  split; [now autorewrite with statements|reflexivity].
Qed.

(** X20. [createTodo] and [updateTodo] on a body that lacks a title or a
    description (absent, empty or otherwise falsy): one [send], of status
    400 and with no redirect, and no interaction with the store. *)
Theorem todo_handlers_require_fields `{Platform} (handler : Handler)
  (request : Request.t) (w : World.t) :
  In handler [TodoController.createTodo; TodoController.updateTodo] ->
  nullish (Request.body request) = false ->
  truthy (member (Request.body request) "title") = false
  \/ truthy (member (Request.body request) "description") = false ->
  Reading.unsent (res w) ->
  exists (w' : World.t) (p : Response.ResponseProps),
    handler request w = (Return tt, w')
    /\ sends w' = sends w ++ [p]
    /\ Response.statusCode p = StatusCode.BadRequest
    /\ Response.redirect p = None
    /\ statements w' = statements w
    /\ store w' = store w.
Proof.
  intros Hin Hbody Hmissing Hu.
  assert (Hcond : negb (truthy (member (Request.body request) "title"))
                  || negb (truthy (member (Request.body request) "description"))
                  = true).
  { destruct Hmissing as [-> | ->]; [reflexivity|apply orb_true_r]. }
  cbn [In] in Hin. destruct Hin as [<-|[<-|[]]].
  - set (p := with_payload
                (JObj [("errorMessage",
                        JStr "Title and description are required.")])
                (with_template "NewFormView"
                   (respond StatusCode.BadRequest
                      "Request body must include title and description."))).
    destruct (sent_once request p w Hu) as (w' & Hsend & Hrest).
    exists w', p. split; [|split; [apply Hrest|split; [reflexivity|
      split; [reflexivity|apply Hrest]]]].
    unfold TodoController.createTodo.
    rewrite (bind_Return _ _ _ _ _ (body_of_run request w Hbody)).
    unfold Todo.createUTCDate_now, Date_now. unfold bind at 1. unfold bind at 1.
    unfold ret at 1. cbn [TodoProps.title TodoProps.description].
    rewrite Hcond. exact Hsend.
  - destruct (isNaN (Request.getId request)) eqn:Hnan.
    + destruct (sent_once request (respond StatusCode.BadRequest "Invalid ID")
                  w Hu) as (w' & Hsend & Hrest).
      exists w', (respond StatusCode.BadRequest "Invalid ID").
      split; [|split; [apply Hrest|split; [reflexivity|
        split; [reflexivity|apply Hrest]]]].
      unfold TodoController.updateTodo. now rewrite Hnan.
    + set (p := respond StatusCode.BadRequest
                  "Title and description are required for updating the todo.").
      destruct (sent_once request p w Hu) as (w' & Hsend & Hrest).
      exists w', p. split; [|split; [apply Hrest|split; [reflexivity|
        split; [reflexivity|apply Hrest]]]].
      unfold TodoController.updateTodo. rewrite Hnan.
      rewrite (bind_Return _ _ _ _ _ (body_of_run request w Hbody)).
      rewrite Hcond. exact Hsend.
Qed.

(** [POST /todos] with an empty description. *)
Lemma todo_handlers_require_fields_witness :
  let request := Sample.request "POST" "/todos" []
                   (JObj [("title", JStr "Call"); ("description", JStr "")]) in
  let w := Sample.world Sample.store1 [] in
  exists (w' : World.t) (p : Response.ResponseProps),
    TodoController.createTodo (H := Sample.platform) request w = (Return tt, w')
    /\ sends w' = sends w ++ [p]
    /\ Response.statusCode p = StatusCode.BadRequest
    /\ Response.redirect p = None
    /\ statements w' = statements w
    /\ store w' = store w.
Proof.
  intros request w.
  apply (todo_handlers_require_fields (H := Sample.platform)
           TodoController.createTodo request w).
  - cbn [In]. tauto.
  - reflexivity.
  - right. reflexivity.
  - split; reflexivity.
Defined.

(** ** Handlers on a store that answers *)

(** X26. [createTodo] on a body with a non-empty title of at most 255
    characters and a non-empty description, on a store that answers: the
    todo is appended to the table with the next id of the sequence, status
    incomplete and the current date, between a reserve and a release, and
    the one [send] is a 302 redirect to [/todos/<id>]. *)
Theorem createTodo_creates `{Platform} (request : Request.t) (w : World.t)
  (title description : string) (due : option Z) (c : Z) :
  member (Request.body request) "title" = JStr title ->
  member (Request.body request) "description" = JStr description ->
  title <> "" -> (String.length title <= 255)%nat -> description <> "" ->
  dueAt_of (Request.body request) = ValidDate <$> due ->
  createUTCDate (ValidDate (clock w)) = ValidDate c ->
  find_todo (store w) (todos_id_seq (store w)) = None ->
  Reading.calm (faults w) -> Reading.unsent (res w) ->
  exists w' : World.t,
    TodoController.createTodo request w = (Return tt, w')
    /\ sends w'
       = sends w
         ++ [with_redirect
               ("/todos/" +:+ Number_toString (num_of_Z (todos_id_seq (store w))))
               (respond StatusCode.Redirect "Todo created successfully!")]
    /\ todos_rows (store w')
       = todos_rows (store w)
         ++ [{| todos.id := todos_id_seq (store w); todos.title := title;
                todos.description := description; todos.status := incomplete;
                todos.due_at := due; todos.created_at := c;
                todos.completed_at := None; todos.edited_at := None |}]
    /\ statements w' = statements w ++ [Reserve; Insert "todos"; Release].
Proof.
  intros Htitle Hdesc Hne Hlen Hned Hdue Hdate Hfresh Hcalm Hu.
  pose proof (Todo_create_calm w title description incomplete due c Hlen
                Hfresh Hcalm) as Hcreate.
  cbn zeta in Hcreate.
  set (row := {| todos.id := todos_id_seq (store w); todos.title := title |})
    in *.
  set (w1 := pop_fault (record (Sql Release) _)) in Hcreate.
  set (p := with_redirect
              ("/todos/" +:+ Number_toString (num_of_Z (todos_id_seq (store w))))
              (respond StatusCode.Redirect "Todo created successfully!")).
  destruct (sent_once request p w1 Hu) as (w' & Hsend & Hsends & Hst & Hstore).
  apply string_truthy_iff in Hne, Hned.
  exists w'. split; [|split; [|split]].
  - unfold TodoController.createTodo.
    rewrite (bind_Return _ _ _ _ _
               (body_of_run request w (member_not_nullish _ _ _ Htitle))).
    rewrite (bind_Return _ _ _ _ _ (createUTCDate_now_run w c Hdate)).
    cbn [TodoProps.title TodoProps.description].
    rewrite Htitle, Hdesc, Hdue. cbn [truthy]. rewrite Hne, Hned.
    cbn [negb orb].
    erewrite bind_Return.
    2:{ apply try_catch_Return.
        rewrite (bind_Return _ _ _ _ _ Hcreate). reflexivity. }
    exact Hsend.
  - rewrite Hsends. unfold w1. now autorewrite with sends.
  - rewrite Hstore. reflexivity.
  - rewrite Hst. unfold w1.
    now autorewrite with statements; rewrite <- !app_assoc.
Qed.

(** [POST /todos] with a title and a description. *)
Lemma createTodo_creates_witness :
  let request := Sample.request "POST" "/todos" []
                   (JObj [("title", JStr "Call");
                          ("description", JStr "the bank")]) in
  let w := Sample.world Sample.store2 [] in
  exists w' : World.t,
    TodoController.createTodo (H := Sample.platform) request w = (Return tt, w')
    /\ sends w'
       = sends w
         ++ [with_redirect
               ("/todos/"
                +:+ Number_toString (Platform := Sample.platform)
                      (num_of_Z (todos_id_seq (store w))))
               (respond StatusCode.Redirect "Todo created successfully!")]
    /\ todos_rows (store w')
       = todos_rows (store w)
         ++ [{| todos.id := todos_id_seq (store w); todos.title := "Call";
                todos.description := "the bank"; todos.status := incomplete;
                todos.due_at := None; todos.created_at := 5000;
                todos.completed_at := None; todos.edited_at := None |}]
    /\ statements w' = statements w ++ [Reserve; Insert "todos"; Release].
Proof.
  intros request w.
  apply (createTodo_creates (H := Sample.platform) request w "Call" "the bank"
           None 5000).
  - reflexivity.
  - reflexivity.
  - discriminate.
  - simpl. lia.
  - discriminate.
  - reflexivity.
  - reflexivity.
  - reflexivity.
  - constructor.
  - split; reflexivity.
Defined.

Lemma pg_integer_not_NaN (i : JSNumber) (z : Z) :
  pg_integer i = Some z -> isNaN i = false.
Proof. now destruct i. Qed.

(** X27. [deleteTodo] on a store that answers, ids being unique: when a
    todo of that id is stored it is deleted with its subtodos and the one
    [send] is a 302 redirect to [/todos]; when none is, the [send] is 404
    "Not found" and the store is as before.  Either way no todo of that id
    is stored afterwards. *)
Theorem deleteTodo_deletes `{Platform} (request : Request.t) (w : World.t)
  (z : Z) :
  pg_integer (Request.getId request) = Some z ->
  NoDup (todos.id <$> todos_rows (store w)) ->
  Reading.calm (faults w) -> Reading.unsent (res w) ->
  exists w' : World.t,
    TodoController.deleteTodo request w = (Return tt, w')
    /\ sends w'
       = sends w
         ++ [if bool_decide (is_Some (find_todo (store w) z))
             then with_redirect "/todos"
                    (respond StatusCode.Redirect "Todo deleted successfully!")
             else respond StatusCode.NotFound "Not found"]
    /\ store w' = Reading.without_todo z (store w)
    /\ find_todo (store w') z = None
    /\ (find_todo (store w) z = None -> store w' = store w).
Proof.
  intros Hz Hnd Hcalm Hu.
  pose proof (pg_integer_not_NaN _ _ Hz) as Hnan.
  assert (Hgone : find_todo (Reading.without_todo z (store w)) z = None)
    by apply (filter_find_none (fun r => todos.id r =? z)).
  assert (Hsame : find_todo (store w) z = None ->
                  Reading.without_todo z (store w) = store w).
  { intros Hf. unfold Reading.without_todo. rewrite Hf.
    rewrite bool_decide_eq_false_2 by (intros [? ?]; discriminate).
    unfold find_todo in Hf.
    rewrite (filter_negb_find_none (fun r => todos.id r =? z) _ Hf).
    now destruct (store w). }
  destruct (find_todo (store w) z) as [row|] eqn:Hrow.
  - rewrite bool_decide_eq_true_2 by now eexists.
    pose proof (Todo_read_calm w _ z row Hz Hrow Hcalm) as Hread.
    set (todo := {| Todo.props := Todo.with_subTodos (Todo.of_row row) _ |})
      in Hread.
    set (w1 := pop_fault (record (Sql (Select "subtodos")) _)) in Hread.
    assert (Hc1 : Reading.calm (faults w1))
      by (do 4 apply calm_tail; exact Hcalm).
    assert (Hid : TodoProps.id (Todo.props todo) = Some (num_of_Z z))
      by (cbn; now rewrite (find_todo_id _ _ _ Hrow)).
    pose proof (Todo_delete_calm todo w1 (num_of_Z z) z Hid
                  (pg_integer_num_of_Z z (pg_integer_range _ _ Hz)) Hnd Hc1)
      as Hdel.
    change (store w1) with (store w) in Hdel. rewrite Hrow in Hdel.
    rewrite bool_decide_eq_true_2 in Hdel by now eexists.
    set (w2 := pop_fault (record (Sql Release) _)) in Hdel.
    set (p := with_redirect "/todos"
                (respond StatusCode.Redirect "Todo deleted successfully!")).
    destruct (sent_once request p w2 Hu) as (w' & Hsend & Hsends & Hst & Hstore).
    exists w'. split; [|split; [|split; [|split]]].
    + unfold TodoController.deleteTodo. rewrite Hnan. apply try_catch_Return.
      rewrite (bind_Return _ _ _ _ _ Hread). cbv iota.
      rewrite (bind_Return _ _ _ _ _ Hdel). exact Hsend.
    + rewrite Hsends. unfold w2, w1. now autorewrite with sends.
    + rewrite Hstore. reflexivity.
    + rewrite Hstore. exact Hgone.
    + discriminate.
  - rewrite bool_decide_eq_false_2 by (intros [? ?]; discriminate).
    pose proof (Todo_read_missing w _ z Hz Hrow Hcalm) as Hread.
    set (w1 := pop_fault (record (Sql Release) _)) in Hread.
    destruct (sent_once request (respond StatusCode.NotFound "Not found") w1 Hu)
      as (w' & Hsend & Hsends & Hst & Hstore).
    exists w'. split; [|split; [|split; [|split]]].
    + unfold TodoController.deleteTodo. rewrite Hnan. apply try_catch_Return.
      rewrite (bind_Return _ _ _ _ _ Hread). exact Hsend.
    + rewrite Hsends. unfold w1. now autorewrite with sends.
    + rewrite Hstore. symmetry. now apply Hsame.
    + rewrite Hstore. exact Hrow.
    + intros _. exact Hstore.
Qed.

(** [DELETE /todos/1] on the sample store. *)
Lemma deleteTodo_deletes_witness :
  let request := Sample.request "DELETE" "/todos/1" [] (JObj []) in
  let w := Sample.world Sample.store2 [] in
  exists w' : World.t,
    TodoController.deleteTodo (H := Sample.platform) request w = (Return tt, w')
    /\ sends w'
       = sends w
         ++ [if bool_decide (is_Some (find_todo (store w) 1))
             then with_redirect "/todos"
                    (respond StatusCode.Redirect "Todo deleted successfully!")
             else respond StatusCode.NotFound "Not found"]
    /\ store w' = Reading.without_todo 1 (store w)
    /\ find_todo (store w') 1 = None
    /\ (find_todo (store w) 1 = None -> store w' = store w).
Proof.
  intros request w.
  apply (deleteTodo_deletes (H := Sample.platform) request w 1).
  - vm_compute. reflexivity.
  - repeat constructor. apply not_elem_of_nil.
  - constructor.
  - split; reflexivity.
Defined.

(** ** controllers/SubTodoController.ts on a store that answers *)

Lemma SubTodo_markComplete_calm (w : World.t) (z : Z) (row : subtodos.row) :
  find_subtodo (store w) z = Some row -> - 2 ^ 31 <= z < 2 ^ 31 ->
  Reading.calm (faults w) ->
  exists self' : SubTodo.t,
    SubTodo.markComplete (SubTodo.of_row row) w
    = (Return self',
       set_store
         (SubTodo.set_subtodos
            ((fun x => if subtodos.id x =? z
                       then Reading.updated_subtodo None (Some complete)
                              (Some (clock w)) row
                       else x) <$> subtodos_rows (store w))
            (subtodos_id_seq (store w)) (store w))
         (pop_fault (record (Sql (Update "subtodos")) w))).
Proof.
  intros Hrow Hrange Hcalm.
  assert (Hid : SubTodoProps.id (SubTodo.props (SubTodo.of_row row))
                = Some (num_of_Z z))
    by (cbn; now rewrite (find_subtodo_id _ _ _ Hrow)).
  pose proof (SubTodo_update_calm (SubTodo.of_row row) w (num_of_Z z) z row
                None (Some complete) (Some (clock w)) Hid
                (pg_integer_num_of_Z z Hrange) Hrow Hcalm ltac:(discriminate)
                ltac:(right; left; discriminate)) as Hupd.
  cbn zeta in Hupd. eexists.
  unfold SubTodo.markComplete, Date_now, bind. exact Hupd.
Qed.

(** X29. [completeSubTodo] never compares the two ids of its route: for
    any positive todo id, a stored subtodo of the second id is marked
    complete (whichever todo it belongs to, and whether or not the todo of
    the route exists) by one select and one update, and the one [send] is a
    302 redirect to [/todos/<todo id>]. *)
Theorem completeSubTodo_ignores_owner `{Platform} (request : Request.t)
  (w : World.t) (z : Z) (row : subtodos.row) :
  isNaN (Request.getId request) = false ->
  le_zero (Request.getId request) = false ->
  pg_integer (Request.getSubTodoId request) = Some z ->
  le_zero (Request.getSubTodoId request) = false ->
  find_subtodo (store w) z = Some row ->
  Reading.calm (faults w) -> Reading.unsent (res w) ->
  exists w' : World.t,
    SubTodoController.completeSubTodo request w = (Return tt, w')
    /\ sends w'
       = sends w
         ++ [with_redirect
               ("/todos/" +:+ Number_toString (Request.getId request))
               (respond StatusCode.Redirect "SubTodo marked as complete!")]
    /\ find_subtodo (store w') z
       = Some (Reading.updated_subtodo None (Some complete) (Some (clock w)) row)
    /\ todos_rows (store w') = todos_rows (store w)
    /\ statements w'
       = statements w ++ [Select "subtodos"; Update "subtodos"].
Proof.
  intros Hnan Hpos Hz Hsubpos Hrow Hcalm Hu.
  pose proof (SubTodo_read_calm w _ z Hz Hcalm) as Hread.
  rewrite Hrow in Hread. cbn [fmap option_fmap option_map] in Hread.
  set (w1 := pop_fault (record (Sql (Select "subtodos")) w)) in Hread.
  assert (Hc1 : Reading.calm (faults w1)) by apply calm_tail, Hcalm.
  destruct (SubTodo_markComplete_calm w1 z row Hrow (pg_integer_range _ _ Hz)
              Hc1) as (self' & Hmark).
  set (w2 := set_store _ _) in Hmark.
  set (p := with_redirect
              ("/todos/" +:+ Number_toString (Request.getId request))
              (respond StatusCode.Redirect "SubTodo marked as complete!")).
  destruct (sent_once request p w2 Hu) as (w' & Hsend & Hsends & Hst & Hstore).
  exists w'. split; [|split; [|split; [|split]]].
  - unfold SubTodoController.completeSubTodo. apply try_catch_Return.
    rewrite Hnan, Hpos, (pg_integer_not_NaN _ _ Hz), Hsubpos. cbn [orb].
    rewrite (bind_Return _ _ _ _ _ Hread). cbv iota.
    rewrite (bind_Return _ _ _ _ _ Hmark). exact Hsend.
  - rewrite Hsends. unfold w2, w1. now autorewrite with sends.
  - rewrite Hstore. unfold find_subtodo in *.
    cbn [store set_store subtodos_rows SubTodo.set_subtodos].
    apply (find_subtodo_replaced z _ _ row Hrow).
    cbn [Reading.updated_subtodo subtodos.id].
    exact (find_subtodo_id _ _ _ Hrow).
  - rewrite Hstore. reflexivity.
  - rewrite Hst. unfold w2, w1.
    now autorewrite with statements; rewrite <- !app_assoc.
Qed.

(** Subtodo 1 belongs to todo 1; the route names todo 7, which is not stored. *)
Lemma completeSubTodo_ignores_owner_witness :
  let request := Sample.request "PUT" "/todos/7/subtodos/1/complete" []
                   (JObj []) in
  let w := Sample.world Sample.store2 [] in
  exists w' : World.t,
    SubTodoController.completeSubTodo (H := Sample.platform) request w
    = (Return tt, w')
    /\ sends w'
       = sends w
         ++ [with_redirect
               ("/todos/" +:+ Number_toString (Platform := Sample.platform)
                                (Request.getId request))
               (respond StatusCode.Redirect "SubTodo marked as complete!")]
    /\ find_subtodo (store w') 1
       = Some (Reading.updated_subtodo None (Some complete) (Some (clock w))
                 Sample.sub1)
    /\ todos_rows (store w') = todos_rows (store w)
    /\ statements w'
       = statements w ++ [Select "subtodos"; Update "subtodos"].
Proof.
  intros request w.
  apply (completeSubTodo_ignores_owner (H := Sample.platform) request w 1
           Sample.sub1).
  - vm_compute. reflexivity.
  - vm_compute. reflexivity.
  - vm_compute. reflexivity.
  - vm_compute. reflexivity.
  - reflexivity.
  - constructor.
  - split; reflexivity.
Defined.

(** X28. [createSubtodo] with an empty title: the check on the props
    passes (the title is a string), [SubTodo.create] throws on it, and the
    one [send] is 500 "Internal Server Error" from the [catch] block, not
    a 400; no row is added, whatever the store does. *)
Theorem createSubtodo_empty_title `{Platform} (request : Request.t)
  (w : World.t) :
  member (Request.body request) "title" = JStr "" ->
  Reading.unsent (res w) ->
  exists w' : World.t,
    SubTodoController.createSubtodo request w = (Return tt, w')
    /\ sends w'
       = sends w
         ++ [with_template "ErrorView"
               (respond StatusCode.InternalServerError "Internal Server Error")]
    /\ subtodos_rows (store w') = subtodos_rows (store w)
    /\ todos_rows (store w') = todos_rows (store w).
Proof.
  intros Htitle Hu.
  set (p := SubTodoPartial.of_props
              {| SubTodoProps.id := None; SubTodoProps.title := "";
                 SubTodoProps.status := incomplete;
                 SubTodoProps.createdAt := createUTCDate (ValidDate (clock w));
                 SubTodoProps.completedAt := None;
                 SubTodoProps.todoId := Some (Request.getId request) |}).
  destruct (SubTodo_create_rejects p w ltac:(left; reflexivity))
    as (e & w1 & Hcreate & Hsubs & Htodos).
  destruct (quiet_SubTodo_create p w) as [Hq Hr]. rewrite Hcreate in Hq, Hr.
  cbn [snd] in Hq, Hr.
  assert (Hu1 : Reading.unsent (res w1)) by now rewrite Hr.
  destruct (sent_once request SubTodoController.internal_error w1 Hu1)
    as (w' & Hsend & Hsends & Hst & Hstore).
  exists w'. split; [|split; [|split]].
  - unfold SubTodoController.createSubtodo.
    erewrite try_catch_Throw; [exact Hsend|].
    rewrite (bind_Return _ _ _ _ _
               (body_of_run request w (member_not_nullish _ _ _ Htitle))).
    unfold Todo.createUTCDate_now, Date_now. unfold bind at 1. unfold bind at 1.
    unfold ret at 1. rewrite Htitle.
    cbn [SubTodoController.isValidSubTodoProps].
    apply bind_Throw. exact Hcreate.
  - rewrite Hsends, Hq. reflexivity.
  - now rewrite Hstore.
  - now rewrite Hstore.
Qed.

(** [POST /todos/1/subtodos] with an empty title. *)
Lemma createSubtodo_empty_title_witness :
  let request := Sample.request "POST" "/todos/1/subtodos" []
                   (JObj [("title", JStr "")]) in
  let w := Sample.world Sample.store2 [] in
  exists w' : World.t,
    SubTodoController.createSubtodo (H := Sample.platform) request w
    = (Return tt, w')
    /\ sends w'
       = sends w
         ++ [with_template "ErrorView"
               (respond StatusCode.InternalServerError "Internal Server Error")]
    /\ subtodos_rows (store w') = subtodos_rows (store w)
    /\ todos_rows (store w') = todos_rows (store w).
Proof.
  intros request w.
  apply (createSubtodo_empty_title (H := Sample.platform) request w).
  - reflexivity.
  - split; reflexivity.
Defined.

(** X30. [deleteSubTodo] with a positive id on a store that answers: when
    a subtodo of that id is stored it is deleted and the one [send] is 200
    "SubTodo deleted successfully!"; when none is, the [send] is 404
    "SubTodo not found".  Either way no subtodo of that id is stored
    afterwards, the other subtodos and the todos are as before. *)
Theorem deleteSubTodo_deletes `{Platform} (request : Request.t) (w : World.t)
  (z : Z) :
  pg_integer (Request.getId request) = Some z ->
  le_zero (Request.getId request) = false ->
  Reading.calm (faults w) -> Reading.unsent (res w) ->
  exists w' : World.t,
    SubTodoController.deleteSubTodo request w = (Return tt, w')
    /\ sends w'
       = sends w
         ++ [if bool_decide (is_Some (find_subtodo (store w) z))
             then respond StatusCode.OK "SubTodo deleted successfully!"
             else respond StatusCode.NotFound "SubTodo not found"]
    /\ find_subtodo (store w') z = None
    /\ subtodos_rows (store w')
       = List.filter (fun r => negb (subtodos.id r =? z))
                     (subtodos_rows (store w))
    /\ todos_rows (store w') = todos_rows (store w).
Proof.
  intros Hz Hpos Hcalm Hu.
  pose proof (SubTodo_read_calm w _ z Hz Hcalm) as Hread.
  set (w1 := pop_fault (record (Sql (Select "subtodos")) w)) in Hread.
  assert (Hc1 : Reading.calm (faults w1)) by apply calm_tail, Hcalm.
  destruct (find_subtodo (store w) z) as [row|] eqn:Hrow;
    cbn [fmap option_fmap option_map] in Hread.
  - rewrite bool_decide_eq_true_2 by now eexists.
    pose proof (SubTodo_delete_row_calm w1 (num_of_Z z) z
                  (pg_integer_num_of_Z z (pg_integer_range _ _ Hz)) Hc1) as Hdel.
    change (store w1) with (store w) in Hdel.
    set (w2 := set_store _ _) in Hdel.
    destruct (sent_once request
                (respond StatusCode.OK "SubTodo deleted successfully!") w2 Hu)
      as (w' & Hsend & Hsends & Hst & Hstore).
    exists w'. split; [|split; [|split; [|split]]].
    + unfold SubTodoController.deleteSubTodo. apply try_catch_Return.
      rewrite (pg_integer_not_NaN _ _ Hz), Hpos. cbn [orb].
      rewrite (bind_Return _ _ _ _ _ Hread). cbv iota.
      erewrite bind_Return; [exact Hsend|].
      unfold SubTodo.delete. cbn [SubTodo.props SubTodo.of_row SubTodoProps.id].
      rewrite (find_subtodo_id _ _ _ Hrow).
      rewrite (bind_Return _ _ _ _ _ Hdel).
      destruct (filter_find_some _ _ _ Hrow) as [l' ->]. reflexivity.
    + rewrite Hsends. unfold w2, w1. now autorewrite with sends.
    + rewrite Hstore. apply (filter_find_none (fun r => subtodos.id r =? z)).
    + rewrite Hstore. reflexivity.
    + rewrite Hstore. reflexivity.
  - rewrite bool_decide_eq_false_2 by (intros [? ?]; discriminate).
    destruct (sent_once request
                (respond StatusCode.NotFound "SubTodo not found") w1 Hu)
      as (w' & Hsend & Hsends & Hst & Hstore).
    exists w'. split; [|split; [|split; [|split]]].
    + unfold SubTodoController.deleteSubTodo. apply try_catch_Return.
      rewrite (pg_integer_not_NaN _ _ Hz), Hpos. cbn [orb].
      rewrite (bind_Return _ _ _ _ _ Hread). exact Hsend.
    + rewrite Hsends. unfold w1. now autorewrite with sends.
    + rewrite Hstore. exact Hrow.
    + rewrite Hstore. cbn [store pop_fault record].
      unfold find_subtodo in Hrow.
      now rewrite (filter_negb_find_none (fun r => subtodos.id r =? z) _ Hrow).
    + rewrite Hstore. reflexivity.
Qed.

(** [DELETE /subtodos/1] on the sample store. *)
Lemma deleteSubTodo_deletes_witness :
  let request := Sample.request "DELETE" "/subtodos/1" [] (JObj []) in
  let w := Sample.world Sample.store2 [] in
  exists w' : World.t,
    SubTodoController.deleteSubTodo (H := Sample.platform) request w
    = (Return tt, w')
    /\ sends w'
       = sends w
         ++ [if bool_decide (is_Some (find_subtodo (store w) 1))
             then respond StatusCode.OK "SubTodo deleted successfully!"
             else respond StatusCode.NotFound "SubTodo not found"]
    /\ find_subtodo (store w') 1 = None
    /\ subtodos_rows (store w')
       = List.filter (fun r => negb (subtodos.id r =? 1))
                     (subtodos_rows (store w))
    /\ todos_rows (store w') = todos_rows (store w).
Proof.
  intros request w.
  apply (deleteSubTodo_deletes (H := Sample.platform) request w 1).
  - vm_compute. reflexivity.
  - vm_compute. reflexivity.
  - constructor.
  - split; reflexivity.
Defined.

(** [DELETE /subtodos/1] while the store is down. *)
Lemma handlers_send_exactly_once_witness :
  exists (w' : World.t) (p : Response.ResponseProps),
    SubTodoController.deleteSubTodo (H := Sample.platform)
      (Sample.request "DELETE" "/subtodos/1" [] (JObj []))
      (Sample.world Sample.store1 [true])
    = (Return tt, w')
    /\ sends w' = sends (Sample.world Sample.store1 [true]) ++ [p].
Proof.
  apply (handlers_send_exactly_once (H := Sample.platform)).
  - cbn [In]. tauto.
  - split; reflexivity.
Defined.

(** [PUT /todos/1] while the store fails at its second interaction. *)
Lemma todo_handlers_send_once_with_body_witness :
  let request := Sample.request "PUT" "/todos/1" []
                   (JObj [("title", JStr "Call"); ("description", JStr "now")]) in
  let w := Sample.world Sample.store1 [false; true] in
  exists (w' : World.t) (p : Response.ResponseProps),
    TodoController.updateTodo (H := Sample.platform) request w = (Return tt, w')
    /\ sends w' = sends w ++ [p].
Proof.
  intros request w.
  apply (todo_handlers_send_once_with_body (H := Sample.platform)
           TodoController.updateTodo request w).
  - cbn [In]. tauto.
  - reflexivity.
  - split; reflexivity.
Defined.
